(** * RAGvix: a shallow embedding of the retrieval pipeline

    The development follows the Python sources of the repository:
    - [ragvix/utils/io.py]            (module [Io]),
    - [ragvix/index/chunker.py]       (module [Chunker]),
    - [ragvix/eval/retrieval_eval.py] (module [RetrievalEval]),
    - [ragvix/index/faiss_store.py]   (modules [FaissStore], [FaissStoreBuild]),
    - [ragvix/retriever/retriever.py] (modules [Retriever], [RetrieverContext]),
    - [ragvix/ingest/arxiv_client.py] (modules [ArxivClient], [ArxivMetadata]),
    - [ragvix/rag/pipeline.py]        (module [RagPipeline]),
    - [scripts/build_index.py]        (module [BuildIndexScript]),
    with the settings they read from [ragvix/config.py] (module
    [Settings]).  What they use of Python is modelled next to them: the
    string methods, the [json] module (module [PyJson]), text files, and
    the arithmetic of [int] and [float].  The embedding model and the
    FAISS index are an interface, [Backend].

    Python values are modelled as the code has them: a [str] is a list of
    code points, an [int] is a [Z], a [dict] with string keys is an
    association list in insertion order, a [set] is a [gset], a [float] is
    an IEEE binary64 number ([spec_float] with precision 53), and a raised
    exception is the [Raise] alternative of [result].

    The first part holds the model, the second part its properties. *)

From Stdlib Require Import ZArith NArith List Lia Bool Ascii String SpecFloat.
From Stdlib Require DecimalFacts DecimalPos.
From stdpp Require Import gmap strings list.

Open Scope Z_scope.

(** ** Python values *)

(** A Python [str]: its code points, in order. *)
Definition text := list N.

(** A literal of the source, read one code point per character. *)
Definition txt (s : string) : text :=
  map (fun a => N_of_ascii a) (list_ascii_of_string s).

(** The exceptions the modelled code can raise.  [FloatLiteral] is not a
    Python exception: the JSON decoder answers it for a number with a
    fraction or an exponent and for [NaN] and [Infinity], which are floats
    and outside this development.  [Exit] is [typer.Exit]. *)
Inductive exn :=
| ValueError (msg : text)
| FileNotFoundError (msg : text)
| IndexError
| KeyError (key : text)
| TypeError
| AttributeError
| OverflowError
| ZeroDivisionError
| JSONDecodeError
| FloatLiteral
| RecursionError
| UnicodeDecodeError
| UnicodeEncodeError
| RuntimeError
| Exit (code : Z).

Inductive result (A : Type) :=
| Ok (a : A)
| Raise (e : exn).
Arguments Ok {A} a.
Arguments Raise {A} e.

(** Exceptions propagate: [x ← r; k] runs [k] on the value of [r], and
    raises what [r] raises. *)
#[export] Instance result_ret : MRet result := fun _ a => Ok a.
#[export] Instance result_bind : MBind result := fun _ _ k r =>
  match r with
  | Ok a => k a
  | Raise e => Raise e
  end.

(** The values that travel through the pipeline as dictionaries, lists,
    strings and integers.  Floats do not occur in any record the chunker,
    the store or the ingestion client writes, and are left out. *)
Unset Elimination Schemes.
Inductive json :=
| JNull
| JBool (b : bool)
| JInt (z : Z)
| JStr (s : text)
| JArr (items : list json)
| JObj (fields : list (text * json)).
Set Elimination Schemes.

Definition text_eqb (a b : text) : bool := bool_decide (a = b).

(** [d.get(key)]: the value stored under [key], if any. *)
Fixpoint assoc (key : text) (fields : list (text * json)) : option json :=
  match fields with
  | [] => None
  | (k, v) :: rest => if text_eqb k key then Some v else assoc key rest
  end.

(** [d.get(key, default)] on a dictionary. *)
Definition dict_get (fields : list (text * json)) (key : text) (default : json) : json :=
  match assoc key fields with
  | Some v => v
  | None => default
  end.

(** Python truthiness, [bool(v)]. *)
Definition py_truthy (v : json) : bool :=
  match v with
  | JNull => false
  | JBool b => b
  | JInt z => negb (z =? 0)
  | JStr s => negb (bool_decide (s = []))
  | JArr l => negb (bool_decide (l = []))
  | JObj f => negb (bool_decide (f = []))
  end.

(** [len(v)]: defined on strings, lists and dictionaries only. *)
Definition py_len (v : json) : result Z :=
  match v with
  | JStr s => Ok (Z.of_nat (length s))
  | JArr l => Ok (Z.of_nat (length l))
  | JObj f => Ok (Z.of_nat (length f))
  | _ => Raise TypeError
  end.

(** ** Strings *)

(** [str.isspace] on one code point: the characters [str.strip] removes. *)
Definition py_isspace (c : N) : bool :=
  ((9 <=? c) && (c <=? 13) || (28 <=? c) && (c <=? 32)
   || (c =? 133) || (c =? 160) || (c =? 5760)
   || (8192 <=? c) && (c <=? 8202)
   || (c =? 8232) || (c =? 8233) || (c =? 8239) || (c =? 8287)
   || (c =? 12288))%N.

Fixpoint py_lstrip (s : text) : text :=
  match s with
  | [] => []
  | c :: rest => if py_isspace c then py_lstrip rest else s
  end.

Definition py_rstrip (s : text) : text := rev (py_lstrip (rev s)).

(** [s.strip()] *)
Definition py_strip (s : text) : text := py_rstrip (py_lstrip s).

(** A slice bound as Python adjusts it: a negative bound counts from the
    end, and the outcome is clamped to [0, len]. *)
Definition slice_bound (len i : Z) : Z :=
  if i <? 0 then Z.max (i + len) 0 else Z.min i len.

(** [s[lo:hi]] *)
Definition py_slice {A} (s : list A) (lo hi : Z) : list A :=
  let len := Z.of_nat (length s) in
  let lo' := slice_bound len lo in
  let hi' := slice_bound len hi in
  firstn (Z.to_nat (hi' - lo')) (skipn (Z.to_nat lo') s).

(** ** Floats *)

Definition prec := 53.
Definition emax := 1024.

(** [float(n)] for an [int]: rounded to nearest even, and an
    [OverflowError] when the integer is beyond the range of a double. *)
Definition py_float_of_int (n : Z) : result spec_float :=
  match binary_normalize prec emax n 0 false with
  | S754_infinity _ => Raise OverflowError
  | f => Ok f
  end.

(** [n * x] for an [int] n and a [float] x. *)
Definition py_int_mul_float (n : Z) (x : spec_float) : result spec_float :=
  f ← py_float_of_int n; Ok (SFmul prec emax f x).

(** [n < x] for an [int] n and a [float] x; Python compares the two
    exactly, without rounding the integer. *)
Definition py_int_lt_float (n : Z) (x : spec_float) : bool :=
  match x with
  | S754_nan => false
  | S754_infinity s => negb s
  | S754_zero _ => n <? 0
  | S754_finite s m e =>
      let v := if s then Z.neg m else Z.pos m in
      if 0 <=? e then n <? v * 2 ^ e else n * 2 ^ (- e) <? v
  end.

(** The literal [0.1]: the double 0x3FB999999999999A. *)
Definition float_0_1 : spec_float := S754_finite false 7205759403792794 (-56).

(** ** The [json] module of the Python library

    [json.dumps(v, ensure_ascii=False)] and [json.loads(s)], on the values
    of [json].  Code points are written in decimal: 34 is the double
    quote, 92 the backslash, 44 the comma, 58 the colon, 91 and 93 the
    square brackets, 123 and 125 the braces, 45 the minus sign, 48 the
    digit zero. *)

Module PyJson.

(** *** Encoder *)

Definition hex_char (d : N) : N := (if d <? 10 then 48 + d else 87 + d)%N.

(** The replacement of one character of a string ([ESCAPE_DCT]): the
    quote, the backslash and the control characters are escaped, every
    other character is written as it is. *)
Definition escape_char (c : N) : text :=
  (if c =? 34 then [92; 34]
   else if c =? 92 then [92; 92]
   else if c =? 10 then [92; 110]
   else if c =? 13 then [92; 114]
   else if c =? 9 then [92; 116]
   else if c =? 8 then [92; 98]
   else if c =? 12 then [92; 102]
   else if c <? 32 then [92; 117; 48; 48; hex_char (c / 16); hex_char (c mod 16)]
   else [c])%N.

Definition encode_str (s : text) : text :=
  34%N :: flat_map escape_char s ++ [34%N].

Fixpoint uint_chars (d : Decimal.uint) : text :=
  match d with
  | Decimal.Nil => []
  | Decimal.D0 d => 48%N :: uint_chars d
  | Decimal.D1 d => 49%N :: uint_chars d
  | Decimal.D2 d => 50%N :: uint_chars d
  | Decimal.D3 d => 51%N :: uint_chars d
  | Decimal.D4 d => 52%N :: uint_chars d
  | Decimal.D5 d => 53%N :: uint_chars d
  | Decimal.D6 d => 54%N :: uint_chars d
  | Decimal.D7 d => 55%N :: uint_chars d
  | Decimal.D8 d => 56%N :: uint_chars d
  | Decimal.D9 d => 57%N :: uint_chars d
  end.

(** [int.__repr__] *)
Definition encode_int (z : Z) : text :=
  match z with
  | Z0 => [48%N]
  | Zpos p => uint_chars (Pos.to_uint p)
  | Zneg p => 45%N :: uint_chars (Pos.to_uint p)
  end.

(** [sep.join(parts)] *)
Fixpoint join (sep : text) (parts : list text) : text :=
  match parts with
  | [] => []
  | [p] => p
  | p :: rest => p ++ sep ++ join sep rest
  end.

(** [json.dumps(v, ensure_ascii=False)], with the default separators
    [", "] and [": "]. *)
Fixpoint dumps (v : json) : text :=
  match v with
  | JNull => txt "null"
  | JBool true => txt "true"
  | JBool false => txt "false"
  | JInt z => encode_int z
  | JStr s => encode_str s
  | JArr items => 91%N :: join [44%N; 32%N] (map dumps items) ++ [93%N]
  | JObj fields =>
      123%N :: join [44%N; 32%N]
                 (map (fun kv => encode_str (fst kv) ++ [58%N; 32%N] ++ dumps (snd kv))
                      fields)
        ++ [125%N]
  end.

(** The four hexadecimal digits of [n], lower case. *)
Definition hex4 (n : N) : text :=
  [hex_char (n / 4096); hex_char ((n / 256) mod 16);
   hex_char ((n / 16) mod 16); hex_char (n mod 16)]%N.

(** The replacement of one character with [ensure_ascii=True]: as
    [escape_char], and every character outside the printable ASCII range
    becomes a [\uXXXX] escape, or a pair of them above U+FFFF. *)
Definition escape_char_ascii (c : N) : text :=
  (if c =? 34 then [92; 34]
   else if c =? 92 then [92; 92]
   else if c =? 10 then [92; 110]
   else if c =? 13 then [92; 114]
   else if c =? 9 then [92; 116]
   else if c =? 8 then [92; 98]
   else if c =? 12 then [92; 102]
   else if (32 <=? c) && (c <=? 126) then [c]
   else if c <? 65536 then [92; 117] ++ hex4 c
   else [92; 117] ++ hex4 (55296 + ((c - 65536) / 1024) mod 1024)
        ++ [92; 117] ++ hex4 (56320 + (c - 65536) mod 1024))%N.

Definition encode_str_ascii (s : text) : text :=
  34%N :: flat_map escape_char_ascii s ++ [34%N].

(** A line feed and the indentation of [level], two spaces a level. *)
Definition newline_indent (level : nat) : text :=
  10%N :: repeat 32%N (2 * level).

(** [json.dumps(v, indent=2)], at nesting [level]: one item or member a
    line, separated by commas, and ASCII only. *)
Fixpoint dumps_pretty (level : nat) (v : json) : text :=
  match v with
  | JNull => txt "null"
  | JBool true => txt "true"
  | JBool false => txt "false"
  | JInt z => encode_int z
  | JStr s => encode_str_ascii s
  | JArr [] => txt "[]"
  | JArr items =>
      91%N :: newline_indent (S level)
        ++ join (44%N :: newline_indent (S level)) (map (dumps_pretty (S level)) items)
        ++ newline_indent level ++ [93%N]
  | JObj [] => txt "{}"
  | JObj fields =>
      123%N :: newline_indent (S level)
        ++ join (44%N :: newline_indent (S level))
             (map (fun kv => encode_str_ascii (fst kv) ++ [58%N; 32%N]
                             ++ dumps_pretty (S level) (snd kv)) fields)
        ++ newline_indent level ++ [125%N]
  end.

(** *** Decoder *)

Definition is_ws (c : N) : bool :=
  ((c =? 32) || (c =? 9) || (c =? 10) || (c =? 13))%N.

(** The match of [WHITESPACE = [ \t\n\r]*] is skipped. *)
Fixpoint skip_ws (s : text) : text :=
  match s with
  | c :: rest => if is_ws c then skip_ws rest else s
  | [] => []
  end.

Definition hex_digit (c : N) : option N :=
  (if (48 <=? c) && (c <=? 57) then Some (c - 48)
   else if (97 <=? c) && (c <=? 102) then Some (c - 87)
   else if (65 <=? c) && (c <=? 70) then Some (c - 55)
   else None)%N.

(** The four hexadecimal digits of a [\uXXXX] escape. *)
Definition decode_hex4 (a b c d : N) : option N :=
  ha ← hex_digit a; hb ← hex_digit b; hc ← hex_digit c; hd ← hex_digit d;
  Some (((ha * 16 + hb) * 16 + hc) * 16 + hd)%N.

(** The character a one-letter escape stands for ([BACKSLASH]). *)
Definition backslash (c : N) : option N :=
  (if c =? 34 then Some 34
   else if c =? 92 then Some 92
   else if c =? 47 then Some 47
   else if c =? 98 then Some 8
   else if c =? 102 then Some 12
   else if c =? 110 then Some 10
   else if c =? 114 then Some 13
   else if c =? 116 then Some 9
   else None)%N.

Definition is_high_surrogate (c : N) : bool := ((55296 <=? c) && (c <=? 56319))%N.
Definition is_low_surrogate (c : N) : bool := ((56320 <=? c) && (c <=? 57343))%N.

(** [scanstring], strict: [s] starts after the opening quote; the
    characters read so far are in [acc], last first.  Returns the string
    and the text after the closing quote. *)
Fixpoint scanstring (s : text) (acc : text) : result (text * text) :=
  match s with
  | [] => Raise JSONDecodeError
  | c :: r =>
      if (c =? 34)%N then Ok (rev acc, r)
      else if (c =? 92)%N then
        match r with
        | [] => Raise JSONDecodeError
        | esc :: r1 =>
            if (esc =? 117)%N then
              match r1 with
              | a :: b :: c :: d :: r2 =>
                  match decode_hex4 a b c d with
                  | None => Raise JSONDecodeError
                  | Some uni =>
                      if is_high_surrogate uni then
                        match r2 with
                        | bs :: u :: a2 :: b2 :: c2 :: d2 :: r3 =>
                            if ((bs =? 92) && (u =? 117))%N then
                              match decode_hex4 a2 b2 c2 d2 with
                              | None => Raise JSONDecodeError
                              | Some uni2 =>
                                  if is_low_surrogate uni2
                                  then scanstring r3
                                         ((65536 + (uni - 55296) * 1024
                                           + (uni2 - 56320))%N :: acc)
                                  else scanstring r2 (uni :: acc)
                              end
                            else scanstring r2 (uni :: acc)
                        | _ => scanstring r2 (uni :: acc)
                        end
                      else scanstring r2 (uni :: acc)
                  end
              | _ => Raise JSONDecodeError
              end
            else
              match backslash esc with
              | Some ch => scanstring r1 (ch :: acc)
              | None => Raise JSONDecodeError
              end
        end
      else if (c <? 32)%N then Raise JSONDecodeError
      else scanstring r (c :: acc)
  end.

Definition digit_value (c : N) : option N :=
  (if (48 <=? c) && (c <=? 57) then Some (c - 48) else None)%N.

(** The longest run of digits at the start of [s], read as a number on
    top of [acc], and what follows it. *)
Fixpoint scan_digits (s : text) (acc : N) : N * text :=
  match s with
  | c :: r =>
      match digit_value c with
      | Some d => scan_digits r (acc * 10 + d)%N
      | None => (acc, s)
      end
  | [] => (acc, [])
  end.

Definition starts_with_digit (s : text) : bool :=
  match s with
  | c :: _ => bool_decide (is_Some (digit_value c))
  | [] => false
  end.

(** Whether a fraction [\.\d+] or an exponent [[eE][-+]?\d+] follows the
    integer part, which makes the number a float. *)
Definition float_follows (s : text) : bool :=
  match s with
  | c :: r =>
      if (c =? 46)%N then starts_with_digit r
      else if ((c =? 101) || (c =? 69))%N then
        match r with
        | sg :: r' =>
            if ((sg =? 43) || (sg =? 45))%N then starts_with_digit r'
            else starts_with_digit r
        | [] => false
        end
      else false
  | [] => false
  end.

(** [NUMBER_RE]: the integer part, an optional minus sign followed by 0 or
    by a non-zero digit and further digits, read at the start of
    [s].  A number with a fraction or an exponent is a float; floats are
    outside this development, and the decoder answers [FloatLiteral] for
    them. *)
Definition scan_number (s : text) : result (json * text) :=
  let '(neg, s1) :=
    match s with
    | c :: r => if (c =? 45)%N then (true, r) else (false, s)
    | [] => (false, s)
    end in
  match s1 with
  | c :: r =>
      match digit_value c with
      | None => Raise JSONDecodeError
      | Some d =>
          let '(n, rest) := if (d =? 0)%N then (0%N, r) else scan_digits r d in
          if float_follows rest then Raise FloatLiteral
          else Ok (JInt (if neg then - Z.of_N n else Z.of_N n), rest)
      end
  | [] => Raise JSONDecodeError
  end.

(** [prefix] at the start of [s]: the text after it. *)
Fixpoint strip_prefix (prefix s : text) : option text :=
  match prefix, s with
  | [], _ => Some s
  | p :: prefix', c :: s' => if (p =? c)%N then strip_prefix prefix' s' else None
  | _ :: _, [] => None
  end.

(** [d[key] = value] on a dictionary: the value of a key already there is
    replaced where it stands, a new key goes to the end. *)
Fixpoint dict_set (fields : list (text * json)) (key : text) (value : json)
    : list (text * json) :=
  match fields with
  | [] => [(key, value)]
  | (k, v) :: rest =>
      if text_eqb k key then (k, value) :: rest
      else (k, v) :: dict_set rest key value
  end.

Definition dict_of_pairs (pairs : list (text * json)) : list (text * json) :=
  foldl (fun d kv => dict_set d (fst kv) (snd kv)) [] pairs.

(** [scan_once]: the value at the start of [s] and the text after it: a
    string, an object, an array, one of [null], [true], [false], a number,
    or one of the float constants [NaN], [Infinity], [-Infinity], tried in
    this order.  [fuel] bounds the nesting and the number of members;
    running out of it is Python's [RecursionError]. *)
Fixpoint scan_once (fuel : nat) (s : text) : result (json * text) :=
  match fuel with
  | O => Raise RecursionError
  | S fuel =>
      match s with
      | [] => Raise JSONDecodeError
      | c :: r =>
          if (c =? 34)%N then
            sr ← scanstring r []; Ok (JStr (fst sr), snd sr)
          else if (c =? 123)%N then
            match skip_ws r with
            | c' :: r' =>
                if (c' =? 125)%N then Ok (JObj [], r')
                else
                  mr ← scan_members fuel (c' :: r');
                  Ok (JObj (dict_of_pairs (fst mr)), snd mr)
            | [] => Raise JSONDecodeError
            end
          else if (c =? 91)%N then
            match skip_ws r with
            | c' :: r' =>
                if (c' =? 93)%N then Ok (JArr [], r')
                else
                  er ← scan_elements fuel (c' :: r');
                  Ok (JArr (fst er), snd er)
            | [] => Raise JSONDecodeError
            end
          else
            match strip_prefix (txt "null") s,
                  strip_prefix (txt "true") s,
                  strip_prefix (txt "false") s with
            | Some rest, _, _ => Ok (JNull, rest)
            | _, Some rest, _ => Ok (JBool true, rest)
            | _, _, Some rest => Ok (JBool false, rest)
            | None, None, None =>
                match scan_number s with
                | Raise JSONDecodeError =>
                    if bool_decide (is_Some (strip_prefix (txt "NaN") s)
                                    \/ is_Some (strip_prefix (txt "Infinity") s)
                                    \/ is_Some (strip_prefix (txt "-Infinity") s))
                    then Raise FloatLiteral
                    else Raise JSONDecodeError
                | number => number
                end
            end
      end
  end
with scan_members (fuel : nat) (s : text) : result (list (text * json) * text) :=
  match fuel with
  | O => Raise RecursionError
  | S fuel =>
      match s with
      | c :: r =>
          if (c =? 34)%N then
            kr ← scanstring r [];
            match skip_ws (snd kr) with
            | colon :: r1 =>
                if (colon =? 58)%N then
                  vr ← scan_once fuel (skip_ws r1);
                  match skip_ws (snd vr) with
                  | d :: r2 =>
                      if (d =? 125)%N then Ok ([(fst kr, fst vr)], r2)
                      else if (d =? 44)%N then
                        mr ← scan_members fuel (skip_ws r2);
                        Ok ((fst kr, fst vr) :: fst mr, snd mr)
                      else Raise JSONDecodeError
                  | [] => Raise JSONDecodeError
                  end
                else Raise JSONDecodeError
            | [] => Raise JSONDecodeError
            end
          else Raise JSONDecodeError
      | [] => Raise JSONDecodeError
      end
  end
with scan_elements (fuel : nat) (s : text) : result (list json * text) :=
  match fuel with
  | O => Raise RecursionError
  | S fuel =>
      vr ← scan_once fuel s;
      match skip_ws (snd vr) with
      | d :: r2 =>
          if (d =? 93)%N then Ok ([fst vr], r2)
          else if (d =? 44)%N then
            er ← scan_elements fuel (skip_ws r2);
            Ok (fst vr :: fst er, snd er)
          else Raise JSONDecodeError
      | [] => Raise JSONDecodeError
      end
  end.

(** [json.loads(s)]: leading whitespace, one value, trailing whitespace,
    and nothing else. *)
Definition loads (s : text) : result json :=
  vr ← scan_once (S (length s)) (skip_ws s);
  if bool_decide (skip_ws (snd vr) = []) then Ok (fst vr)
  else Raise JSONDecodeError.

End PyJson.

(** ** Files

    A path names a text file or the binary file of a similarity index.
    Text files hold their decoded text: the UTF-8 codec writes every code
    point a text can be encoded from and raises [UnicodeEncodeError] on
    the others (the surrogates U+D800 to U+DFFF). *)

Inductive file (Ix : Type) :=
| TextFile (content : text)
| IndexFile (ix : Ix).
Arguments TextFile {Ix} content.
Arguments IndexFile {Ix} ix.

(** A code point UTF-8 can encode. *)
Definition encodable (c : N) : bool :=
  ((c <? 55296) || (57343 <? c) && (c <=? 1114111))%N.

(** The lines of a text file as iterating over it yields them, with
    universal newlines: a line ends at [\n], [\r] or [\r\n], and its end
    is handed over as [\n]. *)
Fixpoint file_lines (s : text) (cur : text) : list text :=
  match s with
  | [] => if bool_decide (cur = []) then [] else [rev cur]
  | c :: r =>
      if (c =? 10)%N then rev (10%N :: cur) :: file_lines r []
      else if (c =? 13)%N then
        match r with
        | c' :: r' =>
            if (c' =? 10)%N then rev (10%N :: cur) :: file_lines r' []
            else rev (10%N :: cur) :: file_lines r []
        | [] => [rev (10%N :: cur)]
        end
      else file_lines r (c :: cur)
  end.

(** [Path / name] *)
Definition path_join (dir name : string) : string :=
  (dir ++ "/" ++ name)%string.

(** ** ragvix/utils/io.py *)

Module Io.
Section Files.
Context {Ix : Type}.

(** The [for item in data] loop of [write_jsonl]: [written] is what the
    file holds so far.  A line that cannot be encoded raises, and the file
    keeps the lines written before it. *)
Fixpoint write_items (data : list json) (written : text) : text * result unit :=
  match data with
  | [] => (written, Ok tt)
  | item :: rest =>
      let line := PyJson.dumps item ++ [10%N] in
      if forallb encodable line then write_items rest (written ++ line)
      else (written, Raise UnicodeEncodeError)
  end.

(** [write_jsonl(data, filepath)]: the file is created or truncated, then
    written item by item.  Returns the files afterwards and the outcome.
    Directories are not modelled: [mkdir(parents=True, exist_ok=True)]
    creates the missing ones, and the path is taken to be writable. *)
Definition write_jsonl (data : list json) (filepath : string)
    (fs : gmap string (file Ix)) : gmap string (file Ix) * result unit :=
  let wr := write_items data [] in
  (<[filepath := TextFile (fst wr)]> fs, snd wr).

(** The [for line in f] loop of [read_jsonl]. *)
Fixpoint read_items (lines : list text) (data : list json) : result (list json) :=
  match lines with
  | [] => Ok data
  | line :: rest =>
      let line := py_strip line in
      if bool_decide (line = []) then read_items rest data
      else
        item ← PyJson.loads line;
        read_items rest (data ++ [item])
  end.

(** [read_jsonl(filepath)] *)
Definition read_jsonl (filepath : string) (fs : gmap string (file Ix))
    : result (list json) :=
  match fs !! filepath with
  | None => Raise (FileNotFoundError (txt filepath))
  | Some (IndexFile _) => Raise UnicodeDecodeError
  | Some (TextFile content) => read_items (file_lines content []) []
  end.

End Files.
End Io.

(** ** ragvix/index/chunker.py *)

Module Chunker.

(** The dictionary appended for one window. *)
Definition chunk_data (chunk : text) (arxiv_id title section : json)
    (index start : Z) : json :=
  JObj [ (txt "text", JStr chunk);
         (txt "metadata",
          JObj [ (txt "arxiv_id", arxiv_id);
                 (txt "title", title);
                 (txt "section", section);
                 (txt "chunk_index", JInt index);
                 (txt "char_start", JInt start);
                 (txt "char_end", JInt (start + Z.of_nat (length chunk)));
                 (txt "chunk_size", JInt (Z.of_nat (length chunk))) ]) ].

(** The state of [for i in range(0, len(text), step)]: the next value the
    range yields, and the chunks appended so far. *)
Record loop_state := { next_i : Z; chunks : list json }.

(** One round of the loop: [inr] when the loop is left (the range is
    exhausted, the body breaks, or an exception propagates), [inl] with
    the next state otherwise. *)
Definition iteration (text : text) (chunk_size step : Z)
    (arxiv_id title section : json) (st : loop_state)
    : loop_state + result (list json) :=
  if Z.of_nat (length text) <=? next_i st then inr (Ok (chunks st))
  else
    let chunk_text := py_slice text (next_i st) (next_i st + chunk_size) in
    match py_int_mul_float chunk_size float_0_1 with
    | Raise e => inr (Raise e)
    | Ok threshold =>
        if py_int_lt_float (Z.of_nat (length chunk_text)) threshold
        then inr (Ok (chunks st))
        else inl {| next_i := next_i st + step;
                    chunks := chunks st ++
                      [chunk_data chunk_text arxiv_id title section
                         (Z.of_nat (length (chunks st))) (next_i st)] |}
    end.

(** The loop, run for at most [fuel] rounds; [None] when they do not
    suffice. *)
Fixpoint run_loop (fuel : nat) (text : text) (chunk_size step : Z)
    (arxiv_id title section : json) (st : loop_state)
    : option (result (list json)) :=
  match fuel with
  | O => None
  | S fuel' =>
      match iteration text chunk_size step arxiv_id title section st with
      | inr r => Some r
      | inl st' => run_loop fuel' text chunk_size step arxiv_id title section st'
      end
  end.

(** [chunk_text] with an explicit bound on the rounds of its loop. *)
Definition chunk_text_fuel (fuel : nat) (text : text) (chunk_size overlap : Z)
    (arxiv_id title section : json) : option (result (list json)) :=
  if bool_decide (py_strip text = []) then Some (Ok [])
  else
    let text := py_strip text in
    let step := Z.max (chunk_size - overlap) 1 in
    run_loop fuel text chunk_size step arxiv_id title section
      {| next_i := 0; chunks := [] |}.

(** [chunk_text]: the loop runs at most once per character of the trimmed
    text and once more to find the range exhausted; [chunk_text_total]
    below shows that this bound is always enough, so the last branch is
    never taken. *)
Definition chunk_text (text : text) (chunk_size overlap : Z)
    (arxiv_id title section : json) : result (list json) :=
  match chunk_text_fuel (S (length (py_strip text))) text chunk_size overlap
          arxiv_id title section with
  | Some r => r
  | None => Raise RuntimeError
  end.

(** The contribution of one paper of [papers_metadata]. *)
Definition chunk_paper (paper : json) (chunk_abstracts : bool)
    (chunk_size overlap : Z) : result (list json) :=
  match paper with
  | JObj fields =>
      if negb (py_truthy (dict_get fields (txt "abstract") JNull)) then Ok []
      else
        let abstract := dict_get fields (txt "abstract") JNull in
        long ← (if chunk_abstracts
                then n ← py_len abstract; Ok (chunk_size <? n)
                else Ok false);
        if (long : bool) then
          match abstract with
          | JStr s =>
              chunk_text s chunk_size overlap
                (dict_get fields (txt "arxiv_id") (JStr []))
                (dict_get fields (txt "title") (JStr []))
                (JStr (txt "abstract"))
          | _ => Raise AttributeError
          end
        else
          n ← py_len abstract;
          Ok [ JObj [ (txt "text", abstract);
                      (txt "metadata",
                       JObj [ (txt "arxiv_id", dict_get fields (txt "arxiv_id") (JStr []));
                              (txt "title", dict_get fields (txt "title") (JStr []));
                              (txt "section", JStr (txt "abstract"));
                              (txt "chunk_index", JInt 0);
                              (txt "char_start", JInt 0);
                              (txt "char_end", JInt n);
                              (txt "chunk_size", JInt n);
                              (txt "authors", dict_get fields (txt "authors") (JArr []));
                              (txt "categories", dict_get fields (txt "categories") (JArr []));
                              (txt "published", dict_get fields (txt "published") (JStr [])) ]) ] ]
  | _ => Raise AttributeError
  end.

(** [chunk_papers_from_metadata]: the papers are visited in order and
    their chunks are appended to [all_chunks]. *)
Fixpoint chunk_papers_loop (papers : list json) (chunk_abstracts : bool)
    (chunk_size overlap : Z) (all_chunks : list json) : result (list json) :=
  match papers with
  | [] => Ok all_chunks
  | paper :: rest =>
      cs ← chunk_paper paper chunk_abstracts chunk_size overlap;
      chunk_papers_loop rest chunk_abstracts chunk_size overlap (all_chunks ++ cs)
  end.

Definition chunk_papers_from_metadata (papers_metadata : list json)
    (chunk_abstracts : bool) (chunk_size overlap : Z) : result (list json) :=
  chunk_papers_loop papers_metadata chunk_abstracts chunk_size overlap [].

End Chunker.

(** ** ragvix/eval/retrieval_eval.py *)

(** [a / b] on lengths: true division of two [int]s, a [float].  Both
    operands are lengths of lists and sets, far below 2^53, so they are
    doubles exactly and the quotient is the correctly rounded one. *)
Definition py_truediv (a b : nat) : result spec_float :=
  if bool_decide (b = 0%nat) then Raise ZeroDivisionError
  else
    x ← py_float_of_int (Z.of_nat a);
    y ← py_float_of_int (Z.of_nat b);
    Ok (SFdiv prec emax x y).

(** The literal [0.0]. *)
Definition float_0_0 : spec_float := S754_zero false.

Module RetrievalEval.
Section Metrics.
(** Document ids; the code uses strings. *)
Context {Id : Type} `{Countable Id}.

Definition compute_recall_at_k (retrieved_ids : list Id)
    (relevant_ids : gset Id) (k : Z) : result spec_float :=
  if bool_decide (relevant_ids = ∅) then Ok float_0_0
  else
    let retrieved_at_k : gset Id := list_to_set (py_slice retrieved_ids 0 k) in
    py_truediv (size (retrieved_at_k ∩ relevant_ids)) (size relevant_ids).

Definition compute_precision_at_k (retrieved_ids : list Id)
    (relevant_ids : gset Id) (k : Z) : result spec_float :=
  if bool_decide (py_slice retrieved_ids 0 k = []) then Ok float_0_0
  else
    let retrieved_at_k : gset Id := list_to_set (py_slice retrieved_ids 0 k) in
    py_truediv (size (retrieved_at_k ∩ relevant_ids)) (size retrieved_at_k).
End Metrics.
End RetrievalEval.

(** ** ragvix/config.py: the settings the modelled code reads *)

Module Settings.
Definition embedding_model : text := txt "all-MiniLM-L6-v2".
Definition index_dir : string := "data/index".
Definition raw_dir : string := "data/raw".
End Settings.

(** ** Logging *)

(** What the loggers of the modelled functions are given, with the values
    their messages are formatted from. *)
Inductive log_line :=
| WarnNoChunks
| InfoBuilding (chunks : nat)
| InfoUsingModel (model_name : text) (dimension : nat)
| InfoGeneratingEmbeddings
| InfoIndexBuilt (vectors : nat)
| InfoIndexSaved (index_path : string)
| WarnModelMismatch (found : json) (configured : text)
| InfoIndexLoaded (vectors : nat)
| InfoLoadedIndex (documents : nat)
| InfoSavedPapers (papers : nat) (out : string)
| InfoCategoriesFound (categories : gset text)
| InfoDateRange (oldest newest : json)
| ErrorFailedToFetch (e : exn).

(** The run of a method: the state it leaves, what it logged, and what
    it returned or raised. *)
Record run (S A : Type) := Run {
  after : S;
  logged : list log_line;
  outcome : result A
}.
Arguments Run {S A} after logged outcome.
Arguments after {S A} r.
Arguments logged {S A} r.
Arguments outcome {S A} r.

(** [v[key]] for a string key: defined on dictionaries that hold the
    key. *)
Definition py_getitem (v : json) (key : text) : result json :=
  match v with
  | JObj fields =>
      match assoc key fields with
      | Some x => Ok x
      | None => Raise (KeyError key)
      end
  | _ => Raise TypeError
  end.

(** [v != s] for a string [s]: a value of another type differs from every
    string. *)
Definition differs_from_str (v : json) (s : text) : bool :=
  match v with
  | JStr t => negb (text_eqb t s)
  | _ => true
  end.

(** [[f(x) for x in l]]: the first exception ends the comprehension. *)
Fixpoint comprehension {A B} (f : A -> result B) (l : list A) : result (list B) :=
  match l with
  | [] => Ok []
  | x :: rest => y ← f x; ys ← comprehension f rest; Ok (y :: ys)
  end.

(** [l[i]] on a list: a negative index counts from the end. *)
Definition py_index {A} (l : list A) (i : Z) : result A :=
  let j := if i <? 0 then i + Z.of_nat (length l) else i in
  if j <? 0 then Raise IndexError
  else match l !! Z.to_nat j with
       | Some x => Ok x
       | None => Raise IndexError
       end.

(** ** The embedding model and the similarity index

    The sentence-transformers model and the FAISS index are third-party;
    the store relies on this much of them: the model gives one vector per
    text, and a search gives pairs of a score and a position, where the
    position is -1 (no result) or the position of a stored vector. *)
Class Backend := {
  vector : Type;
  score : Type;
  embedding_dimension : text -> nat;
  encode : text -> list json -> result (list vector);
  index_search : list vector -> vector -> Z -> result (list (score * Z));
  format_score : score -> text;
  encode_length : forall model texts vs,
    encode model texts = Ok vs -> length vs = length texts;
  index_search_range : forall vs q k hits,
    index_search vs q k = Ok hits ->
    Forall (fun hit => snd hit = -1 \/ 0 <= snd hit < Z.of_nat (length vs)) hits
}.

(** ** ragvix/index/faiss_store.py *)

Module FaissStore.
Section Store.
Context `{Backend}.

(** A flat inner-product index: its dimension and the vectors added, in
    order. *)
Record faiss_index := { d : nat; vectors : list vector }.

Definition ntotal (ix : faiss_index) : nat := length (vectors ix).

Record FAISSStore := {
  model_name : text;
  index : option faiss_index;
  metadata : list json;
  dimension : nat
}.

(** One search result: the dictionary with the keys [score] and
    [metadata], and [formatted] once the retriever has added it. *)
Record search_result := {
  result_score : score;
  result_metadata : json;
  result_formatted : option json
}.

(** [FAISSStore(model_name)] *)
Definition init (name : text) : FAISSStore :=
  {| model_name := name; index := None; metadata := [];
     dimension := embedding_dimension name |}.

Definition set_index (ix : faiss_index) (self : FAISSStore) : FAISSStore :=
  {| model_name := model_name self; index := Some ix;
     metadata := metadata self; dimension := dimension self |}.

Definition set_metadata (md : list json) (self : FAISSStore) : FAISSStore :=
  {| model_name := model_name self; index := index self;
     metadata := md; dimension := dimension self |}.

Definition build_index (chunks : list json) (self : FAISSStore)
    : run FAISSStore unit :=
  if bool_decide (chunks = []) then Run self [WarnNoChunks] (Ok tt)
  else
    let log1 := [InfoBuilding (length chunks);
                 InfoUsingModel (model_name self) (dimension self)] in
    match comprehension (fun chunk => py_getitem chunk (txt "text")) chunks with
    | Raise e => Run self log1 (Raise e)
    | Ok texts =>
        let log2 := log1 ++ [InfoGeneratingEmbeddings] in
        match encode (model_name self) texts with
        | Raise e => Run self log2 (Raise e)
        | Ok embeddings =>
            let self1 := set_index {| d := dimension self; vectors := embeddings |} self in
            match comprehension (fun chunk => py_getitem chunk (txt "metadata")) chunks with
            | Raise e => Run self1 log2 (Raise e)
            | Ok md =>
                Run (set_metadata md self1)
                    (log2 ++ [InfoIndexBuilt (length embeddings)]) (Ok tt)
            end
        end
    end.

(** The loop of [search] over the scores and positions FAISS returned. *)
Fixpoint collect_results (md : list json) (hits : list (score * Z))
    (results : list search_result) : result (list search_result) :=
  match hits with
  | [] => Ok results
  | (sc, idx) :: rest =>
      if idx =? -1 then collect_results md rest results
      else
        m ← py_index md idx;
        collect_results md rest
          (results ++ [{| result_score := sc; result_metadata := m;
                          result_formatted := None |}])
  end.

(** [search]: the model embeds the one query, so [encode] gives one
    vector ([encode_length]) and the last branch is never taken. *)
Definition search (query : text) (k : Z) (self : FAISSStore)
    : result (list search_result) :=
  match index self with
  | None => Raise (ValueError (txt "Index not built. Call build_index() first."))
  | Some ix =>
      qs ← encode (model_name self) [JStr query];
      match qs with
      | [query_embedding] =>
          hits ← index_search (vectors ix) query_embedding k;
          collect_results (metadata self) hits []
      | _ => Raise RuntimeError
      end
  end.

(** The configuration document [save] writes. *)
Definition config_of (self : FAISSStore) (ix : faiss_index) : json :=
  JObj [ (txt "model_name", JStr (model_name self));
         (txt "dimension", JInt (Z.of_nat (dimension self)));
         (txt "num_vectors", JInt (Z.of_nat (ntotal ix))) ].

Definition save (index_path : string) (self : FAISSStore)
    (fs : gmap string (file faiss_index))
    : run (gmap string (file faiss_index)) unit :=
  match index self with
  | None => Run fs [] (Raise (ValueError (txt "No index to save")))
  | Some ix =>
      let fs1 := <[path_join index_path "faiss.index" := IndexFile ix]> fs in
      let written := Io.write_jsonl (metadata self) (path_join index_path "meta.jsonl") fs1 in
      match snd written with
      | Raise e => Run (fst written) [] (Raise e)
      | Ok _ =>
          Run (<[path_join index_path "config.json" :=
                   TextFile (PyJson.dumps_pretty 0 (config_of self ix))]> (fst written))
              [InfoIndexSaved index_path] (Ok tt)
      end
  end.

(** [json.load] of the file at [path]. *)
Definition json_load (path : string) (fs : gmap string (file faiss_index))
    : result json :=
  match fs !! path with
  | None => Raise (FileNotFoundError (txt path))
  | Some (IndexFile _) => Raise UnicodeDecodeError
  | Some (TextFile content) => PyJson.loads content
  end.

(** [faiss.read_index] of the file at [path]. *)
Definition read_index (path : string) (fs : gmap string (file faiss_index))
    : result faiss_index :=
  match fs !! path with
  | Some (IndexFile ix) => Ok ix
  | _ => Raise RuntimeError
  end.

Definition load (index_path : string) (self : FAISSStore)
    (fs : gmap string (file faiss_index)) : run FAISSStore unit :=
  match json_load (path_join index_path "config.json") fs with
  | Raise e => Run self [] (Raise e)
  | Ok config =>
      match py_getitem config (txt "model_name") with
      | Raise e => Run self [] (Raise e)
      | Ok found =>
          let log1 := if differs_from_str found (model_name self)
                      then [WarnModelMismatch found (model_name self)]
                      else [] in
          match read_index (path_join index_path "faiss.index") fs with
          | Raise e => Run self log1 (Raise e)
          | Ok ix =>
              let self1 := set_index ix self in
              match Io.read_jsonl (path_join index_path "meta.jsonl") fs with
              | Raise e => Run self1 log1 (Raise e)
              | Ok md =>
                  Run (set_metadata md self1)
                      (log1 ++ [InfoIndexLoaded (length md)]) (Ok tt)
              end
          end
      end
  end.

(** [load_index(index_path)], the module-level function: a store for the
    configured model, loaded from the directory. *)
Definition load_index (index_path : string)
    (fs : gmap string (file faiss_index)) : run FAISSStore unit :=
  load index_path (init Settings.embedding_model) fs.

End Store.
End FaissStore.

(** ** ragvix/retriever/retriever.py *)

Module Retriever.
Section Retriever.
Context `{Backend}.

Record Retriever := {
  index_path : string;
  store : option FaissStore.FAISSStore
}.

(** [Retriever(index_path)] *)
Definition init (path : option string) : Retriever :=
  {| index_path := match path with
                   | Some p => p
                   | None => Settings.index_dir
                   end;
     store := None |}.

Definition load_index (self : Retriever)
    (fs : gmap string (file FaissStore.faiss_index)) : run Retriever unit :=
  match fs !! path_join (index_path self) "config.json" with
  | None =>
      Run self []
        (Raise (FileNotFoundError (txt "No index found at " ++ txt (index_path self))))
  | Some _ =>
      let loaded := FaissStore.load_index (index_path self) fs in
      match outcome loaded with
      | Raise e => Run self (logged loaded) (Raise e)
      | Ok _ =>
          Run {| index_path := index_path self; store := Some (after loaded) |}
              (logged loaded
               ++ [InfoLoadedIndex (length (FaissStore.metadata (after loaded)))])
              (Ok tt)
      end
  end.

(** The body of the loop that adds the formatted view to a result. *)
Definition add_formatted (r : FaissStore.search_result)
    : result FaissStore.search_result :=
  match FaissStore.result_metadata r with
  | JObj meta =>
      Ok {| FaissStore.result_score := FaissStore.result_score r;
            FaissStore.result_metadata := FaissStore.result_metadata r;
            FaissStore.result_formatted :=
              Some (JObj [ (txt "title",
                            dict_get meta (txt "title") (JStr (txt "Unknown Title")));
                           (txt "arxiv_id",
                            dict_get meta (txt "arxiv_id") (JStr (txt "unknown")));
                           (txt "section",
                            dict_get meta (txt "section") (JStr (txt "unknown")));
                           (txt "score",
                            JStr (format_score (FaissStore.result_score r))) ]) |}
  | _ => Raise AttributeError
  end.

(** [search]: the store is loaded first when there is none; a load that
    returns has set [self.store], so the branch for a missing store after
    it is never taken. *)
Definition search (query : text) (k : Z) (self : Retriever)
    (fs : gmap string (file FaissStore.faiss_index))
    : run Retriever (list FaissStore.search_result) :=
  let loaded := match store self with
                | None => load_index self fs
                | Some _ => Run self [] (Ok tt)
                end in
  match outcome loaded with
  | Raise e => Run (after loaded) (logged loaded) (Raise e)
  | Ok _ =>
      Run (after loaded) (logged loaded)
        (match store (after loaded) with
         | None => Raise AttributeError
         | Some st =>
             results ← FaissStore.search query k st;
             comprehension add_formatted results
         end)
  end.

End Retriever.
End Retriever.

(** ** ragvix/ingest/arxiv_client.py *)

Module ArxivClient.
Section Client.
Context {Ix : Type}.

(** What iterating over a value gives to [set.update]: the items of a
    list, the characters of a string, the keys of a dictionary; lists and
    dictionaries cannot be members of a set. *)
Definition set_items (v : json) : result (list json) :=
  match v with
  | JArr items =>
      if forallb (fun x => match x with JArr _ | JObj _ => false | _ => true end) items
      then Ok items else Raise TypeError
  | JStr s => Ok (map (fun c => JStr [c]) s)
  | JObj fields => Ok (map (fun kv => JStr (fst kv)) fields)
  | _ => Raise TypeError
  end.

(** The loop [for paper in papers: categories.update(paper["categories"])]. *)
Fixpoint collect_categories (papers : list json) (categories : list json)
    : result (list json) :=
  match papers with
  | [] => Ok categories
  | paper :: rest =>
      cats ← py_getitem paper (txt "categories");
      items ← set_items cats;
      collect_categories rest (categories ++ items)
  end.

(** [', '.join(sorted(categories))] is defined when every category is a
    string; the message then shows the set of them. *)
Definition joined_categories (categories : list json) : result (gset text) :=
  names ← comprehension (fun c => match c with
                                  | JStr s => Ok s
                                  | _ => Raise TypeError
                                  end) categories;
  Ok (list_to_set names).

(** [paper['published'][:10]] *)
Definition published_day (paper : json) : result json :=
  published ← py_getitem paper (txt "published");
  match published with
  | JStr s => Ok (JStr (py_slice s 0 10))
  | JArr l => Ok (JArr (py_slice l 0 10))
  | _ => Raise TypeError
  end.

(** The [try] block of [fetch], after the papers were fetched and while
    they are written and summarised: the files afterwards, the lines
    logged, and the outcome. *)
Definition write_and_summarise (papers : list json) (out : string)
    (fs : gmap string (file Ix)) : run (gmap string (file Ix)) unit :=
  let written := Io.write_jsonl papers out fs in
  match snd written with
  | Raise e => Run (fst written) [] (Raise e)
  | Ok _ =>
      let log1 := [InfoSavedPapers (length papers) out] in
      match categories ← collect_categories papers []; joined_categories categories with
      | Raise e => Run (fst written) log1 (Raise e)
      | Ok categories =>
          let log2 := log1 ++ [InfoCategoriesFound categories] in
          match last ← py_index papers (-1);
                oldest ← published_day last;
                first ← py_index papers 0;
                newest ← published_day first;
                Ok (oldest, newest) with
          | Raise e => Run (fst written) log2 (Raise e)
          | Ok range =>
              Run (fst written) (log2 ++ [InfoDateRange (fst range) (snd range)]) (Ok tt)
          end
      end
  end.

(** The [fetch] command.  [response] is what [fetch_arxiv_metadata]
    returned or raised for the category and the number of papers asked
    for.  Any exception of the [try] block is logged and turned into
    [typer.Exit(1)]. *)
Definition fetch (response : result (list json)) (out : option string)
    (fs : gmap string (file Ix)) : run (gmap string (file Ix)) unit :=
  let out := match out with
             | None => path_join Settings.raw_dir "metadata.jsonl"
             | Some o => o
             end in
  let attempt := match response with
                 | Raise e => Run fs [] (Raise e)
                 | Ok papers => write_and_summarise papers out fs
                 end in
  match outcome attempt with
  | Ok _ => attempt
  | Raise e =>
      Run (after attempt) (logged attempt ++ [ErrorFailedToFetch e]) (Raise (Exit 1))
  end.

(** The exit status of the process that ran a command. *)
Definition exit_status (r : result unit) : Z :=
  match r with
  | Ok _ => 0
  | Raise (Exit code) => code
  | Raise _ => 1
  end.

End Client.
End ArxivClient.

(** ** Commands and callers

    The functions below call the ones above.  Where one of them catches
    [Exception], the handler takes every exception of the model;
    [FloatLiteral] is not an exception but the mark of an input outside
    this development, and passes through it. *)

Definition caught (e : exn) : bool :=
  match e with
  | FloatLiteral => false
  | _ => true
  end.

(** The run of a command that logs lines of its own kind [L]: the state
    it leaves, the lines, and what it returned or raised. *)
Record command_run (L S A : Type) := CommandRun {
  final : S;
  lines : list L;
  returned : result A
}.
Arguments CommandRun {L S A} final lines returned.
Arguments final {L S A} _.
Arguments lines {L S A} _.
Arguments returned {L S A} _.

(** ** ragvix/index/faiss_store.py: the [build] command *)

Module FaissStoreBuild.
Section Build.
Context `{Backend}.

(** What the command logs: its own messages, and the lines of the store
    methods it calls. *)
Inductive build_line :=
| ErrorChunksNotFound (chunks_path : string)
| InfoCreateChunksFirst
| InfoLoadedChunks (chunks : nat)
| StoreLine (line : log_line)
| InfoIndexSavedTo (out_path : string)
| ErrorFailedToBuild (e : exn).

(** The [try] block of [build]: the chunks are read, a store for the
    configured model is built from them and saved. *)
Definition load_build_save (chunks out : string)
    (fs : gmap string (file FaissStore.faiss_index))
    : command_run build_line (gmap string (file FaissStore.faiss_index)) unit :=
  match Io.read_jsonl chunks fs with
  | Raise e => CommandRun fs [] (Raise e)
  | Ok chunk_data =>
      let built := FaissStore.build_index chunk_data
                     (FaissStore.init Settings.embedding_model) in
      let log1 := InfoLoadedChunks (length chunk_data)
                  :: map StoreLine (logged built) in
      match outcome built with
      | Raise e => CommandRun fs log1 (Raise e)
      | Ok _ =>
          let saved := FaissStore.save out (after built) fs in
          let log2 := log1 ++ map StoreLine (logged saved) in
          match outcome saved with
          | Raise e => CommandRun (after saved) log2 (Raise e)
          | Ok _ => CommandRun (after saved) (log2 ++ [InfoIndexSavedTo out]) (Ok tt)
          end
      end
  end.

(** The [build] command: without a chunks file it logs an error and
    returns; an exception of the [try] block is logged and turned into
    [typer.Exit(1)]. *)
Definition build (chunks out : string)
    (fs : gmap string (file FaissStore.faiss_index))
    : command_run build_line (gmap string (file FaissStore.faiss_index)) unit :=
  match fs !! chunks with
  | None => CommandRun fs [ErrorChunksNotFound chunks; InfoCreateChunksFirst] (Ok tt)
  | Some _ =>
      let attempt := load_build_save chunks out fs in
      match returned attempt with
      | Ok _ => attempt
      | Raise e =>
          if caught e
          then CommandRun (final attempt) (lines attempt ++ [ErrorFailedToBuild e])
                          (Raise (Exit 1))
          else attempt
      end
  end.

End Build.
End FaissStoreBuild.

(** ** ragvix/retriever/retriever.py: [search_with_context] *)

Module RetrieverContext.
Section Context.
Context `{Backend}.

(** The dictionary [search_with_context] returns, with its nested
    [index_stats]. *)
Record index_stats := {
  total_documents : Z;
  model : text
}.

Record context := {
  query : text;
  num_results : Z;
  results : list FaissStore.search_result;
  stats : index_stats
}.

Definition search_with_context (query : text) (k : Z) (self : Retriever.Retriever)
    (fs : gmap string (file FaissStore.faiss_index))
    : run Retriever.Retriever context :=
  let searched := Retriever.search query k self fs in
  Run (after searched) (logged searched)
    (results ← outcome searched;
     Ok {| query := query;
           num_results := Z.of_nat (length results);
           results := results;
           stats :=
             {| total_documents :=
                  match Retriever.store (after searched) with
                  | Some st => Z.of_nat (length (FaissStore.metadata st))
                  | None => 0
                  end;
                model := Settings.embedding_model |} |}).

End Context.
End RetrieverContext.

(** ** ragvix/rag/pipeline.py *)

Module RagPipeline.
Section Pipeline.
Context `{Backend}.

Inductive pipeline_line :=
| RetrieverLine (line : log_line)
| InfoPipelineInitialized
| InfoProcessingQuery (query : text)
| InfoRetrieved (documents : nat).

Record RAGPipeline := { retriever : Retriever.Retriever }.

(** The fixed text of the [answer] entry: a warning sign (U+26A0 with
    the variation selector U+FE0F) and the notice that nothing is
    generated yet. *)
Definition stub_answer : text :=
  [9888; 65039]%N
  ++ txt " Generation not implemented yet (Week-1 scope). See retrieved documents below.".

(** The dictionary [answer] returns. *)
Record response := {
  response_query : text;
  response_answer : text;
  sources : list FaissStore.search_result;
  retrieval_stats : RetrieverContext.index_stats;
  mode : text
}.

(** [RAGPipeline(index_path)]: the retriever is made and its index
    loaded at once. *)
Definition init (index_path : option string)
    (fs : gmap string (file FaissStore.faiss_index))
    : command_run pipeline_line (option RAGPipeline) unit :=
  let loaded := Retriever.load_index (Retriever.init index_path) fs in
  match outcome loaded with
  | Raise e => CommandRun None (map RetrieverLine (logged loaded)) (Raise e)
  | Ok _ =>
      CommandRun (Some {| retriever := after loaded |})
        (map RetrieverLine (logged loaded) ++ [InfoPipelineInitialized]) (Ok tt)
  end.

Definition answer (query : text) (k : Z) (self : RAGPipeline)
    (fs : gmap string (file FaissStore.faiss_index))
    : command_run pipeline_line RAGPipeline response :=
  let searched := RetrieverContext.search_with_context query k (retriever self) fs in
  let log1 := InfoProcessingQuery query :: map RetrieverLine (logged searched) in
  match outcome searched with
  | Raise e => CommandRun {| retriever := after searched |} log1 (Raise e)
  | Ok search_results =>
      CommandRun {| retriever := after searched |}
        (log1 ++ [InfoRetrieved (length (RetrieverContext.results search_results))])
        (Ok {| response_query := query;
               response_answer := stub_answer;
               sources := RetrieverContext.results search_results;
               retrieval_stats := RetrieverContext.stats search_results;
               mode := txt "retrieval_only" |})
  end.


(** The module-level [answer(query, index_path, k)]: a pipeline is made
    for the one query.  A construction that returns has made the
    pipeline, so the last branch is never taken. *)
Definition answer_once (query : text) (index_path : option string) (k : Z)
    (fs : gmap string (file FaissStore.faiss_index))
    : command_run pipeline_line (option RAGPipeline) response :=
  let made := init index_path fs in
  match final made, returned made with
  | Some pipeline, Ok _ =>
      let answered := answer query k pipeline fs in
      CommandRun (Some (final answered)) (lines made ++ lines answered)
        (returned answered)
  | _, Raise e => CommandRun None (lines made) (Raise e)
  | None, Ok _ => CommandRun None (lines made) (Raise RuntimeError)
  end.

End Pipeline.
End RagPipeline.

(** [s.split(sep)] for a separator of one character: the pieces between
    the separators, in order; [cur] holds the piece being read, last
    character first. *)
Fixpoint py_split (sep : N) (s : text) (cur : text) : list text :=
  match s with
  | [] => [rev cur]
  | c :: r =>
      if (c =? sep)%N then rev cur :: py_split sep r []
      else py_split sep r (c :: cur)
  end.

(** ** ragvix/ingest/arxiv_client.py: [fetch_arxiv_metadata] *)

Module ArxivMetadata.

(** What the function reads of one [arxiv.Result]: [published] is the
    text its [published.isoformat()] gives, [pdf_url] is [None] for a
    result without a link to a PDF. *)
Record arxiv_result := {
  entry_id : text;
  title : text;
  authors : list text;
  summary : text;
  categories : list text;
  pdf_url : option text;
  published : text
}.


(** The dictionary made for one result. *)
Definition paper_data (r : arxiv_result) : result json :=
  arxiv_id ← py_index (py_split 47 (entry_id r) []) (-1);
  Ok (JObj [ (txt "arxiv_id", JStr arxiv_id);
             (txt "title", JStr (title r));
             (txt "authors", JArr (map JStr (authors r)));
             (txt "abstract", JStr (summary r));
             (txt "categories", JArr (map JStr (categories r)));
             (txt "pdf_url", match pdf_url r with
                             | Some url => JStr url
                             | None => JNull
                             end);
             (txt "published", JStr (published r)) ]).


End ArxivMetadata.

(** ** scripts/build_index.py *)

Module BuildIndexScript.
Section Script.
Context {Ix : Type}.

Definition chunks_file : string := "data/processed/chunks.jsonl".
Definition metadata_file : string := "data/raw/metadata.jsonl".

Inductive script_line :=
| InfoBuildingIndex
| InfoChunksExist (chunks_file : string)
| WarnNoChunksFile
| InfoCreatedChunks (chunks papers : nat)
| ErrorFailedToCreate (e : exn)
| ErrorNoMetadata
| InfoChunksReady
| InfoKnownIssue.

(** The [try] block of [create_dummy_chunks]. *)
Definition chunk_metadata (fs : gmap string (file Ix))
    : command_run script_line (gmap string (file Ix)) unit :=
  match Io.read_jsonl metadata_file fs with
  | Raise e => CommandRun fs [] (Raise e)
  | Ok papers =>
      match Chunker.chunk_papers_from_metadata papers true 1200 120 with
      | Raise e => CommandRun fs [] (Raise e)
      | Ok chunks =>
          let written := Io.write_jsonl chunks chunks_file fs in
          match snd written with
          | Raise e => CommandRun (fst written) [] (Raise e)
          | Ok _ =>
              CommandRun (fst written)
                [InfoCreatedChunks (length chunks) (length papers)] (Ok tt)
          end
      end
  end.

(** [create_dummy_chunks()]: nothing is done when the chunks file
    exists; otherwise the chunks are made from the metadata file, when
    there is one, and an exception on the way is logged. *)
Definition create_dummy_chunks (fs : gmap string (file Ix))
    : command_run script_line (gmap string (file Ix)) unit :=
  match fs !! chunks_file with
  | Some _ => CommandRun fs [InfoChunksExist chunks_file] (Ok tt)
  | None =>
      match fs !! metadata_file with
      | None => CommandRun fs [WarnNoChunksFile; ErrorNoMetadata] (Ok tt)
      | Some _ =>
          let attempt := chunk_metadata fs in
          match returned attempt with
          | Ok _ => CommandRun (final attempt) (WarnNoChunksFile :: lines attempt) (Ok tt)
          | Raise e =>
              if caught e
              then CommandRun (final attempt)
                     (WarnNoChunksFile :: lines attempt ++ [ErrorFailedToCreate e])
                     (Ok tt)
              else CommandRun (final attempt) (WarnNoChunksFile :: lines attempt)
                     (Raise e)
          end
      end
  end.

(** [main()]: the chunks are checked or created, and the function
    returns after two more lines; the statements after its [return] are
    never run. *)
Definition main (fs : gmap string (file Ix))
    : command_run script_line (gmap string (file Ix)) unit :=
  let created := create_dummy_chunks fs in
  match returned created with
  | Raise e => CommandRun (final created) (InfoBuildingIndex :: lines created) (Raise e)
  | Ok _ =>
      CommandRun (final created)
        (InfoBuildingIndex :: lines created ++ [InfoChunksReady; InfoKnownIssue])
        (Ok tt)
  end.

End Script.
End BuildIndexScript.

(** ** Properties of the chunker *)

Module ChunkerSpec.
Import Chunker.

(** What the chunk produced for window number [j] must be. *)
Definition window (text : text) (chunk_size step : Z)
    (arxiv_id title section : json) (j : nat) : json :=
  let i := Z.of_nat j * step in
  chunk_data (py_slice text i (i + chunk_size)) arxiv_id title section
    (Z.of_nat j) i.

(** Field [key] of the metadata of a chunk record. *)
Definition meta_field (c : json) (key : string) : option json :=
  match c with
  | JObj fields =>
      match assoc (txt "metadata") fields with
      | Some (JObj m) => assoc (txt key) m
      | _ => None
      end
  | _ => None
  end.

(** The text of a chunk record. *)
Definition chunk_body (c : json) : option json :=
  match c with
  | JObj fields => assoc (txt "text") fields
  | _ => None
  end.

Lemma slice_bound_nonneg len i : 0 <= i -> slice_bound len i = Z.min i len.
Proof. unfold slice_bound. intros H. destruct (Z.ltb_spec i 0); [lia | reflexivity]. Qed.

Lemma py_slice_nonneg {A} (s : list A) lo hi :
  0 <= lo -> 0 <= hi ->
  py_slice s lo hi =
    take (Z.to_nat (Z.min hi (Z.of_nat (length s)) - Z.min lo (Z.of_nat (length s))))
         (drop (Z.to_nat (Z.min lo (Z.of_nat (length s)))) s).
Proof.
  intros Hlo Hhi. unfold py_slice.
  rewrite !slice_bound_nonneg by assumption. reflexivity.
Qed.

Lemma py_slice_length {A} (s : list A) lo hi :
  0 <= lo -> 0 <= hi ->
  Z.of_nat (length (py_slice s lo hi)) =
    Z.max 0 (Z.min hi (Z.of_nat (length s)) - Z.min lo (Z.of_nat (length s))).
Proof.
  intros Hlo Hhi. rewrite py_slice_nonneg by assumption.
  rewrite length_take, length_drop. lia.
Qed.

(** A window of non-negative width that starts inside the text is the
    substring [[i, i + chunk_size)], cut at the end of the text. *)
Lemma py_slice_window {A} (s : list A) i chunk_size :
  0 <= i -> 0 <= chunk_size ->
  py_slice s i (i + chunk_size) = take (Z.to_nat chunk_size) (drop (Z.to_nat i) s).
Proof.
  intros Hi Hc. rewrite py_slice_nonneg by lia.
  destruct (Z.le_gt_cases (Z.of_nat (length s)) i) as [Hout | Hin].
  - rewrite !drop_ge by lia. by rewrite !take_nil.
  - replace (Z.min i (Z.of_nat (length s))) with i by lia.
    destruct (Z.le_gt_cases (i + chunk_size) (Z.of_nat (length s))).
    + f_equal. lia.
    + rewrite !take_ge; [reflexivity | rewrite length_drop; lia ..].
Qed.

Section Loop.
Variables (text : text) (chunk_size step : Z) (arxiv_id title section : json).

Let iter := iteration text chunk_size step arxiv_id title section.
Let run fuel := run_loop fuel text chunk_size step arxiv_id title section.
Let win := window text chunk_size step arxiv_id title section.

(** The states the loop goes through: after [k] rounds the range is at
    [k * step] and the first [k] windows have been appended. *)
Definition at_round (k : nat) : loop_state :=
  {| next_i := Z.of_nat k * step; chunks := map win (seq 0 k) |}.

Lemma iteration_at_round k st' :
  iter (at_round k) = inl st' -> st' = at_round (S k).
Proof using Type.
  unfold iter, iteration, at_round; cbn [next_i chunks].
  destruct (_ <=? _); [discriminate |].
  destruct (py_int_mul_float _ _); [| discriminate].
  destruct (py_int_lt_float _ _); [discriminate |].
  intros [= <-]. f_equal; [lia |].
  rewrite seq_S, map_app, length_map, length_seq. reflexivity.
Qed.

Lemma iteration_ok_at_round k out :
  iter (at_round k) = inr (Ok out) -> out = map win (seq 0 k).
Proof using Type.
  unfold iter, iteration, at_round; cbn [next_i chunks].
  destruct (_ <=? _); [congruence |].
  destruct (py_int_mul_float _ _); [| congruence].
  destruct (py_int_lt_float _ _); congruence.
Qed.

(** Whatever the loop returns is a prefix of the windows. *)
Lemma run_loop_windows fuel k out :
  run fuel (at_round k) = Some (Ok out) ->
  exists m, out = map win (seq 0 m).
Proof using Type.
  revert k. induction fuel as [| fuel IH]; intros k; [discriminate |].
  unfold run in *. cbn [run_loop]. fold iter.
  destruct (iter (at_round k)) as [st' | r] eqn:E.
  - apply iteration_at_round in E as ->. apply IH.
  - intros [= ->]. apply iteration_ok_at_round in E. eauto.
Qed.

(** With a positive step the range is exhausted after finitely many
    rounds: the distance to the end of the text bounds them. *)
Lemma run_loop_enough fuel st :
  1 <= step ->
  Z.max 0 (Z.of_nat (length text) - next_i st) < Z.of_nat fuel ->
  exists r, run fuel st = Some r.
Proof using Type.
  intros Hstep. revert st. induction fuel as [| fuel IH]; intros st Hfuel.
  - lia.
  - unfold run in *. cbn [run_loop]. fold iter.
    destruct (iter st) as [st' | r] eqn:E; [| eauto].
    apply IH. revert E. unfold iter, iteration.
    destruct (Z.leb_spec (Z.of_nat (length text)) (next_i st)); [discriminate |].
    destruct (py_int_mul_float _ _); [| discriminate].
    destruct (py_int_lt_float _ _); [discriminate |].
    intros [= <-]. cbn [next_i]. lia.
Qed.
End Loop.

Lemma run_loop_more fuel extra text chunk_size step arxiv_id title section st r :
  run_loop fuel text chunk_size step arxiv_id title section st = Some r ->
  run_loop (fuel + extra) text chunk_size step arxiv_id title section st = Some r.
Proof.
  revert st. induction fuel as [| fuel IH]; intros st; [discriminate |].
  cbn [run_loop Nat.add]. destruct (iteration _ _ _ _ _ _ st); [apply IH | trivial].
Qed.

(** The threshold [chunk_size * 0.1] of the default chunk size is the
    double 120.0, and comparing a length with it is comparing with 120. *)
Lemma threshold_1200 :
  py_int_mul_float 1200 float_0_1 = Ok (S754_finite false 8444249301319680 (-46)).
Proof. vm_compute. reflexivity. Qed.

Lemma below_threshold_1200 n :
  py_int_lt_float n (S754_finite false 8444249301319680 (-46)) = (n <? 120).
Proof.
  unfold py_int_lt_float. cbn [Z.leb Z.compare Z.opp].
  change (Z.pos 8444249301319680) with (120 * 2 ^ 46).
  destruct (Z.ltb_spec n 120); [apply Z.ltb_lt | apply Z.ltb_ge]; nia.
Qed.





Definition A (n : nat) : text := repeat 65%N n.

End ChunkerSpec.

(** ** Theorems on the chunker *)

Module ChunkerTheorems.
Import Chunker ChunkerSpec.

(** The fields of the record made for one window. *)
Lemma chunk_data_fields (chunk : text) (arxiv_id title section : json) (index start : Z) :
  let c := chunk_data chunk arxiv_id title section index start in
  chunk_body c = Some (JStr chunk) /\
  meta_field c "chunk_index" = Some (JInt index) /\
  meta_field c "char_start" = Some (JInt start) /\
  meta_field c "char_end" = Some (JInt (start + Z.of_nat (length chunk))) /\
  meta_field c "chunk_size" = Some (JInt (Z.of_nat (length chunk))).
Proof. repeat split. Qed.

(** C1. Chunking [A 2000] (the letter A repeated 2000 times) with
    chunk_size 1200 and overlap 120 returns exactly two chunk records:
    chunk 0 with char_start 0, char_end 1200 and length 1200, and chunk 1
    with char_start 1080, char_end 2000 and length 920.  In general,
    whenever [chunk_text] returns, its chunk number [j] starts at
    [j * max(chunk_size - overlap, 1)], holds the slice
    [[start : start + chunk_size]] of the trimmed text (for a chunk size
    that is not negative, the characters from [start] up to, and without,
    [start + chunk_size]), and carries the index [j]: the step is the
    clamped difference and the indices count up from 0. *)
Theorem chunk_text_windows :
  (forall arxiv_id title section,
     exists c0 c1,
       chunk_text (A 2000) 1200 120 arxiv_id title section = Ok [c0; c1] /\
       chunk_body c0 = Some (JStr (A 1200)) /\
       meta_field c0 "chunk_index" = Some (JInt 0) /\
       meta_field c0 "char_start" = Some (JInt 0) /\
       meta_field c0 "char_end" = Some (JInt 1200) /\
       meta_field c0 "chunk_size" = Some (JInt 1200) /\
       chunk_body c1 = Some (JStr (A 920)) /\
       meta_field c1 "chunk_index" = Some (JInt 1) /\
       meta_field c1 "char_start" = Some (JInt 1080) /\
       meta_field c1 "char_end" = Some (JInt 2000) /\
       meta_field c1 "chunk_size" = Some (JInt 920)) /\
  (forall text chunk_size overlap arxiv_id title section out,
     chunk_text text chunk_size overlap arxiv_id title section = Ok out ->
     forall (j : nat) c, out !! j = Some c ->
       let step := Z.max (chunk_size - overlap) 1 in
       let start := Z.of_nat j * step in
       let body := py_slice (py_strip text) start (start + chunk_size) in
       c = chunk_data body arxiv_id title section (Z.of_nat j) start /\
       chunk_body c = Some (JStr body) /\
       meta_field c "chunk_index" = Some (JInt (Z.of_nat j)) /\
       meta_field c "char_start" = Some (JInt start) /\
       (0 <= chunk_size ->
        body = take (Z.to_nat chunk_size) (drop (Z.to_nat start) (py_strip text)))).
Proof.
  split.
  - intros. eexists _, _. split; [vm_compute; reflexivity |].
    repeat split.
  - intros text chunk_size overlap arxiv_id title section out.
    unfold chunk_text, chunk_text_fuel.
    case_bool_decide as Hblank.
    + intros [= <-] j c Hj. by rewrite lookup_nil in Hj.
    + destruct (run_loop _ _ _ _ _ _ _ _) as [r |] eqn:Hrun; [| discriminate].
      intros -> j c Hj.
      pose proof (run_loop_windows (py_strip text) chunk_size
                    (Z.max (chunk_size - overlap) 1) arxiv_id title section
                    _ 0 out Hrun) as [m ->].
      rewrite list_lookup_fmap in Hj.
      destruct (seq 0 m !! j) as [j' |] eqn:Hseq; [| discriminate].
      apply lookup_seq in Hseq as [-> _]. cbn in Hj. injection Hj as <-.
      cbv zeta. unfold window.
      split; [reflexivity |].
      destruct (chunk_data_fields
                  (py_slice (py_strip text)
                     (Z.of_nat j * Z.max (chunk_size - overlap) 1)
                     (Z.of_nat j * Z.max (chunk_size - overlap) 1 + chunk_size))
                  arxiv_id title section (Z.of_nat j)
                  (Z.of_nat j * Z.max (chunk_size - overlap) 1))
        as (Hbody & Hidx & Hstart & _).
      split; [exact Hbody |]. split; [exact Hidx |]. split; [exact Hstart |].
      intros Hsize. apply py_slice_window; [apply Z.mul_nonneg_nonneg; lia | exact Hsize].
Qed.

Lemma chunk_text_windows_witness :
  chunk_data (A 920) (JStr []) (JStr []) (JStr (txt "main")) 1 1080 =
  chunk_data (py_slice (py_strip (A 2000)) (1 * Z.max (1200 - 120) 1)
                (1 * Z.max (1200 - 120) 1 + 1200))
    (JStr []) (JStr []) (JStr (txt "main")) 1 (1 * Z.max (1200 - 120) 1).
Proof.
  apply (proj2 chunk_text_windows (A 2000) 1200 120 (JStr []) (JStr [])
           (JStr (txt "main"))
           [ chunk_data (A 1200) (JStr []) (JStr []) (JStr (txt "main")) 0 0;
             chunk_data (A 920) (JStr []) (JStr []) (JStr (txt "main")) 1 1080 ]
           ltac:(vm_compute; reflexivity) 1%nat).
  reflexivity.
Defined.

(** C9. [chunk_text] terminates on every text and for all integers
    chunk_size and overlap, also when overlap >= chunk_size: the step is
    at least 1, so every round of the loop that goes on started before the
    end of the text and moves the window start forward; the loop needs at
    most one round per character of the trimmed text and one more to see
    the range exhausted, and any larger bound on the rounds gives the same
    result. *)
Theorem chunk_text_terminates text chunk_size overlap arxiv_id title section :
  let step := Z.max (chunk_size - overlap) 1 in
  1 <= step /\
  (forall st st',
     iteration (py_strip text) chunk_size step arxiv_id title section st = inl st' ->
     next_i st < Z.of_nat (length (py_strip text)) /\ next_i st < next_i st') /\
  exists r,
    chunk_text text chunk_size overlap arxiv_id title section = r /\
    forall fuel, (length (py_strip text) < fuel)%nat ->
      chunk_text_fuel fuel text chunk_size overlap arxiv_id title section = Some r.
Proof.
  cbv zeta. split; [lia |]. split.
  - intros st st'. unfold iteration.
    destruct (Z.leb_spec (Z.of_nat (length (py_strip text))) (next_i st));
      [discriminate |].
    destruct (py_int_mul_float _ _); [| discriminate].
    destruct (py_int_lt_float _ _); [discriminate |].
    intros [= <-]. cbn [next_i]. lia.
  - unfold chunk_text, chunk_text_fuel.
    case_bool_decide as Hblank; [eauto |].
    destruct (run_loop_enough (py_strip text) chunk_size
                (Z.max (chunk_size - overlap) 1) arxiv_id title section
                (S (length (py_strip text))) {| next_i := 0; chunks := [] |})
      as [r Hr]; [lia | cbn [next_i]; lia |].
    exists r. rewrite Hr. split; [reflexivity |].
    intros fuel Hfuel.
    replace fuel with (S (length (py_strip text)) + (fuel - S (length (py_strip text))))%nat
      by lia.
    by apply run_loop_more.
Qed.

Lemma chunk_text_terminates_witness :
  chunk_text_fuel 7 (txt "abcdef") 3 5 JNull JNull JNull =
    Some (chunk_text (txt "abcdef") 3 5 JNull JNull JNull).
Proof.
  destruct (chunk_text_terminates (txt "abcdef") 3 5 JNull JNull JNull)
    as (_ & _ & r & <- & Hr).
  apply Hr. vm_compute. lia.
Defined.




(** The chunks of a list of papers do not depend on what was collected
    before them. *)
Lemma chunk_papers_loop_acc papers chunk_abstracts chunk_size overlap acc :
  chunk_papers_loop papers chunk_abstracts chunk_size overlap acc =
    out ← chunk_papers_loop papers chunk_abstracts chunk_size overlap [];
    Ok (acc ++ out).
Proof.
  revert acc. induction papers as [| p papers IH]; intros acc.
  - cbn. by rewrite app_nil_r.
  - cbn [chunk_papers_loop].
    destruct (chunk_paper p chunk_abstracts chunk_size overlap) as [cs | e];
      [| reflexivity].
    cbn. rewrite (IH (acc ++ cs)), (IH cs).
    destruct (chunk_papers_loop papers chunk_abstracts chunk_size overlap [])
      as [rest | e]; [| reflexivity].
    cbn. by rewrite app_assoc.
Qed.

Lemma chunk_papers_cons paper papers chunk_abstracts chunk_size overlap :
  chunk_papers_from_metadata (paper :: papers) chunk_abstracts chunk_size overlap =
    cs ← chunk_paper paper chunk_abstracts chunk_size overlap;
    rest ← chunk_papers_from_metadata papers chunk_abstracts chunk_size overlap;
    Ok (cs ++ rest).
Proof.
  unfold chunk_papers_from_metadata. cbn [chunk_papers_loop].
  destruct (chunk_paper paper chunk_abstracts chunk_size overlap) as [cs | e];
    [| reflexivity].
  cbn. apply chunk_papers_loop_acc.
Qed.

Lemma chunk_papers_app papers1 papers2 chunk_abstracts chunk_size overlap :
  chunk_papers_from_metadata (papers1 ++ papers2) chunk_abstracts chunk_size overlap =
    before ← chunk_papers_from_metadata papers1 chunk_abstracts chunk_size overlap;
    rest ← chunk_papers_from_metadata papers2 chunk_abstracts chunk_size overlap;
    Ok (before ++ rest).
Proof.
  induction papers1 as [| p papers1 IH].
  - cbn [app].
    change (chunk_papers_from_metadata [] chunk_abstracts chunk_size overlap)
      with (Ok (@nil json)).
    cbn. by destruct (chunk_papers_from_metadata papers2 _ _ _).
  - cbn [app]. rewrite !chunk_papers_cons, IH.
    destruct (chunk_paper p chunk_abstracts chunk_size overlap) as [cs | e];
      [| reflexivity].
    cbn.
    destruct (chunk_papers_from_metadata papers1 _ _ _) as [b | e]; [| reflexivity].
    cbn.
    destruct (chunk_papers_from_metadata papers2 _ _ _) as [r | e]; [| reflexivity].
    cbn. by rewrite app_assoc.
Qed.

(** C8. A paper whose abstract is a string of length 500 yields, with
    chunking enabled and chunk_size 1200, exactly one chunk record: the
    whole abstract, with chunk_index 0, char_start 0, char_end 500, section
    "abstract", and the paper's authors, categories and published fields as
    they are in the paper.  A paper without an abstract field yields no
    chunk.  Inside a list of papers these chunks stand between the chunks
    of the papers before and after. *)
Theorem abstract_packaging :
  (forall fields s overlap,
     assoc (txt "abstract") fields = Some (JStr s) -> length s = 500%nat ->
     exists c,
       chunk_paper (JObj fields) true 1200 overlap = Ok [c] /\
       chunk_papers_from_metadata [JObj fields] true 1200 overlap = Ok [c] /\
       chunk_body c = Some (JStr s) /\
       meta_field c "chunk_index" = Some (JInt 0) /\
       meta_field c "char_start" = Some (JInt 0) /\
       meta_field c "char_end" = Some (JInt 500) /\
       meta_field c "section" = Some (JStr (txt "abstract")) /\
       (forall v, assoc (txt "authors") fields = Some v ->
                  meta_field c "authors" = Some v) /\
       (forall v, assoc (txt "categories") fields = Some v ->
                  meta_field c "categories" = Some v) /\
       (forall v, assoc (txt "published") fields = Some v ->
                  meta_field c "published" = Some v)) /\
  (forall fields chunk_abstracts chunk_size overlap,
     assoc (txt "abstract") fields = None ->
     chunk_paper (JObj fields) chunk_abstracts chunk_size overlap = Ok [] /\
     chunk_papers_from_metadata [JObj fields] chunk_abstracts chunk_size overlap = Ok []) /\
  (forall before paper after chunk_abstracts chunk_size overlap b cs a,
     chunk_papers_from_metadata before chunk_abstracts chunk_size overlap = Ok b ->
     chunk_paper paper chunk_abstracts chunk_size overlap = Ok cs ->
     chunk_papers_from_metadata after chunk_abstracts chunk_size overlap = Ok a ->
     chunk_papers_from_metadata (before ++ paper :: after)
       chunk_abstracts chunk_size overlap = Ok (b ++ cs ++ a)).
Proof.
  split; [| split].
  - intros fields s overlap Habs Hlen.
    assert (Hs : s <> []) by (intros ->; discriminate).
    assert (Hpaper : chunk_paper (JObj fields) true 1200 overlap =
      Ok [ JObj [ (txt "text", JStr s);
                  (txt "metadata",
                   JObj [ (txt "arxiv_id", dict_get fields (txt "arxiv_id") (JStr []));
                          (txt "title", dict_get fields (txt "title") (JStr []));
                          (txt "section", JStr (txt "abstract"));
                          (txt "chunk_index", JInt 0);
                          (txt "char_start", JInt 0);
                          (txt "char_end", JInt 500);
                          (txt "chunk_size", JInt 500);
                          (txt "authors", dict_get fields (txt "authors") (JArr []));
                          (txt "categories", dict_get fields (txt "categories") (JArr []));
                          (txt "published", dict_get fields (txt "published") (JStr [])) ]) ] ]).
    { assert (Hget : dict_get fields (txt "abstract") JNull = JStr s)
        by (unfold dict_get; by rewrite Habs).
      unfold chunk_paper. rewrite !Hget.
      cbn [py_truthy py_len]. rewrite bool_decide_eq_false_2 by assumption.
      rewrite Hlen. reflexivity. }
    eexists. split; [exact Hpaper |].
    split; [rewrite chunk_papers_cons, Hpaper; reflexivity |].
    repeat split; try (vm_compute; reflexivity);
      intros v Hv; unfold dict_get; rewrite Hv; vm_compute; reflexivity.
  - intros fields chunk_abstracts chunk_size overlap Habs.
    assert (Hpaper : chunk_paper (JObj fields) chunk_abstracts chunk_size overlap = Ok [])
      by (unfold chunk_paper, dict_get; rewrite Habs; reflexivity).
    split; [exact Hpaper |]. by rewrite chunk_papers_cons, Hpaper.
  - intros before paper after chunk_abstracts chunk_size overlap b cs a Hb Hcs Ha.
    by rewrite chunk_papers_app, chunk_papers_cons, Hb, Hcs, Ha.
Qed.

Definition paper_500 : json :=
  JObj [ (txt "arxiv_id", JStr (txt "2401.00001v1"));
         (txt "title", JStr (txt "A title"));
         (txt "authors", JArr [JStr (txt "A. Author"); JStr (txt "B. Author")]);
         (txt "abstract", JStr (A 500));
         (txt "categories", JArr [JStr (txt "cs.CL")]);
         (txt "published", JStr (txt "2024-01-01T00:00:00+00:00")) ].

Definition paper_no_abstract : json :=
  JObj [ (txt "arxiv_id", JStr (txt "2401.00002v1"));
         (txt "title", JStr (txt "Another title")) ].

Lemma abstract_packaging_witness :
  (exists c,
     chunk_papers_from_metadata [paper_500] true 1200 120 = Ok [c] /\
     meta_field c "char_end" = Some (JInt 500) /\
     meta_field c "authors" =
       Some (JArr [JStr (txt "A. Author"); JStr (txt "B. Author")])) /\
  chunk_papers_from_metadata [paper_no_abstract] true 1200 120 = Ok [] /\
  exists c,
    chunk_papers_from_metadata [paper_no_abstract; paper_500; paper_no_abstract]
      true 1200 120 = Ok [c].
Proof.
  destruct abstract_packaging as [Hone [Hnone Hlist]].
  destruct (Hone (match paper_500 with JObj f => f | _ => [] end) (A 500) 120
              ltac:(vm_compute; reflexivity) ltac:(vm_compute; reflexivity))
    as [c (Hp & Hc & _ & _ & _ & Hend & _ & Hauth & _)].
  destruct (Hnone (match paper_no_abstract with JObj f => f | _ => [] end) true 1200 120
              ltac:(vm_compute; reflexivity)) as [Hn1 Hn].
  split; [| split].
  - exists c. split; [exact Hc |]. split; [exact Hend |].
    apply Hauth. vm_compute. reflexivity.
  - exact Hn.
  - exists c.
    apply (Hlist [paper_no_abstract] paper_500 [paper_no_abstract] true 1200 120
             [] [c] [] Hn Hp Hn).
Defined.

End ChunkerTheorems.

(** ** Theorems on the retrieval metrics *)

Module RetrievalEvalTheorems.
Import RetrievalEval.

(** The double 0.4 (0x3FD999999999999A) and the double 0.5. *)
Definition float_0_4 : spec_float := S754_finite false 7205759403792794 (-54).
Definition float_0_5 : spec_float := S754_finite false 4503599627370496 (-53).

Section Metrics.
Context {Id : Type} `{Countable Id}.

Lemma list_to_set_inter_filter (l : list Id) (relevant : gset Id) :
  (list_to_set l : gset Id) ∩ relevant = list_to_set (filter (.∈ relevant) l).
Proof using Type.
  apply set_eq. intros x.
  rewrite elem_of_intersection, !elem_of_list_to_set, list_elem_of_filter.
  tauto.
Qed.

(** C3, as the code has it.  Precision@k is 0.0 when the slice
    [retrieved_ids[:k]] is empty; otherwise it is the number of distinct
    ids of the slice that are relevant, divided by the number of
    distinct ids of the slice.  When no id occurs twice in the slice,
    this is the number of relevant entries of the slice divided by the
    length of the slice. *)
Theorem precision_at_k (retrieved_ids : list Id) (relevant_ids : gset Id) (k : Z) :
  let slice := py_slice retrieved_ids 0 k in
  let distinct : gset Id := list_to_set slice in
  (slice = [] ->
     compute_precision_at_k retrieved_ids relevant_ids k = Ok float_0_0) /\
  (slice <> [] ->
     compute_precision_at_k retrieved_ids relevant_ids k =
       py_truediv (size (distinct ∩ relevant_ids)) (size distinct)) /\
  (slice <> [] -> NoDup slice ->
     compute_precision_at_k retrieved_ids relevant_ids k =
       py_truediv (length (filter (.∈ relevant_ids) slice)) (length slice)).
Proof using Type.
  intros slice distinct. unfold compute_precision_at_k. fold slice.
  split; [| split].
  - intros ->. reflexivity.
  - intros Hne. by rewrite bool_decide_eq_false_2.
  - intros Hne Hnodup. rewrite bool_decide_eq_false_2 by assumption.
    rewrite list_to_set_inter_filter.
    rewrite !size_list_to_set; [reflexivity | assumption |].
    by apply NoDup_filter.
Qed.
End Metrics.

Open Scope string_scope.

Lemma precision_at_k_witness :
  compute_precision_at_k ["a"; "b"; "c"; "d"; "e"] ({["b"]} ∪ {["d"]} ∪ {["z"]}) 5
    = Ok float_0_4 /\
  compute_precision_at_k ["a"; "b"] ({["b"]} : gset string) 0 = Ok float_0_0.
Proof.
  split.
  - rewrite (proj2 (proj2 (precision_at_k ["a"; "b"; "c"; "d"; "e"]
                             ({["b"]} ∪ {["d"]} ∪ {["z"]}) 5))).
    + vm_compute. reflexivity.
    + vm_compute. discriminate.
    + apply (bool_decide_unpack (NoDup _)). vm_compute. exact I.
  - apply (proj1 (precision_at_k ["a"; "b"] ({["b"]} : gset string) 0)).
    vm_compute. reflexivity.
Defined.

(** C3 as stated fails on a slice with a repeated id: for
    [retrieved = ["a"; "a"; "b"]], [relevant = {"a"}] and [k = 3] the slice
    has length 3 and the code returns 1/2, which is neither 1/3 (distinct
    relevant ids over the slice length) nor 2/3 (relevant entries over the
    slice length). *)
Lemma precision_duplicates_counterexample :
  let retrieved := ["a"; "a"; "b"] in
  let relevant : gset string := {["a"]} in
  let slice := py_slice retrieved 0 3 in
  length slice = 3%nat /\
  compute_precision_at_k retrieved relevant 3 = Ok float_0_5 /\
  compute_precision_at_k retrieved relevant 3 <>
    py_truediv (size ((list_to_set slice : gset string) ∩ relevant)) (length slice) /\
  compute_precision_at_k retrieved relevant 3 <>
    py_truediv (length (filter (.∈ relevant) slice)) (length slice).
Proof.
  cbv zeta.
  assert (E : compute_precision_at_k ["a"; "a"; "b"] ({["a"]} : gset string) 3
              = Ok float_0_5) by (vm_compute; reflexivity).
  rewrite E. repeat split; try reflexivity; vm_compute; discriminate.
Qed.

Close Scope string_scope.

End RetrievalEvalTheorems.


(** ** Properties of the JSON encoder and decoder *)

Module PyJsonSpec.
Import PyJson.

(** *** Strings *)

Lemma decode_hex4_control (c : N) :
  (c < 32)%N ->
  decode_hex4 48 48 (hex_char (c / 16)) (hex_char (c mod 16)) = Some c.
Proof.
  intros Hc.
  assert (Hn : exists n : nat, (n < 32)%nat /\ c = N.of_nat n).
  { exists (N.to_nat c). split; [lia | by rewrite N2Nat.id]. }
  destruct Hn as (n & Hn & ->).
  do 32 (destruct n as [| n]; [vm_compute; reflexivity |]). lia.
Qed.

(** Reading back the escape of a character gives the character. *)
Lemma scanstring_escape (c : N) (tail acc : text) :
  scanstring (escape_char c ++ tail) acc = scanstring tail (c :: acc).
Proof.
  unfold escape_char.
  destruct (N.eqb_spec c 34) as [-> | ?]; [reflexivity |].
  destruct (N.eqb_spec c 92) as [-> | ?]; [reflexivity |].
  destruct (N.eqb_spec c 10) as [-> | ?]; [reflexivity |].
  destruct (N.eqb_spec c 13) as [-> | ?]; [reflexivity |].
  destruct (N.eqb_spec c 9) as [-> | ?]; [reflexivity |].
  destruct (N.eqb_spec c 8) as [-> | ?]; [reflexivity |].
  destruct (N.eqb_spec c 12) as [-> | ?]; [reflexivity |].
  destruct (N.ltb_spec c 32) as [Hlt | Hge].
  - cbn [app scanstring N.eqb Pos.eqb].
    rewrite decode_hex4_control by assumption.
    replace (is_high_surrogate c) with false; [reflexivity |].
    symmetry. unfold is_high_surrogate. apply andb_false_intro1. apply N.leb_gt. lia.
  - cbn [app scanstring].
    destruct (N.eqb_spec c 34); [congruence |].
    destruct (N.eqb_spec c 92); [congruence |].
    destruct (N.ltb_spec c 32); [lia | reflexivity].
Qed.

Lemma scanstring_encoded (s tail acc : text) :
  scanstring (flat_map escape_char s ++ 34%N :: tail) acc = Ok (rev acc ++ s, tail).
Proof.
  revert acc. induction s as [| c s IH]; intros acc.
  - cbn. by rewrite app_nil_r.
  - cbn [flat_map]. rewrite <- app_assoc, scanstring_escape, IH.
    cbn [rev]. by rewrite <- app_assoc.
Qed.

(** *** Integers *)

(** The number a run of digits denotes, on top of [acc]. *)
Fixpoint uint_value (d : Decimal.uint) (acc : N) : N :=
  match d with
  | Decimal.Nil => acc
  | Decimal.D0 d => uint_value d (acc * 10 + 0)
  | Decimal.D1 d => uint_value d (acc * 10 + 1)
  | Decimal.D2 d => uint_value d (acc * 10 + 2)
  | Decimal.D3 d => uint_value d (acc * 10 + 3)
  | Decimal.D4 d => uint_value d (acc * 10 + 4)
  | Decimal.D5 d => uint_value d (acc * 10 + 5)
  | Decimal.D6 d => uint_value d (acc * 10 + 6)
  | Decimal.D7 d => uint_value d (acc * 10 + 7)
  | Decimal.D8 d => uint_value d (acc * 10 + 8)
  | Decimal.D9 d => uint_value d (acc * 10 + 9)
  end%N.

Lemma of_uint_acc_value d acc :
  Npos (Pos.of_uint_acc d acc) = uint_value d (Npos acc).
Proof.
  revert acc. induction d; intros acc; cbn [Pos.of_uint_acc uint_value];
    [reflexivity | rewrite IHd; f_equal; lia ..].
Qed.

Lemma of_uint_value d : Pos.of_uint d = uint_value d 0.
Proof.
  induction d; cbn [Pos.of_uint uint_value];
    [reflexivity | assumption | rewrite of_uint_acc_value; reflexivity ..].
Qed.

Lemma to_uint_value p : uint_value (Pos.to_uint p) 0 = Npos p.
Proof. rewrite <- of_uint_value. apply DecimalPos.Unsigned.of_to. Qed.

(** What may follow a value in an encoded text: nothing, a comma, or a
    closing bracket or brace. *)
Definition delimited (rest : text) : Prop :=
  match rest with
  | [] => True
  | c :: _ => c = 44%N \/ c = 93%N \/ c = 125%N
  end.

Lemma delimited_no_digit rest : delimited rest -> starts_with_digit rest = false.
Proof.
  destruct rest as [| c r]; [reflexivity |].
  intros [-> | [-> | ->]]; reflexivity.
Qed.

Lemma delimited_no_float rest : delimited rest -> float_follows rest = false.
Proof.
  destruct rest as [| c r]; [reflexivity |].
  intros [-> | [-> | ->]]; reflexivity.
Qed.

Lemma scan_digits_stop rest acc :
  starts_with_digit rest = false -> scan_digits rest acc = (acc, rest).
Proof.
  destruct rest as [| c r]; [reflexivity |]. cbn.
  destruct (digit_value c); [| reflexivity].
  intros H. apply bool_decide_eq_false in H. exfalso. apply H. eauto.
Qed.

Lemma scan_digits_encoded d rest acc :
  starts_with_digit rest = false ->
  scan_digits (uint_chars d ++ rest) acc = (uint_value d acc, rest).
Proof.
  intros Hrest. revert acc.
  induction d; intros acc; cbn [uint_chars uint_value app];
    [by apply scan_digits_stop | cbn [scan_digits]; apply IHd ..].
Qed.

(** The decimal digits of a positive number start with a non-zero
    digit. *)
Lemma to_uint_normal p :
  match Pos.to_uint p with
  | Decimal.Nil | Decimal.D0 _ => False
  | _ => True
  end.
Proof.
  pose proof (DecimalPos.Unsigned.to_uint_nonnil p) as Hnil.
  pose proof (DecimalPos.Unsigned.to_uint_nonzero p) as Hzero.
  pose proof (DecimalPos.Unsigned.to_of (Pos.to_uint p)) as Hnorm.
  rewrite DecimalPos.Unsigned.of_to in Hnorm. cbn [N.to_uint] in Hnorm.
  destruct (Pos.to_uint p) as [| d | d | d | d | d | d | d | d | d | d] eqn:E;
    [congruence | | exact I ..].
  rewrite DecimalFacts.unorm_D0 in Hnorm.
  assert (Hd : d = Decimal.Nil \/ d <> Decimal.Nil)
    by (destruct d; [left; reflexivity | right; discriminate ..]).
  destruct Hd as [-> | Hd]; [by apply Hzero |].
  pose proof (DecimalFacts.nb_digits_unorm d Hd) as Hlen.
  rewrite <- Hnorm in Hlen. cbn in Hlen. lia.
Qed.

(** Evaluates the closed subtractions and comparisons of code points
    left in the goal. *)
Ltac eval_codes :=
  repeat match goal with
         | |- context [(N.pos ?a - N.pos ?b)%N] =>
             let v := eval vm_compute in (N.pos a - N.pos b)%N in
             change (N.pos a - N.pos b)%N with v
         | |- context [(?a =? ?b)%N] =>
             let v := eval vm_compute in (a =? b)%N in
             match v with
             | true => change (a =? b)%N with true
             | false => change (a =? b)%N with false
             end
         end;
  cbv iota beta.

Lemma scan_number_encoded (z : Z) (rest : text) :
  delimited rest ->
  scan_number (encode_int z ++ rest) = Ok (JInt z, rest).
Proof.
  intros Hrest.
  pose proof (delimited_no_digit _ Hrest) as Hdig.
  pose proof (delimited_no_float _ Hrest) as Hflt.
  destruct z as [| p | p]; cbn [encode_int].
  - unfold scan_number. cbn. eval_codes. by rewrite Hflt.
  - pose proof (to_uint_value p) as Hval. pose proof (to_uint_normal p) as Hn.
    destruct (Pos.to_uint p); [done | done | ..];
      cbn [uint_value] in Hval; rewrite N.mul_0_l, N.add_0_l in Hval;
      unfold scan_number; cbn; eval_codes;
      rewrite scan_digits_encoded, Hflt, Hval by assumption; reflexivity.
  - pose proof (to_uint_value p) as Hval. pose proof (to_uint_normal p) as Hn.
    destruct (Pos.to_uint p); [done | done | ..];
      cbn [uint_value] in Hval; rewrite N.mul_0_l, N.add_0_l in Hval;
      unfold scan_number; cbn; eval_codes;
      rewrite scan_digits_encoded, Hflt, Hval by assumption; reflexivity.
Qed.

(** *** Values *)

(** Induction on [json], with the hypothesis for every item of an array
    and every value of an object. *)
Section JsonInd.
Variable P : json -> Prop.
Hypothesis Hnull : P JNull.
Hypothesis Hbool : forall b, P (JBool b).
Hypothesis Hint : forall z, P (JInt z).
Hypothesis Hstr : forall s, P (JStr s).
Hypothesis Harr : forall items, Forall P items -> P (JArr items).
Hypothesis Hobj : forall fields, Forall (fun kv => P (snd kv)) fields -> P (JObj fields).

Fixpoint json_ind (v : json) : P v :=
  match v with
  | JNull => Hnull
  | JBool b => Hbool b
  | JInt z => Hint z
  | JStr s => Hstr s
  | JArr items =>
      Harr items
        ((fix all (l : list json) : Forall P l :=
            match l with
            | [] => List.Forall_nil P
            | x :: r => List.Forall_cons P x r (json_ind x) (all r)
            end) items)
  | JObj fields =>
      Hobj fields
        ((fix all (l : list (text * json)) : Forall (fun kv => P (snd kv)) l :=
            match l with
            | [] => List.Forall_nil _
            | kv :: r => List.Forall_cons _ kv r (json_ind (snd kv)) (all r)
            end) fields)
  end.
End JsonInd.

(** The fuel [scan_once] needs for an encoded value. *)
Fixpoint json_size (v : json) : nat :=
  match v with
  | JArr items => S (list_sum (map (fun x => S (json_size x)) items))
  | JObj fields => S (list_sum (map (fun kv => S (json_size (snd kv))) fields))
  | _ => 1
  end.

(** A Python dictionary holds every key once. *)
Fixpoint distinct_keys (v : json) : bool :=
  match v with
  | JArr items => forallb distinct_keys items
  | JObj fields =>
      bool_decide (NoDup (map fst fields))
      && forallb (fun kv => distinct_keys (snd kv)) fields
  | _ => true
  end.

(** The characters an encoded value can start with. *)
Definition value_starts : list N :=
  [34; 123; 91; 110; 116; 102; 45; 48; 49; 50; 51; 52; 53; 54; 55; 56; 57]%N.

Ltac each_start H :=
  repeat (apply elem_of_cons in H as [-> | H]); [.. | by apply elem_of_nil in H].

Lemma dumps_head v : exists c r, dumps v = c :: r /\ c ∈ value_starts.
Proof.
  destruct v as [| [|] | [| p | p] | s | items | fields];
    try (eexists _, _; split; [reflexivity | unfold value_starts; set_solver]).
  pose proof (to_uint_normal p) as Hn. cbn [dumps encode_int].
  destruct (Pos.to_uint p); try done;
    (eexists _, _; split; [reflexivity | unfold value_starts; set_solver]).
Qed.

Lemma skip_ws_start c r : c ∈ value_starts -> skip_ws (c :: r) = c :: r.
Proof. intros H. unfold value_starts in H. each_start H; reflexivity. Qed.

Lemma start_not_close c :
  c ∈ value_starts -> (c =? 93)%N = false /\ (c =? 125)%N = false.
Proof. intros H. unfold value_starts in H. each_start H; split; reflexivity. Qed.

Lemma dict_set_fresh fields key value :
  key ∉ map fst fields -> dict_set fields key value = fields ++ [(key, value)].
Proof.
  induction fields as [| [k v] fields IH]; intros Hfresh; [reflexivity |].
  cbn [dict_set map fst] in *. unfold text_eqb.
  apply not_elem_of_cons in Hfresh as [Hne Hrest].
  rewrite bool_decide_eq_false_2 by congruence.
  cbn [app]. f_equal. by apply IH.
Qed.

Lemma dict_of_pairs_distinct pairs :
  NoDup (map fst pairs) -> dict_of_pairs pairs = pairs.
Proof.
  unfold dict_of_pairs.
  assert (Hgen : forall acc,
             NoDup (map fst (acc ++ pairs)) ->
             foldl (fun d kv => dict_set d (fst kv) (snd kv)) acc pairs = acc ++ pairs).
  { induction pairs as [| [k v] pairs IH]; intros acc Hnd.
    - cbn. by rewrite app_nil_r.
    - cbn [foldl fst snd]. rewrite dict_set_fresh.
      + rewrite IH; rewrite <- app_assoc; [reflexivity | exact Hnd].
      + rewrite map_app in Hnd. apply NoDup_app in Hnd as (_ & Hdisj & _).
        intros Hin. apply (Hdisj k Hin). cbn. apply elem_of_cons. by left. }
  intros Hnd. apply (Hgen []). exact Hnd.
Qed.

Lemma delimited_skip_ws rest : delimited rest -> skip_ws rest = rest.
Proof.
  destruct rest as [| c r]; [reflexivity |].
  intros [-> | [-> | ->]]; reflexivity.
Qed.

Lemma skip_ws_dumps v l : skip_ws (dumps v ++ l) = dumps v ++ l.
Proof.
  destruct (dumps_head v) as (c & r & -> & Hc). cbn [app]. by apply skip_ws_start.
Qed.

(** The items of an array, read back. *)
Lemma scan_elements_encoded (items : list json) :
  Forall (fun v => forall fuel rest, (json_size v <= fuel)%nat -> delimited rest ->
                   scan_once fuel (dumps v ++ rest) = Ok (v, rest)) items ->
  items <> [] ->
  forall fuel rest,
    (list_sum (map (fun x => S (json_size x)) items) <= fuel)%nat ->
    scan_elements fuel (join [44; 32]%N (map dumps items) ++ 93%N :: rest)
      = Ok (items, rest).
Proof.
  induction 1 as [| x items Hx Hitems IH]; [done |].
  intros _ fuel rest Hfuel. cbn [map list_sum fold_right] in Hfuel.
  destruct fuel as [| fuel]; [lia |]. cbn [scan_elements].
  destruct items as [| y items].
  - cbn [map join]. rewrite Hx by (cbn in *; first [lia | auto]).
    cbn. reflexivity.
  - change (join [44; 32]%N (map dumps (x :: y :: items)))
      with (dumps x ++ [44; 32]%N ++ join [44; 32]%N (map dumps (y :: items))).
    rewrite <- !app_assoc. rewrite Hx by (cbn in *; first [lia | auto]).
    cbn [mbind result_bind fst snd app skip_ws is_ws N.eqb Pos.eqb orb].
    destruct (dumps_head y) as (c & r & Hy & Hc).
    assert (Hskip : skip_ws (join [44; 32]%N (map dumps (y :: items)) ++ 93%N :: rest)
                    = join [44; 32]%N (map dumps (y :: items)) ++ 93%N :: rest).
    { cbn [map join]. destruct items; rewrite Hy; cbn [app]; by apply skip_ws_start. }
    rewrite Hskip, IH by (first [done | cbn in *; lia]).
    reflexivity.
Qed.

(** The members of an object, read back. *)
Lemma scan_members_encoded (fields : list (text * json)) :
  Forall (fun kv => forall fuel rest, (json_size (snd kv) <= fuel)%nat -> delimited rest ->
                    scan_once fuel (dumps (snd kv) ++ rest) = Ok (snd kv, rest)) fields ->
  fields <> [] ->
  forall fuel rest,
    (list_sum (map (fun kv => S (json_size (snd kv))) fields) <= fuel)%nat ->
    scan_members fuel
      (join [44; 32]%N
         (map (fun kv => encode_str (fst kv) ++ [58; 32]%N ++ dumps (snd kv)) fields)
       ++ 125%N :: rest)
      = Ok (fields, rest).
Proof.
  induction 1 as [| [k v] fields Hv Hfields IH]; [done |].
  intros _ fuel rest Hfuel. cbn [map list_sum fold_right snd fst] in Hfuel, Hv.
  destruct fuel as [| fuel]; [lia |].
  assert (Hmember : forall tail, delimited tail ->
            scan_members (S fuel)
              ((encode_str k ++ [58; 32]%N ++ dumps v) ++ tail) =
            match tail with
            | d :: r2 =>
                if (d =? 125)%N then Ok ([(k, v)], r2)
                else if (d =? 44)%N then
                  mr ← scan_members fuel (skip_ws r2);
                  Ok ((k, v) :: fst mr, snd mr)
                else Raise JSONDecodeError
            | [] => Raise JSONDecodeError
            end).
  { intros tail Htail. cbn [scan_members]. unfold encode_str.
    cbn [app]. rewrite <- !app_assoc. cbn [app N.eqb Pos.eqb].
    rewrite scanstring_encoded.
    cbn [mbind result_bind fst snd rev app skip_ws is_ws N.eqb Pos.eqb orb].
    rewrite skip_ws_dumps.
    rewrite Hv by (first [lia | assumption]).
    cbn [mbind result_bind fst snd]. by rewrite delimited_skip_ws. }
  destruct fields as [| [k' v'] fields].
  - cbn [map join fst snd]. rewrite Hmember by (cbn; auto). reflexivity.
  - change (join [44; 32]%N
              (map (fun kv => encode_str (fst kv) ++ [58; 32]%N ++ dumps (snd kv))
                   ((k, v) :: (k', v') :: fields)))
      with ((encode_str k ++ [58; 32]%N ++ dumps v) ++ [44; 32]%N ++
            join [44; 32]%N
              (map (fun kv => encode_str (fst kv) ++ [58; 32]%N ++ dumps (snd kv))
                   ((k', v') :: fields))).
    rewrite <- (app_assoc _ _ (125%N :: rest)).
    rewrite <- (app_assoc ([44; 32]%N)).
    rewrite Hmember by (cbn; auto).
    cbn [app N.eqb Pos.eqb skip_ws is_ws orb].
    assert (Hskip : forall l, skip_ws (join [44; 32]%N
              (map (fun kv => encode_str (fst kv) ++ [58; 32]%N ++ dumps (snd kv))
                   ((k', v') :: fields)) ++ l) =
              join [44; 32]%N
              (map (fun kv => encode_str (fst kv) ++ [58; 32]%N ++ dumps (snd kv))
                   ((k', v') :: fields)) ++ l).
    { intros l. cbn [map join fst]. destruct fields; reflexivity. }
    rewrite Hskip, IH by (first [done | cbn in *; lia]).
    reflexivity.
Qed.

Lemma literal_codes :
  txt "null" = [110; 117; 108; 108]%N /\
  txt "true" = [116; 114; 117; 101]%N /\
  txt "false" = [102; 97; 108; 115; 101]%N.
Proof. repeat split; vm_compute; reflexivity. Qed.

(** A text that starts with a digit or a minus sign is read as a number. *)
Ltac scan_once_number Hnum :=
  destruct literal_codes as (-> & -> & ->);
  cbn [strip_prefix]; eval_codes; rewrite Hnum; reflexivity.

(** Decoding an encoded value gives the value back, whatever delimiter
    follows it. *)
Lemma scan_once_dumps (v : json) :
  distinct_keys v = true ->
  forall fuel rest, (json_size v <= fuel)%nat -> delimited rest ->
    scan_once fuel (dumps v ++ rest) = Ok (v, rest).
Proof.
  induction v as [| b | z | s | items IH | fields IH] using json_ind;
    intros Hkeys fuel rest Hfuel Hrest;
    (destruct fuel as [| fuel]; [cbn in Hfuel; lia |]).
  - reflexivity.
  - destruct b; reflexivity.
  - pose proof (scan_number_encoded z rest Hrest) as Hnum.
    pose proof (to_uint_normal) as Hnorm.
    destruct z as [| p | p]; cbn [dumps encode_int] in *.
    + cbn [scan_once app] in *. eval_codes. scan_once_number Hnum.
    + specialize (Hnorm p).
      destruct (Pos.to_uint p); try done;
        cbn [uint_chars app scan_once] in *; eval_codes; scan_once_number Hnum.
    + specialize (Hnorm p).
      destruct (Pos.to_uint p); try done;
        cbn [uint_chars app scan_once] in *; eval_codes; scan_once_number Hnum.
  - cbn [dumps]. unfold encode_str. cbn [app scan_once N.eqb Pos.eqb].
    rewrite <- app_assoc. cbn [app]. by rewrite scanstring_encoded.
  - cbn [distinct_keys] in Hkeys. cbn [json_size] in Hfuel.
    cbn [dumps app scan_once N.eqb Pos.eqb]. rewrite <- app_assoc. cbn [app].
    destruct items as [| x items]; [reflexivity |].
    destruct (dumps_head x) as (c & r & Hx & Hc).
    assert (Hhead : exists r', join [44; 32]%N (map dumps (x :: items)) ++ 93%N :: rest
                               = c :: r').
    { cbn [map join]. destruct items; rewrite Hx; cbn [app]; eauto. }
    destruct Hhead as [r' Hhead].
    pose proof (scan_elements_encoded (x :: items)) as Hel.
    rewrite Hhead. rewrite skip_ws_start by assumption.
    destruct (start_not_close c Hc) as [-> _].
    rewrite <- Hhead, Hel; [reflexivity | | done | lia].
    apply Forall_forall. intros y Hy.
    rewrite Forall_forall in IH. apply IH; [exact Hy |].
    rewrite forallb_forall in Hkeys. apply Hkeys. by apply list_elem_of_In.
  - cbn [distinct_keys] in Hkeys. apply andb_prop in Hkeys as [Hnd Hkeys].
    apply bool_decide_eq_true in Hnd. cbn [json_size] in Hfuel.
    cbn [dumps]. rewrite <- app_comm_cons, <- app_assoc.
    change ([125%N] ++ rest) with (125%N :: rest).
    cbn [scan_once N.eqb Pos.eqb].
    destruct fields as [| [k x] fields]; [reflexivity |].
    assert (Hhead : exists r',
              join [44; 32]%N
                (map (fun kv => encode_str (fst kv) ++ [58; 32]%N ++ dumps (snd kv))
                     ((k, x) :: fields)) ++ 125%N :: rest = 34%N :: r').
    { cbn [map join fst]. destruct fields; cbn [app encode_str]; eauto. }
    destruct Hhead as [r' Hhead].
    pose proof (scan_members_encoded ((k, x) :: fields)) as Hmem.
    rewrite Hhead. cbn [skip_ws is_ws N.eqb Pos.eqb orb].
    rewrite <- Hhead, Hmem; [| | done | lia].
    + cbn [mbind result_bind fst snd]. by rewrite dict_of_pairs_distinct.
    + apply Forall_forall. intros kv Hkv.
      rewrite Forall_forall in IH. apply IH; [exact Hkv |].
      rewrite forallb_forall in Hkeys. apply Hkeys. by apply list_elem_of_In.
Qed.

(** *** The encoded text *)

Lemma join_length_bound (parts : list text) (sizes : list nat) :
  Forall2 (fun p n => (n <= length p)%nat) parts sizes ->
  (list_sum (map S sizes) <= length (join [44; 32]%N parts) + 1)%nat.
Proof.
  induction 1 as [| p n parts sizes Hp Hrest IH]; [cbn; lia |].
  destruct Hrest as [| q m parts sizes Hq Hrest].
  - cbn in *. lia.
  - change (join [44; 32]%N (p :: q :: parts))
      with (p ++ [44; 32]%N ++ join [44; 32]%N (q :: parts)).
    rewrite !length_app. cbn [map list_sum fold_right length] in *. lia.
Qed.

(** An encoded value is at least as long as the fuel its decoding
    needs. *)
Lemma json_size_dumps (v : json) : (json_size v <= length (dumps v))%nat.
Proof.
  induction v as [| b | z | s | items IH | fields IH] using json_ind.
  - cbn. lia.
  - destruct b; cbn; lia.
  - destruct (dumps_head (JInt z)) as (c & r & -> & _). cbn. lia.
  - cbn. lia.
  - cbn [json_size dumps length]. rewrite length_app. cbn [length].
    pose proof (join_length_bound (map dumps items) (map json_size items)) as Hb.
    rewrite map_map in Hb. cbn [length]. 
    enough (list_sum (map (fun x => S (json_size x)) items)
            <= length (join [44; 32]%N (map dumps items)) + 1)%nat by lia.
    apply Hb. apply Forall2_fmap, Forall_Forall2_diag. exact IH.
  - cbn [json_size dumps length]. rewrite length_app. cbn [length].
    pose proof (join_length_bound
                  (map (fun kv => encode_str (fst kv) ++ [58; 32]%N ++ dumps (snd kv)) fields)
                  (map (fun kv => json_size (snd kv)) fields)) as Hb.
    rewrite map_map in Hb.
    enough (list_sum (map (fun kv => S (json_size (snd kv))) fields)
            <= length (join [44; 32]%N
                 (map (fun kv => encode_str (fst kv) ++ [58; 32]%N ++ dumps (snd kv))
                      fields)) + 1)%nat by lia.
    apply Hb. apply Forall2_fmap, Forall_Forall2_diag.
    eapply Forall_impl; [exact IH |]. intros kv Hkv. cbn beta in *.
    rewrite !length_app. lia.
Qed.

(** [json.loads(json.dumps(v, ensure_ascii=False))] is [v]. *)
Lemma loads_dumps (v : json) : distinct_keys v = true -> loads (dumps v) = Ok v.
Proof.
  intros Hkeys. unfold loads.
  pose proof (skip_ws_dumps v []) as Hskip.
  pose proof (json_size_dumps v) as Hsize.
  pose proof (scan_once_dumps v Hkeys (S (length (dumps v))) []
                ltac:(lia) I) as Hscan.
  rewrite app_nil_r in Hskip, Hscan. rewrite Hskip, Hscan. reflexivity.
Qed.

(** The characters of the strings and keys of a value. *)
Fixpoint json_chars (v : json) : text :=
  match v with
  | JStr s => s
  | JArr items => flat_map json_chars items
  | JObj fields => flat_map (fun kv => fst kv ++ json_chars (snd kv)) fields
  | _ => []
  end.

(** A value whose strings UTF-8 can encode. *)
Definition encodable_json (v : json) : bool := forallb encodable (json_chars v).

(** A character of an encoded text: printable ASCII, or a character of
    one of the strings, and never a control character. *)
Definition encoded_char (from : text) (c : N) : Prop :=
  (32 <= c)%N /\ ((c <= 126)%N \/ c ∈ from).

Lemma encoded_char_mono from from' c :
  from ⊆ from' -> encoded_char from c -> encoded_char from' c.
Proof. intros Hsub [Hc [Ha | Hin]]; split; auto. Qed.

Definition printable (c : N) : bool := ((32 <=? c) && (c <=? 126))%N.

Lemma printable_chars from (l : text) :
  forallb printable l = true -> Forall (encoded_char from) l.
Proof.
  intros H. apply Forall_forall. intros c Hc.
  rewrite forallb_forall in H. apply list_elem_of_In, H in Hc.
  unfold printable in Hc. apply andb_prop in Hc as [H1 H2].
  apply N.leb_le in H1, H2. split; auto.
Qed.

Lemma escape_char_chars c : Forall (encoded_char [c]) (escape_char c).
Proof.
  unfold escape_char, encoded_char.
  repeat match goal with
         | |- context [(c =? ?k)%N] => destruct (N.eqb_spec c k) as [-> | ?]
         end;
    try (apply printable_chars; reflexivity).
  destruct (N.ltb_spec c 32) as [Hlt | Hge].
  - assert (Hhex : forall d, (d < 16)%N -> (48 <= hex_char d <= 102)%N).
    { intros d Hd. unfold hex_char. destruct (N.ltb_spec d 10); lia. }
    pose proof (Hhex (c / 16)%N ltac:(apply N.Div0.div_lt_upper_bound; lia)).
    pose proof (Hhex (c mod 16)%N ltac:(apply N.mod_upper_bound; lia)).
    repeat constructor; lia.
  - constructor; [split; [lia | right; set_solver] | constructor].
Qed.

Lemma encode_str_chars s : Forall (encoded_char s) (encode_str s).
Proof.
  unfold encode_str. apply Forall_cons. split; [split; [lia | left; lia] |].
  apply Forall_app. split; [| apply printable_chars; reflexivity].
  apply Forall_flat_map, Forall_forall. intros c Hc.
  eapply Forall_impl; [apply escape_char_chars |].
  intros c'. apply encoded_char_mono. intros x Hx.
  apply elem_of_cons in Hx as [-> | Hx]; [exact Hc | by apply elem_of_nil in Hx].
Qed.

Lemma uint_chars_digits d : Forall (fun c => (48 <= c <= 57)%N) (uint_chars d).
Proof. induction d; cbn [uint_chars]; constructor; first [lia | assumption]. Qed.

Lemma join_chars (Q : N -> Prop) sep parts :
  Forall Q sep -> Forall (Forall Q) parts -> Forall Q (join sep parts).
Proof.
  intros Hsep. induction 1 as [| p parts Hp Hparts IH]; [constructor |].
  destruct parts as [| q parts]; [exact Hp |].
  change (join sep (p :: q :: parts)) with (p ++ sep ++ join sep (q :: parts)).
  rewrite !Forall_app. auto.
Qed.

Lemma dumps_chars (v : json) : Forall (encoded_char (json_chars v)) (dumps v).
Proof.
  induction v as [| b | z | s | items IH | fields IH] using json_ind.
  - apply printable_chars; reflexivity.
  - destruct b; apply printable_chars; reflexivity.
  - assert (Hd : forall p, Forall (encoded_char []) (uint_chars (Pos.to_uint p))).
    { intros p. eapply Forall_impl; [apply uint_chars_digits |].
      intros c Hc. cbn beta in Hc. split; [lia | left; lia]. }
    destruct z; cbn [dumps encode_int json_chars];
      [apply printable_chars; reflexivity | apply Hd |].
    constructor; [split; [lia | left; lia] | apply Hd].
  - apply encode_str_chars.
  - cbn [dumps json_chars]. constructor; [split; [lia | left; lia] |].
    apply Forall_app. split; [| apply printable_chars; reflexivity].
    apply join_chars; [apply printable_chars; reflexivity |].
    apply Forall_fmap, Forall_forall. intros x Hx.
    rewrite Forall_forall in IH. cbn.
    eapply Forall_impl; [apply IH, Hx |].
    intros c. apply encoded_char_mono. intros c' Hc'.
    apply list_elem_of_In, in_flat_map. exists x.
    split; apply list_elem_of_In; assumption.
  - cbn [dumps json_chars]. constructor; [split; [lia | left; lia] |].
    apply Forall_app. split; [| apply printable_chars; reflexivity].
    apply join_chars; [apply printable_chars; reflexivity |].
    apply Forall_fmap, Forall_forall. intros [k x] Hx.
    rewrite Forall_forall in IH. unfold compose. cbn [fst snd].
    assert (Hsub : forall part, part ⊆ k ++ json_chars x ->
              part ⊆ flat_map (fun kv => fst kv ++ json_chars (snd kv)) fields).
    { intros part Hpart c' Hc'.
      apply list_elem_of_In, in_flat_map. exists (k, x).
      split; apply list_elem_of_In; [assumption | by apply Hpart]. }
    rewrite !Forall_app. repeat split.
    + eapply Forall_impl; [apply encode_str_chars |].
      intros c. apply encoded_char_mono, Hsub. set_solver.
    + apply printable_chars; reflexivity.
    + eapply Forall_impl; [apply (IH (k, x) Hx) |].
      intros c. apply encoded_char_mono, Hsub. set_solver.
Qed.

Lemma uint_chars_last d :
  d <> Decimal.Nil -> exists r c, uint_chars d = r ++ [c] /\ (48 <= c <= 57)%N.
Proof.
  induction d; intros Hd; [done | ..]; cbn [uint_chars];
    (destruct (uint_chars d) as [| c0 r0] eqn:E;
     [ eexists [], _; split; [reflexivity | lia]
     | destruct IHd as (r & c & Hr & Hc);
       [ intros ->; discriminate
       | rewrite Hr; eexists (_ :: r), c; split; [reflexivity | exact Hc] ] ]).
Qed.

(** An encoded value ends with a character that is not white space. *)
Lemma dumps_last v : exists r c, dumps v = r ++ [c] /\ py_isspace c = false.
Proof.
  assert (Hint : forall p, exists r c,
             uint_chars (Pos.to_uint p) = r ++ [c] /\ py_isspace c = false).
  { intros p.
    destruct (uint_chars_last (Pos.to_uint p)) as (r & c & Hr & Hc);
      [apply DecimalPos.Unsigned.to_uint_nonnil |].
    exists r, c. split; [exact Hr |].
    unfold py_isspace.
    repeat match goal with
           | |- context [(?a <=? ?b)%N] => destruct (N.leb_spec a b); try lia
           | |- context [(?a =? ?b)%N] => destruct (N.eqb_spec a b); try lia
           end; reflexivity. }
  destruct v as [| [|] | [| p | p] | s | items | fields].
  - by exists (txt "nul"), 108%N.
  - by exists (txt "tru"), 101%N.
  - by exists (txt "fals"), 101%N.
  - by exists [], 48%N.
  - apply Hint.
  - destruct (Hint p) as (r & c & Hr & Hc). exists (45%N :: r), c.
    cbn [dumps encode_int]. by rewrite Hr.
  - exists (34%N :: flat_map escape_char s), 34%N. done.
  - eexists (91%N :: _), 93%N. done.
  - eexists (123%N :: _), 125%N. done.
Qed.

Lemma start_not_space c : c ∈ value_starts -> py_isspace c = false.
Proof. intros H. unfold value_starts in H. each_start H; reflexivity. Qed.

(** Stripping the line written for a value leaves the encoded value. *)
Lemma py_strip_dumps_line v : py_strip (dumps v ++ [10%N]) = dumps v.
Proof.
  destruct (dumps_head v) as (c & r & Hhead & Hc).
  destruct (dumps_last v) as (r' & c' & Hlast & Hc').
  apply start_not_space in Hc.
  unfold py_strip.
  assert (Hl : py_lstrip (dumps v ++ [10%N]) = dumps v ++ [10%N])
    by (rewrite Hhead; cbn [app py_lstrip]; by rewrite Hc).
  rewrite Hl. unfold py_rstrip. rewrite rev_app_distr. cbn [rev app py_lstrip].
  change (py_isspace 10) with true. cbv iota.
  rewrite Hlast at 1. rewrite rev_app_distr. cbn [rev app py_lstrip].
  rewrite Hc'. cbn [rev]. rewrite rev_involutive. by rewrite Hlast.
Qed.

Lemma dumps_nonempty v : dumps v <> [].
Proof. destruct (dumps_head v) as (c & r & -> & _). discriminate. Qed.

(** A line without line ends, followed by a line feed, is one line of the
    file. *)
Lemma file_lines_line (l rest cur : text) :
  Forall (fun c => c <> 10%N /\ c <> 13%N) l ->
  file_lines (l ++ 10%N :: rest) cur = (rev cur ++ l ++ [10%N]) :: file_lines rest [].
Proof.
  intros Hl. revert cur. induction Hl as [| c l [H10 H13] Hl IH]; intros cur.
  - cbn [app file_lines N.eqb Pos.eqb rev]. reflexivity.
  - cbn [app file_lines].
    destruct (N.eqb_spec c 10); [done |]. destruct (N.eqb_spec c 13); [done |].
    rewrite IH. cbn [rev]. by rewrite <- app_assoc.
Qed.

Lemma dumps_one_line v : Forall (fun c => c <> 10%N /\ c <> 13%N) (dumps v).
Proof.
  eapply Forall_impl; [apply dumps_chars |].
  intros c [Hc _]. lia.
Qed.

Lemma dumps_encodable v :
  encodable_json v = true -> forallb encodable (dumps v ++ [10%N]) = true.
Proof.
  intros Hv. unfold encodable_json in Hv. rewrite forallb_forall in Hv.
  apply forallb_forall. intros c Hc. apply in_app_or in Hc as [Hc | Hc].
  - pose proof (dumps_chars v) as Hall. rewrite Forall_forall in Hall.
    apply list_elem_of_In, Hall in Hc as [H32 [H126 | Hin]].
    + unfold encodable. apply orb_true_intro. left. apply N.ltb_lt. lia.
    + apply Hv. by apply list_elem_of_In.
  - destruct Hc as [<- | []]. reflexivity.
Qed.

End PyJsonSpec.

(** ** Theorems on the JSONL reader and writer *)

Module IoTheorems.
Import PyJson PyJsonSpec Io.

(** The line [write_jsonl] writes for one item. *)
Definition jsonl_line (v : json) : text := dumps v ++ [10%N].

Lemma write_items_encodable (data : list json) (written : text) :
  Forall (fun v => encodable_json v = true) data ->
  write_items data written = (written ++ flat_map jsonl_line data, Ok tt).
Proof.
  intros Hdata. revert written.
  induction Hdata as [| v data Hv Hdata IH]; intros written.
  - cbn. by rewrite app_nil_r.
  - cbn [write_items flat_map]. rewrite dumps_encodable by assumption.
    rewrite IH. unfold jsonl_line. by rewrite <- app_assoc.
Qed.

Lemma file_lines_written (data : list json) :
  file_lines (flat_map jsonl_line data) [] = map jsonl_line data.
Proof.
  induction data as [| v data IH]; [reflexivity |].
  cbn [flat_map map]. unfold jsonl_line at 1. rewrite <- app_assoc.
  cbn [app]. rewrite file_lines_line by apply dumps_one_line.
  rewrite IH. reflexivity.
Qed.

Lemma read_items_written (data acc : list json) :
  Forall (fun v => distinct_keys v = true) data ->
  read_items (map jsonl_line data) acc = Ok (acc ++ data).
Proof.
  intros Hdata. revert acc.
  induction Hdata as [| v data Hv Hdata IH]; intros acc.
  - cbn. by rewrite app_nil_r.
  - cbn [map read_items]. cbv zeta.
    change (py_strip (jsonl_line v)) with (py_strip (dumps v ++ [10%N])).
    rewrite !py_strip_dumps_line.
    rewrite bool_decide_eq_false_2 by apply dumps_nonempty.
    rewrite loads_dumps by assumption. cbn [mbind result_bind].
    rewrite IH. by rewrite <- app_assoc.
Qed.

Section RoundTrip.
Context {Ix : Type}.

End RoundTrip.




End IoTheorems.

(** ** Theorems on the ingestion command *)

Module ArxivClientTheorems.
Import ArxivClient.

Section Fetch.
Context {Ix : Type}.


End Fetch.

(** For comparison: with one well-formed paper the command logs the
    summary and returns, and the exit status is 0. *)
Example fetch_one_paper_exits_0 :
  let r := fetch (Ix := unit) (Ok [ChunkerTheorems.paper_500]) None ∅ in
  outcome r = Ok tt /\
  exit_status (outcome r) = 0 /\
  logged r = [ InfoSavedPapers 1 "data/raw/metadata.jsonl";
               InfoCategoriesFound {[ txt "cs.CL" ]};
               InfoDateRange (JStr (txt "2024-01-01")) (JStr (txt "2024-01-01")) ].
Proof. cbv zeta. repeat split; vm_compute; reflexivity. Qed.

End ArxivClientTheorems.

(** ** A stand-in for the embedding model and the index

    The theorems on the store hold for every [Backend].  To run the store
    on concrete inputs, this one embeds a text as the text itself, scores
    a stored vector 1 when it equals the query and 0 otherwise, and ranks
    the matching vectors first; like FAISS it pads the hits up to [k]
    with the position -1. *)

Module StubBackend.

Definition stub_encode (model : text) (texts : list json) : result (list text) :=
  comprehension (fun t => match t with
                          | JStr s => Ok s
                          | _ => Raise TypeError
                          end) texts.

Definition stub_scored (vs : list text) (q : text) : list (Z * Z) :=
  imap (fun i v => (if bool_decide (v = q) then 1 else 0, Z.of_nat i)) vs.

Definition stub_search (vs : list text) (q : text) (k : Z) : result (list (Z * Z)) :=
  if k <=? 0 then Raise RuntimeError
  else
    let ranked := filter (fun hit => fst hit = 1) (stub_scored vs q)
                  ++ filter (fun hit => fst hit <> 1) (stub_scored vs q) in
    let found := take (Z.to_nat k) ranked in
    Ok (found ++ replicate (Z.to_nat k - length found) (-1, -1)).

Lemma comprehension_length {A B} (f : A -> result B) (l : list A) (out : list B) :
  comprehension f l = Ok out -> length out = length l.
Proof.
  revert out. induction l as [| x l IH]; intros out; cbn [comprehension].
  - by intros [= <-].
  - destruct (f x) as [y |]; [| discriminate]. cbn.
    destruct (comprehension f l) as [ys |]; [| discriminate]. cbn.
    intros [= <-]. cbn. f_equal. by apply IH.
Qed.

Lemma stub_scored_range (vs : list text) (q : text) :
  Forall (fun hit : Z * Z => snd hit = -1 \/ 0 <= snd hit < Z.of_nat (length vs))
         (stub_scored vs q).
Proof.
  apply Forall_forall. intros [s i] Hin.
  unfold stub_scored in Hin. apply elem_of_lookup_imap in Hin as (j & v & Heq & Hj).
  injection Heq as _ ->. apply lookup_lt_Some in Hj. right. cbn. lia.
Qed.

Lemma stub_search_range (vs : list text) (q : text) (k : Z) (hits : list (Z * Z)) :
  stub_search vs q k = Ok hits ->
  Forall (fun hit => snd hit = -1 \/ 0 <= snd hit < Z.of_nat (length vs)) hits.
Proof.
  unfold stub_search. destruct (k <=? 0); [discriminate |]. intros [= <-].
  apply Forall_app. split.
  - pose proof (stub_scored_range vs q) as Hall. rewrite Forall_forall in Hall.
    apply Forall_take, Forall_app.
    split; apply Forall_forall; intros hit Hhit;
      apply list_elem_of_filter in Hhit as [_ Hhit]; by apply Hall.
  - apply Forall_replicate. by left.
Qed.

#[export] Instance backend : Backend := {|
  vector := text;
  score := Z;
  embedding_dimension := fun _ => 384%nat;
  encode := stub_encode;
  index_search := stub_search;
  format_score := fun s => if s =? 1 then txt "1.0000" else txt "0.0000";
  encode_length := fun model texts vs => comprehension_length _ texts vs;
  index_search_range := stub_search_range
|}.

End StubBackend.

(** ** Stores and index directories to run the code on *)

Module StoreExamples.
Import FaissStore StubBackend.

(** Two chunks of a paper, and a store built from them with the stand-in
    backend. *)
Definition two_chunks : list json :=
  [ Chunker.chunk_data (txt "deep learning") (JStr (txt "2401.00001v1"))
      (JStr (txt "A title")) (JStr (txt "abstract")) 0 0;
    Chunker.chunk_data (txt "learning to rank") (JStr (txt "2401.00001v1"))
      (JStr (txt "A title")) (JStr (txt "abstract")) 1 5 ].

Definition built_store : FAISSStore :=
  after (build_index two_chunks (init Settings.embedding_model)).

(** A chunk whose title holds a lone surrogate, as [json.loads] gives
    for the escape "\ud800" in a chunk file. *)
Definition surrogate_chunk : json :=
  Chunker.chunk_data (txt "unpaired") (JStr (txt "2401.00002v1"))
    (JStr [55296%N]) (JStr (txt "abstract")) 0 0.

(** The directory left by a successful save of a store built from one
    chunk, followed by a save of a store built from three chunks that
    raises while the third metadata line is written. *)
Definition first_store : FAISSStore :=
  after (build_index (take 1 two_chunks) (init Settings.embedding_model)).

Definition second_store : FAISSStore :=
  after (build_index (two_chunks ++ [surrogate_chunk]) (init Settings.embedding_model)).

Definition interrupted_dir : gmap string (file faiss_index) :=
  after (save "data/index" second_store (after (save "data/index" first_store ∅))).

(** The directory a successful save of [built_store] leaves. *)
Definition saved_dir : gmap string (file faiss_index) :=
  after (save "data/index" built_store ∅).

End StoreExamples.

(** ** Theorems on the vector store *)

Module FaissStoreTheorems.
Import PyJson PyJsonSpec Io IoTheorems FaissStore.

Lemma append_inj_r (p a b : string) : (p ++ a = p ++ b)%string -> a = b.
Proof. induction p as [| c p IH]; cbn; [done | intros [= E]; auto]. Qed.

(** The three files of an index directory are different files. *)
Lemma index_files_distinct (index_path : string) :
  path_join index_path "faiss.index" <> path_join index_path "meta.jsonl" /\
  path_join index_path "faiss.index" <> path_join index_path "config.json" /\
  path_join index_path "meta.jsonl" <> path_join index_path "config.json".
Proof.
  unfold path_join. repeat split; intros E; apply append_inj_r in E; discriminate.
Qed.

(** When [write_items] succeeds, the file holds one line per item. *)
Lemma write_items_ok (data : list json) (written : text) :
  snd (write_items data written) = Ok tt ->
  fst (write_items data written) = written ++ flat_map jsonl_line data.
Proof.
  revert written. induction data as [| v data IH]; intros written.
  - cbn. by rewrite app_nil_r.
  - cbn [write_items flat_map].
    destruct (forallb encodable (dumps v ++ [10%N])); [| discriminate].
    intros Hok. rewrite IH by assumption. unfold jsonl_line. by rewrite <- app_assoc.
Qed.

(** Reading the lines written for [data] gives, when it succeeds, as many
    records as were written. *)
Lemma read_items_count (data acc out : list json) :
  read_items (map jsonl_line data) acc = Ok out ->
  length out = (length acc + length data)%nat.
Proof.
  revert acc. induction data as [| v data IH]; intros acc.
  - cbn. intros [= <-]. lia.
  - cbn [map read_items]. cbv zeta.
    change (py_strip (jsonl_line v)) with (py_strip (dumps v ++ [10%N])).
    rewrite !py_strip_dumps_line.
    rewrite bool_decide_eq_false_2 by apply dumps_nonempty.
    destruct (loads (dumps v)) as [item |]; [| discriminate].
    cbn [mbind result_bind]. intros Hread. apply IH in Hread.
    rewrite length_app in Hread. cbn [length] in *. lia.
Qed.

Section Store.
Context `{Backend}.


(** The vector count of a store equals the length of its metadata. *)
Definition counts_agree (self : FAISSStore) : Prop :=
  exists ix, index self = Some ix /\ ntotal ix = length (metadata self).

Lemma build_index_counts (chunks : list json) (self : FAISSStore) :
  chunks <> [] ->
  outcome (build_index chunks self) = Ok tt ->
  exists ix,
    index (after (build_index chunks self)) = Some ix /\
    ntotal ix = length (metadata (after (build_index chunks self))) /\
    length (metadata (after (build_index chunks self))) = length chunks.
Proof using Type.
  intros Hne. unfold build_index. rewrite bool_decide_eq_false_2 by assumption.
  destruct (comprehension _ chunks) as [texts |] eqn:Htexts; [| discriminate].
  destruct (encode (model_name self) texts) as [embeddings |] eqn:Henc;
    [| discriminate].
  destruct (comprehension (fun chunk => py_getitem chunk (txt "metadata")) chunks)
    as [md |] eqn:Hmd; [| discriminate].
  intros _. cbn [after set_metadata set_index index metadata].
  eexists. split; [reflexivity |]. unfold ntotal. cbn [vectors].
  apply encode_length in Henc.
  apply StubBackend.comprehension_length in Htexts, Hmd. split; congruence.
Qed.

Lemma save_load_counts (index_path : string) (self self0 : FAISSStore)
    (fs : gmap string (file faiss_index)) :
  counts_agree self ->
  outcome (save index_path self fs) = Ok tt ->
  outcome (load index_path self0 (after (save index_path self fs))) = Ok tt ->
  let loaded := after (load index_path self0 (after (save index_path self fs))) in
  counts_agree loaded /\
  Io.read_jsonl (path_join index_path "meta.jsonl") (after (save index_path self fs))
    = Ok (metadata loaded) /\
  length (metadata loaded) = length (metadata self).
Proof using Type.
  intros (ix & Hix & Hcount). 
  destruct (index_files_distinct index_path) as (Hfm & Hfc & Hmc).
  unfold save. rewrite Hix. unfold write_jsonl. cbn [fst snd].
  destruct (snd (write_items (metadata self) [])) as [[] |] eqn:Hw; [| discriminate].
  apply write_items_ok in Hw. rewrite Hw. cbn [app after outcome].
  intros _. unfold load.
  destruct (json_load _ _) as [config |]; [| discriminate].
  destruct (py_getitem config _) as [found |]; [| discriminate].
  unfold read_index, read_jsonl.
  rewrite lookup_insert_ne, lookup_insert_ne, lookup_insert_eq by done.
  rewrite lookup_insert_ne, lookup_insert_eq by done.
  rewrite file_lines_written.
  destruct (read_items _ []) as [md |] eqn:Hread; [| discriminate].
  intros _. cbn [after set_metadata set_index index metadata].
  apply read_items_count in Hread. cbn [length] in Hread.
  split; [| split; [reflexivity | lia]].
  exists ix. cbn [index metadata set_metadata set_index]. split; [reflexivity | lia].
Qed.

(** C4, as the code has it.  After every successful [build_index] call
    on a non-empty chunk list, the vector count of the index equals the
    length of the metadata list and the number of chunks.  After a
    successful [save] of a store whose two counts agree, every successful
    [load] from that directory gives a store whose vector count equals
    the number of records of the metadata file it read, which is the
    number saved.  ([load] itself does not compare the two counts.) *)
Theorem vector_count_invariant :
  (forall (chunks : list json) (self : FAISSStore),
     chunks <> [] ->
     outcome (build_index chunks self) = Ok tt ->
     counts_agree (after (build_index chunks self)) /\
     length (metadata (after (build_index chunks self))) = length chunks) /\
  (forall (index_path : string) (self self0 : FAISSStore)
          (fs : gmap string (file faiss_index)),
     counts_agree self ->
     outcome (save index_path self fs) = Ok tt ->
     outcome (load index_path self0 (after (save index_path self fs))) = Ok tt ->
     let loaded := after (load index_path self0 (after (save index_path self fs))) in
     counts_agree loaded /\
     Io.read_jsonl (path_join index_path "meta.jsonl") (after (save index_path self fs))
       = Ok (metadata loaded) /\
     length (metadata loaded) = length (metadata self)).
Proof using Type.
  split.
  - intros chunks self Hne Hok.
    destruct (build_index_counts chunks self Hne Hok) as (ix & Hix & Hn & Hlen).
    split; [by exists ix | exact Hlen].
  - intros index_path self self0 fs. apply save_load_counts.
Qed.

End Store.

Import StubBackend StoreExamples.

Lemma vector_count_invariant_witness :
  (counts_agree built_store /\ length (metadata built_store) = 2%nat) /\
  counts_agree
    (after (load "data/index" (init Settings.embedding_model)
              (after (save "data/index" built_store ∅)))).
Proof.
  destruct (vector_count_invariant (H := StubBackend.backend)) as [Hbuild Hload].
  assert (Hbuilt : counts_agree built_store /\ length (metadata built_store) = 2%nat).
  { apply (Hbuild two_chunks (init Settings.embedding_model));
      [discriminate | vm_compute; reflexivity]. }
  split; [exact Hbuilt |].
  apply (Hload "data/index" built_store (init Settings.embedding_model) ∅);
    [apply Hbuilt | vm_compute; reflexivity ..].
Defined.

(** C4 as stated fails for [load]: the directory [interrupted_dir] was
    written by [save] alone; the first save succeeded, the second raised
    [UnicodeEncodeError] after it had replaced the index file.  Loading
    from it succeeds, with three vectors and two metadata records. *)
Lemma load_counts_differ :
  outcome (save "data/index" first_store ∅) = Ok tt /\
  outcome (save "data/index" second_store (after (save "data/index" first_store ∅)))
    = Raise UnicodeEncodeError /\
  let loaded := load "data/index" (init Settings.embedding_model) interrupted_dir in
  outcome loaded = Ok tt /\
  (exists ix, index (after loaded) = Some ix /\ ntotal ix = 3%nat) /\
  length (metadata (after loaded)) = 2%nat /\
  Io.read_jsonl "data/index/meta.jsonl" interrupted_dir = Ok (metadata (after loaded)) /\
  ~ counts_agree (after loaded).
Proof.
  cbv zeta.
  assert (Hix : exists ix,
            index (after (load "data/index" (init Settings.embedding_model)
                            interrupted_dir)) = Some ix /\ ntotal ix = 3%nat)
    by (eexists; split; vm_compute; reflexivity).
  assert (Hmd : length (metadata (after (load "data/index"
                  (init Settings.embedding_model) interrupted_dir))) = 2%nat)
    by (vm_compute; reflexivity).
  repeat split; try (vm_compute; reflexivity); try exact Hix.
  intros (ix' & Hix' & Hn). destruct Hix as (ix & Hix & Hthree).
  rewrite Hix in Hix'. injection Hix' as <-. lia.
Qed.

End FaissStoreTheorems.

(** ** Theorems on the retriever *)

Module RetrieverTheorems.
Import FaissStore Retriever.

(** How often [Retriever.load_index] reported a loaded index. *)
Definition is_load_line (line : log_line) : bool :=
  match line with
  | InfoLoadedIndex _ => true
  | _ => false
  end.

Definition loads_logged (log : list log_line) : nat :=
  length (filter (fun line => is_load_line line = true) log).

(** A metadata record the formatted view can be taken from. *)
Definition is_object (v : json) : Prop :=
  match v with
  | JObj _ => True
  | _ => False
  end.

Section Retriever.
Context `{Backend}.

Lemma store_load_logs_no_load (index_path : string) (self : FAISSStore)
    (fs : gmap string (file faiss_index)) :
  loads_logged (logged (FaissStore.load index_path self fs)) = 0%nat.
Proof using Type.
  unfold FaissStore.load.
  destruct (json_load _ fs) as [config |]; [| reflexivity].
  destruct (py_getitem config _) as [found |]; [| reflexivity].
  destruct (read_index _ fs) as [ix |];
    [destruct (Io.read_jsonl _ fs) as [md |] |];
    destruct (differs_from_str found (model_name self)); reflexivity.
Qed.

(** With a store already loaded, [search] loads nothing: it logs
    nothing, keeps the retriever as it is, and does not look at the
    files. *)
Lemma search_loaded (query : text) (k : Z) (self : Retriever) (st : FAISSStore)
    (fs : gmap string (file faiss_index)) :
  store self = Some st ->
  Retriever.search query k self fs =
    Run self []
      (results ← FaissStore.search query k st; comprehension add_formatted results).
Proof using Type.
  intros Hst. unfold Retriever.search. rewrite Hst. cbn [outcome after logged].
  by rewrite Hst.
Qed.

(** Without a store, [search] is [load_index] followed, when the load
    succeeded, by the search on the loaded retriever. *)
Lemma search_unloaded (query : text) (k : Z) (self : Retriever)
    (fs : gmap string (file faiss_index)) :
  store self = None ->
  Retriever.search query k self fs =
    let loaded := Retriever.load_index self fs in
    Run (after loaded) (logged loaded)
      (match outcome loaded with
       | Raise e => Raise e
       | Ok _ => outcome (Retriever.search query k (after loaded) fs)
       end).
Proof using Type.
  intros Hst. unfold Retriever.search at 1. rewrite Hst. cbv zeta.
  destruct (outcome (Retriever.load_index self fs)) as [[] | e] eqn:Hload;
    [| reflexivity].
  assert (Hloaded : exists st, store (after (Retriever.load_index self fs)) = Some st).
  { revert Hload. unfold Retriever.load_index.
    destruct (fs !! _); [| discriminate].
    destruct (outcome (FaissStore.load_index _ fs)); [| discriminate].
    cbn. eauto. }
  destruct Hloaded as [st Hst'].
  rewrite (search_loaded query k _ st fs Hst'). cbn [outcome].
  by rewrite Hst'.
Qed.

Lemma load_index_outcomes (self : Retriever) (fs : gmap string (file faiss_index)) :
  match outcome (Retriever.load_index self fs) with
  | Ok _ =>
      exists st, store (after (Retriever.load_index self fs)) = Some st /\
                 index_path (after (Retriever.load_index self fs)) = index_path self /\
                 outcome (FaissStore.load_index (index_path self) fs) = Ok tt /\
                 after (FaissStore.load_index (index_path self) fs) = st /\
                 loads_logged (logged (Retriever.load_index self fs)) = 1%nat
  | Raise e =>
      after (Retriever.load_index self fs) = self /\
      loads_logged (logged (Retriever.load_index self fs)) = 0%nat
  end.
Proof using Type.
  unfold Retriever.load_index.
  destruct (fs !! _); [| by split].
  pose proof (store_load_logs_no_load (index_path self)
                (FaissStore.init Settings.embedding_model) fs) as Hlog.
  fold (FaissStore.load_index (index_path self) fs) in Hlog.
  destruct (outcome (FaissStore.load_index _ fs)) as [[] | e] eqn:Hload;
    cbn [outcome after logged store Retriever.index_path].
  - eexists. repeat split. unfold loads_logged in *.
    rewrite filter_app, length_app, Hlog. reflexivity.
  - by split.
Qed.

(** A valid index at [index_path]: the three files load, and the
    metadata file holds one object per vector of the index. *)
Definition valid_index (index_path : string)
    (fs : gmap string (file faiss_index)) : Prop :=
  exists st ix,
    outcome (FaissStore.load_index index_path fs) = Ok tt /\
    after (FaissStore.load_index index_path fs) = st /\
    index st = Some ix /\
    ntotal ix = length (metadata st) /\
    Forall is_object (metadata st).

Lemma collect_results_objects (md : list json) (hits : list (score * Z))
    (results : list search_result) :
  Forall is_object md ->
  Forall (fun hit => snd hit = -1 \/ 0 <= snd hit < Z.of_nat (length md)) hits ->
  Forall (fun r => is_object (result_metadata r)) results ->
  exists out, collect_results md hits results = Ok out /\
              Forall (fun r => is_object (result_metadata r)) out.
Proof using Type.
  intros Hmd Hhits. revert results.
  induction Hhits as [| [sc idx] hits Hidx Hhits IH]; intros results Hres.
  - eexists. split; [reflexivity | assumption].
  - cbn [collect_results]. cbn [snd] in Hidx.
    destruct (Z.eqb_spec idx (-1)) as [-> | Hne]; [by apply IH |].
    destruct Hidx as [-> | Hidx]; [done |].
    unfold py_index.
    destruct (Z.ltb_spec idx 0) as [? | _]; [lia |].
    destruct (Z.ltb_spec idx 0) as [? | _]; [lia |].
    destruct (md !! Z.to_nat idx) as [m |] eqn:Hm.
    + cbn [mbind result_bind]. apply IH.
      apply Forall_app. split; [assumption |].
      constructor; [| constructor]. cbn.
      rewrite Forall_forall in Hmd. apply Hmd.
      by eapply list_elem_of_lookup_2.
    + apply lookup_ge_None in Hm. lia.
Qed.

Lemma add_formatted_objects (results : list search_result) :
  Forall (fun r => is_object (result_metadata r)) results ->
  exists out, comprehension add_formatted results = Ok out.
Proof using Type.
  induction 1 as [| r results Hr Hres [out IH]]; [by eexists |].
  assert (Hy : exists y, add_formatted r = Ok y).
  { unfold add_formatted. destruct (result_metadata r); try done. by eexists. }
  destruct Hy as [y Hy]. cbn [comprehension]. rewrite Hy. cbn [mbind result_bind].
  rewrite IH. by eexists.
Qed.

(** C5, as the code has it.  On a freshly constructed retriever,
    [search] is the explicit [load_index] followed, if that succeeded, by
    the search on the loaded retriever: the load happens once, and a
    retriever that holds a store never loads again.  When the load fails,
    [search] fails with the error of the load; with no config file that
    is the missing-index [FileNotFoundError] of [load_index].  When a
    valid index exists at the path and the embedding model and the index
    answer the query, [search] succeeds. *)
Theorem lazy_load (path : string) (query : text) (k : Z)
    (fs : gmap string (file faiss_index)) :
  let fresh := Retriever.init (Some path) in
  let loaded := Retriever.load_index fresh fs in
  let searched := Retriever.search query k fresh fs in
  searched =
    Run (after loaded) (logged loaded)
      (match outcome loaded with
       | Raise e => Raise e
       | Ok _ => outcome (Retriever.search query k (after loaded) fs)
       end) /\
  (forall results, outcome searched = Ok results ->
     loads_logged (logged searched) = 1%nat /\
     forall query' k' fs',
       logged (Retriever.search query' k' (after searched) fs') = [] /\
       after (Retriever.search query' k' (after searched) fs') = after searched) /\
  (forall e, outcome loaded = Raise e ->
     outcome searched = Raise e /\ after searched = fresh /\
     loads_logged (logged searched) = 0%nat) /\
  (fs !! path_join path "config.json" = None ->
     outcome loaded = Raise (FileNotFoundError (txt "No index found at " ++ txt path)) /\
     outcome searched = Raise (FileNotFoundError (txt "No index found at " ++ txt path))) /\
  (valid_index path fs ->
     forall ix query_embedding hits,
       index (after (FaissStore.load_index path fs)) = Some ix ->
       encode Settings.embedding_model [JStr query] = Ok [query_embedding] ->
       index_search (vectors ix) query_embedding k = Ok hits ->
       exists results, outcome searched = Ok results).
Proof using Type.
  intros fresh loaded searched.
  assert (Hfresh : store fresh = None) by reflexivity.
  assert (Heq : searched =
    Run (after loaded) (logged loaded)
      (match outcome loaded with
       | Raise e => Raise e
       | Ok _ => outcome (Retriever.search query k (after loaded) fs)
       end)) by apply (search_unloaded query k fresh fs Hfresh).
  pose proof (load_index_outcomes fresh fs) as Hload. fold loaded in Hload.
  split; [exact Heq |]. split; [| split; [| split]].
  - intros results Hok. rewrite Heq in *. cbn [outcome logged after] in *.
    destruct (outcome loaded) as [[] | e]; [| discriminate].
    destruct Hload as (st & Hst & _ & _ & _ & Hone).
    split; [exact Hone |]. intros query' k' fs'.
    by rewrite (search_loaded query' k' _ st fs' Hst).
  - intros e He. rewrite Heq, He in *. cbn [outcome logged after].
    destruct Hload as [Hsame Hzero]. by repeat split.
  - intros Hmissing.
    assert (Hl : outcome loaded
                 = Raise (FileNotFoundError (txt "No index found at " ++ txt path))).
    { unfold loaded, Retriever.load_index. cbn [Retriever.index_path fresh Retriever.init].
      by rewrite Hmissing. }
    split; [exact Hl |]. rewrite Heq, Hl. reflexivity.
  - intros (st & ix' & Hok & Hafter & Hix' & Hcount & Hobj) ix qv hits Hix Henc Hhits.
    rewrite Hafter in Hix. rewrite Hix in Hix'. injection Hix' as <-.
    assert (Hconfig : is_Some (fs !! path_join path "config.json")).
    { revert Hok. unfold FaissStore.load_index, FaissStore.load, json_load.
      destruct (fs !! path_join path "config.json"); [eauto | discriminate]. }
    assert (Hl : outcome loaded = Ok tt /\ store (after loaded) = Some st).
    { unfold loaded, Retriever.load_index.
      cbn [Retriever.index_path fresh Retriever.init].
      destruct Hconfig as [f ->]. rewrite Hok, Hafter. by split. }
    destruct Hl as [Hl Hst]. rewrite Heq, Hl. cbn [outcome].
    rewrite (search_loaded query k _ st fs Hst). cbn [outcome].
    assert (Hmodel : model_name st = Settings.embedding_model).
    { rewrite <- Hafter. unfold FaissStore.load_index, FaissStore.load.
      destruct (json_load _ fs); [| reflexivity].
      destruct (py_getitem _ _); [| reflexivity].
      destruct (read_index _ fs); [| reflexivity].
      destruct (Io.read_jsonl _ fs); reflexivity. }
    unfold FaissStore.search. rewrite Hix, Hmodel, Henc. cbn [mbind result_bind].
    rewrite Hhits. cbn [mbind result_bind].
    pose proof (index_search_range _ _ _ _ Hhits) as Hrange.
    unfold ntotal in Hcount. rewrite Hcount in Hrange.
    destruct (collect_results_objects (metadata st) hits [] Hobj Hrange
                ltac:(constructor)) as (out & -> & Hout).
    cbn [mbind result_bind]. by apply add_formatted_objects.
Qed.

End Retriever.

Import StubBackend StoreExamples.

Lemma lazy_load_witness :
  (exists results,
     outcome (Retriever.search (txt "deep learning") 5
                (Retriever.init (Some "data/index")) saved_dir) = Ok results) /\
  outcome (Retriever.search (txt "deep learning") 5
             (Retriever.init (Some "data/index")) ∅)
    = Raise (FileNotFoundError (txt "No index found at data/index")).
Proof.
  split.
  - destruct (lazy_load "data/index" (txt "deep learning") 5 saved_dir)
      as (_ & _ & _ & _ & Hvalid).
    eapply Hvalid.
    + eexists _, _. split; [vm_compute; reflexivity |].
      split; [reflexivity |]. split; [vm_compute; reflexivity |].
      split; [vm_compute; reflexivity |]. vm_compute. repeat constructor.
    + vm_compute. reflexivity.
    + vm_compute. reflexivity.
    + vm_compute. reflexivity.
  - destruct (lazy_load "data/index" (txt "deep learning") 5 ∅)
      as (_ & _ & _ & Hmissing & _).
    apply Hmissing. reflexivity.
Defined.

(** A call that returned a value. *)
Definition succeeded {A} (r : result A) : Prop := exists a, r = Ok a.

(** C5 as stated fails: success of the call is not a property of the
    index at the path.  Over the files of [interrupted_dir], which
    [load_index] loads without error, a fresh retriever answers the query
    "deep learning" for [k = 1] (the hit is vector 0, which has a metadata
    record) and raises [IndexError] for [k = 5] (vector 2 has none).  So
    whatever "a valid index exists at the path" means for this directory,
    one of the two calls contradicts "succeeds if and only if". *)
Lemma search_success_depends_on_call :
  let fresh := Retriever.init (Some "data/index") in
  let dir := StoreExamples.interrupted_dir in
  outcome (Retriever.load_index fresh dir) = Ok tt /\
  (exists r, outcome (Retriever.search (txt "deep learning") 1 fresh dir) = Ok [r]) /\
  outcome (Retriever.search (txt "deep learning") 5 fresh dir) = Raise IndexError /\
  forall valid : Prop,
    ~ ((succeeded (outcome (Retriever.search (txt "deep learning") 1 fresh dir)) <-> valid)
       /\ (succeeded (outcome (Retriever.search (txt "deep learning") 5 fresh dir))
           <-> valid)).
Proof.
  cbv zeta.
  assert (H1 : exists r, outcome (Retriever.search (txt "deep learning") 1
                 (Retriever.init (Some "data/index")) StoreExamples.interrupted_dir)
               = Ok [r])
    by (eexists; vm_compute; reflexivity).
  assert (H5 : outcome (Retriever.search (txt "deep learning") 5
                 (Retriever.init (Some "data/index")) StoreExamples.interrupted_dir)
               = Raise IndexError)
    by (vm_compute; reflexivity).
  split; [vm_compute; reflexivity |]. split; [exact H1 |]. split; [exact H5 |].
  intros valid [Hone Hfive].
  destruct H1 as [r H1].
  assert (Hs : succeeded (outcome (Retriever.search (txt "deep learning") 5
                 (Retriever.init (Some "data/index")) StoreExamples.interrupted_dir))).
  { apply Hfive, Hone. by exists [r]. }
  destruct Hs as [a Ha]. rewrite H5 in Ha. discriminate.
Qed.

End RetrieverTheorems.

(** ** The chunker at its default size *)

Module ChunkerDefault.
Import Chunker ChunkerSpec.

(** One round of the loop at the default chunk size, for any step. *)
Lemma iteration_default (t : text) (step : Z) arxiv_id title section st :
  iteration t 1200 step arxiv_id title section st =
    if Z.of_nat (length t) <=? next_i st then inr (Ok (chunks st))
    else if Z.of_nat (length (py_slice t (next_i st) (next_i st + 1200))) <? 120
    then inr (Ok (chunks st))
    else inl {| next_i := next_i st + step;
                chunks := chunks st ++
                  [chunk_data (py_slice t (next_i st) (next_i st + 1200))
                     arxiv_id title section
                     (Z.of_nat (length (chunks st))) (next_i st)] |}.
Proof.
  unfold iteration. rewrite threshold_1200, below_threshold_1200. reflexivity.
Qed.

(** The number of chunks of a trimmed text of [len] characters. *)
Definition default_count (len step : Z) : nat :=
  if len <? 120 then 0%nat else Z.to_nat ((len - 120) / step + 1).

Lemma default_count_bounds (len step : Z) :
  1 <= step -> 120 <= len ->
  let n := Z.of_nat (default_count len step) in
  1 <= n /\ (n - 1) * step <= len - 120 < n * step.
Proof.
  intros Hstep Hlen. cbv zeta. unfold default_count.
  destruct (Z.ltb_spec len 120); [lia |].
  pose proof (Z.div_pos (len - 120) step ltac:(lia) ltac:(lia)) as Hq.
  pose proof (Z.mul_div_le (len - 120) step ltac:(lia)) as Hle.
  pose proof (Z.mul_succ_div_gt (len - 120) step ltac:(lia)) as Hgt.
  rewrite Z2Nat.id by lia. split; [lia |]. split; nia.
Qed.

Section Shape.
Variables (t : text) (step : Z) (arxiv_id title section : json).
Hypothesis Hstep : 1 <= step.
Hypothesis Hlen : (0 < length t)%nat.

Let len := Z.of_nat (length t).
Let n := default_count len step.
Let win := window t 1200 step arxiv_id title section.
Let round := at_round t 1200 step arxiv_id title section.

Lemma iteration_default_keep (k : nat) :
  (k < n)%nat ->
  iteration t 1200 step arxiv_id title section (round k) = inl (round (S k)).
Proof using Hstep Hlen.
  intros Hk.
  assert (Hlong : 120 <= len).
  { subst n. unfold default_count in Hk. destruct (Z.ltb_spec len 120); lia. }
  destruct (default_count_bounds len step Hstep Hlong) as (_ & Hlow & _).
  fold n in Hlow.
  assert (Hpos : 0 <= Z.of_nat k * step <= len - 120) by nia.
  destruct (iteration t 1200 step arxiv_id title section (round k)) as [st' | r] eqn:E.
  - f_equal. by apply (iteration_at_round t 1200 step arxiv_id title section k).
  - exfalso. revert E. rewrite iteration_default.
    unfold round, at_round. cbn [next_i chunks].
    rewrite py_slice_length by lia. fold len.
    destruct (Z.leb_spec len (Z.of_nat k * step)); [lia |].
    destruct (Z.ltb_spec (Z.max 0 (Z.min (Z.of_nat k * step + 1200) len
                                   - Z.min (Z.of_nat k * step) len)) 120);
      [lia | discriminate].
Qed.

Lemma iteration_default_stop :
  iteration t 1200 step arxiv_id title section (round n) = inr (Ok (map win (seq 0 n))).
Proof using Hstep Hlen.
  rewrite iteration_default. unfold round, at_round. cbn [next_i chunks]. fold len win.
  destruct (Z.leb_spec len (Z.of_nat n * step)); [reflexivity |].
  assert (Hn : 0 <= Z.of_nat n * step) by nia.
  rewrite py_slice_length by lia. fold len.
  destruct (Z.ltb_spec (Z.max 0 (Z.min (Z.of_nat n * step + 1200) len
                                 - Z.min (Z.of_nat n * step) len)) 120) as [| Hkeep];
    [reflexivity | exfalso].
  destruct (Z.lt_ge_cases len 120) as [Hshort | Hlong]; [lia |].
  destruct (default_count_bounds len step Hstep Hlong) as (_ & _ & Hup).
  fold n in Hup. lia.
Qed.

(** From round [k] on, the loop appends the windows up to number [n] and
    stops there. *)
Lemma run_loop_default (fuel k : nat) :
  (k <= n)%nat -> (n - k < fuel)%nat ->
  run_loop fuel t 1200 step arxiv_id title section (round k)
    = Some (Ok (map win (seq 0 n))).
Proof using Hstep Hlen.
  revert k. induction fuel as [| fuel IH]; intros k Hk Hfuel; [lia |].
  cbn [run_loop].
  destruct (Nat.eq_dec k n) as [-> | Hne].
  - by rewrite iteration_default_stop.
  - rewrite iteration_default_keep by lia. apply IH; lia.
Qed.

Lemma default_count_le : (n <= length t)%nat.
Proof using Hstep Hlen.
  subst n. unfold default_count. destruct (Z.ltb_spec len 120); [lia |].
  pose proof (Z.div_le_upper_bound (len - 120) step (len - 120) ltac:(lia) ltac:(nia)).
  subst len. lia.
Qed.
End Shape.

(** [chunk_text] at the default chunk size. *)
Lemma chunk_text_default (text : text) (overlap : Z) arxiv_id title section :
  chunk_text text 1200 overlap arxiv_id title section
    = Ok (map (window (py_strip text) 1200 (Z.max (1200 - overlap) 1)
                 arxiv_id title section)
              (seq 0 (default_count (Z.of_nat (length (py_strip text)))
                        (Z.max (1200 - overlap) 1)))).
Proof.
  unfold chunk_text, chunk_text_fuel.
  case_bool_decide as Hblank.
  - rewrite Hblank. reflexivity.
  - assert (Hlen : (0 < length (py_strip text))%nat)
      by (destruct (py_strip text); [done | cbn; lia]).
    pose proof (default_count_le (py_strip text) (Z.max (1200 - overlap) 1)
                  ltac:(lia) Hlen) as Hle.
    change {| next_i := 0; chunks := [] |}
      with (at_round (py_strip text) 1200 (Z.max (1200 - overlap) 1)
              arxiv_id title section 0).
    rewrite run_loop_default; [reflexivity | lia | assumption | lia | lia].
Qed.

End ChunkerDefault.

Module ChunkerExtra.
Import Chunker ChunkerSpec ChunkerDefault.

(** The fields of window number [j] at the default chunk size, when the
    window is one of the chunks. *)
Lemma window_default_fields (t : text) (step : Z) arxiv_id title section (j : nat) :
  1 <= step ->
  (j < default_count (Z.of_nat (length t)) step)%nat ->
  let len := Z.of_nat (length t) in
  let start := Z.of_nat j * step in
  let c := window t 1200 step arxiv_id title section j in
  0 <= start /\ start + 120 <= len /\
  chunk_body c = Some (JStr (take 1200 (drop (Z.to_nat start) t))) /\
  meta_field c "chunk_index" = Some (JInt (Z.of_nat j)) /\
  meta_field c "char_start" = Some (JInt start) /\
  meta_field c "char_end" = Some (JInt (Z.min (start + 1200) len)) /\
  meta_field c "chunk_size" = Some (JInt (Z.min 1200 (len - start))).
Proof.
  intros Hstep Hj. cbv zeta.
  assert (Hlong : 120 <= Z.of_nat (length t)).
  { unfold default_count in Hj. destruct (Z.ltb_spec (Z.of_nat (length t)) 120); lia. }
  destruct (default_count_bounds _ step Hstep Hlong) as (_ & Hlow & _).
  assert (Hpos : 0 <= Z.of_nat j * step <= Z.of_nat (length t) - 120) by nia.
  split; [lia |]. split; [lia |].
  unfold window.
  pose proof (py_slice_length t (Z.of_nat j * step) (Z.of_nat j * step + 1200)
                ltac:(lia) ltac:(lia)) as Hsl.
  destruct (ChunkerTheorems.chunk_data_fields
              (py_slice t (Z.of_nat j * step) (Z.of_nat j * step + 1200))
              arxiv_id title section (Z.of_nat j) (Z.of_nat j * step))
    as (Hbody & Hidx & Hstart & Hend & Hsize).
  rewrite Hbody, Hidx, Hstart, Hend, Hsize, Hsl.
  rewrite py_slice_window by lia.
  repeat split; repeat f_equal; lia.
Qed.

(** X1.  With chunk_size 1200 [chunk_text] returns for every text and
    every overlap.  With [len] the length of the trimmed text and
    [step = max(1200 - overlap, 1)] it gives no chunk when [len < 120]
    and [(len - 120) / step + 1] chunks otherwise.  Chunk [j] holds the
    characters from [j * step] up to [min(j * step + 1200, len)], carries
    these two offsets as char_start and char_end and its length as
    chunk_size, has chunk_index [j], and is at least 120 characters
    long. *)
Theorem chunk_text_default_count (text : text) (overlap : Z) arxiv_id title section :
  let t := py_strip text in
  let len := Z.of_nat (length t) in
  let step := Z.max (1200 - overlap) 1 in
  exists out,
    chunk_text text 1200 overlap arxiv_id title section = Ok out /\
    Z.of_nat (length out) = (if len <? 120 then 0 else (len - 120) / step + 1) /\
    forall (j : nat) c, out !! j = Some c ->
      let start := Z.of_nat j * step in
      chunk_body c = Some (JStr (take 1200 (drop (Z.to_nat start) t))) /\
      meta_field c "chunk_index" = Some (JInt (Z.of_nat j)) /\
      meta_field c "char_start" = Some (JInt start) /\
      meta_field c "char_end" = Some (JInt (Z.min (start + 1200) len)) /\
      meta_field c "chunk_size" = Some (JInt (Z.min 1200 (len - start))) /\
      120 <= Z.min 1200 (len - start).
Proof.
  cbv zeta. eexists. split; [apply chunk_text_default |].
  rewrite length_map, length_seq. split.
  - unfold default_count.
    destruct (Z.ltb_spec (Z.of_nat (length (py_strip text))) 120); [reflexivity |].
    pose proof (Z.div_pos (Z.of_nat (length (py_strip text)) - 120)
                  (Z.max (1200 - overlap) 1) ltac:(lia) ltac:(lia)).
    lia.
  - intros j c Hj. rewrite list_lookup_fmap in Hj.
    destruct (seq 0 _ !! j) as [j' |] eqn:Hseq; [| discriminate].
    apply lookup_seq in Hseq as [-> Hlt]. cbn in Hj. injection Hj as <-.
    destruct (window_default_fields (py_strip text) (Z.max (1200 - overlap) 1)
                arxiv_id title section j ltac:(lia) Hlt)
      as (H0 & H120 & Hbody & Hidx & Hstart & Hend & Hsize).
    repeat split; try assumption; lia.
Qed.

Lemma chunk_text_default_count_witness :
  exists out,
    chunk_text (A 5000) 1200 120 JNull JNull JNull = Ok out /\
    length out = 5%nat /\
    exists c, out !! 4%nat = Some c /\
              meta_field c "char_start" = Some (JInt 4320) /\
              meta_field c "char_end" = Some (JInt 5000).
Proof.
  destruct (chunk_text_default_count (A 5000) 120 JNull JNull JNull)
    as (out & Hout & Hlen & Hchunks).
  exists out. split; [exact Hout |].
  assert (Hfive : length out = 5%nat).
  { apply Nat2Z.inj. rewrite Hlen. vm_compute. reflexivity. }
  split; [exact Hfive |].
  destruct (lookup_lt_is_Some_2 out 4) as [c Hc]; [lia |].
  exists c. split; [exact Hc |].
  destruct (Hchunks 4%nat c Hc) as (_ & _ & Hstart & Hend & _).
  split; [exact Hstart | exact Hend].
Defined.

(** X2.  With chunk_size 1200 and an overlap of at least 120 no
    character of a trimmed text of at least 120 characters is lost: every
    position of it lies in the span from char_start up to char_end of a
    returned chunk, whose text is the slice of the trimmed text that
    starts at char_start. *)
Theorem chunk_text_default_covers (text : text) (overlap : Z) arxiv_id title section
    (p : nat) :
  120 <= overlap ->
  120 <= Z.of_nat (length (py_strip text)) ->
  (p < length (py_strip text))%nat ->
  exists out (j : nat) c s e,
    chunk_text text 1200 overlap arxiv_id title section = Ok out /\
    out !! j = Some c /\
    meta_field c "char_start" = Some (JInt s) /\
    meta_field c "char_end" = Some (JInt e) /\
    s <= Z.of_nat p < e /\
    chunk_body c = Some (JStr (take 1200 (drop (Z.to_nat s) (py_strip text)))).
Proof.
  intros Hov Hlong Hp.
  set (t := py_strip text) in *. set (step := Z.max (1200 - overlap) 1).
  set (n := default_count (Z.of_nat (length t)) step).
  destruct (default_count_bounds (Z.of_nat (length t)) step ltac:(lia) Hlong)
    as (Hn1 & Hlow & Hup). fold n in Hn1, Hlow, Hup.
  set (j := Nat.min (Z.to_nat (Z.of_nat p / step)) (n - 1)).
  assert (Hj : (j < n)%nat) by lia.
  pose proof (Z.div_pos (Z.of_nat p) step ltac:(lia) ltac:(lia)) as Hq0.
  pose proof (Z.mul_div_le (Z.of_nat p) step ltac:(lia)) as Hqle.
  pose proof (Z.mul_succ_div_gt (Z.of_nat p) step ltac:(lia)) as Hqgt.
  destruct (window_default_fields t step arxiv_id title section j ltac:(lia) Hj)
    as (H0 & H120 & Hbody & _ & Hstart & Hend & _).
  exists (map (window t 1200 step arxiv_id title section) (seq 0 n)), j,
         (window t 1200 step arxiv_id title section j),
         (Z.of_nat j * step), (Z.min (Z.of_nat j * step + 1200) (Z.of_nat (length t))).
  split; [apply chunk_text_default |].
  split; [rewrite list_lookup_fmap, lookup_seq_lt by lia; reflexivity |].
  split; [exact Hstart |]. split; [exact Hend |]. split; [| exact Hbody].
  assert (Hjle : Z.of_nat j <= Z.of_nat p / step) by lia.
  split; [nia |].
  apply Z.min_glb_lt; [| lia].
  destruct (Z.le_gt_cases (Z.of_nat p / step) (Z.of_nat n - 1)) as [Hin | Hout].
  - assert (Z.of_nat j = Z.of_nat p / step) by lia. nia.
  - assert (Z.of_nat j = Z.of_nat n - 1) by lia. nia.
Qed.

Lemma chunk_text_default_covers_witness :
  exists out (j : nat) c s e,
    chunk_text (A 5000) 1200 120 JNull JNull JNull = Ok out /\
    out !! j = Some c /\
    meta_field c "char_start" = Some (JInt s) /\
    meta_field c "char_end" = Some (JInt e) /\
    s <= 4999 < e.
Proof.
  destruct (chunk_text_default_covers (A 5000) 120 JNull JNull JNull 4999)
    as (out & j & c & s & e & Hout & Hj & Hs & He & Hin & _).
  - lia.
  - vm_compute. discriminate.
  - vm_compute. lia.
  - exists out, j, c, s, e. repeat split; try assumption; apply Hin.
Defined.

(** X3.  With chunk_size 1200 and an overlap below 120 the end of a text
    can be dropped.  When the trimmed length [len] is at least 1200 and
    [len mod step] lies strictly between the overlap and 120, for
    [step = 1200 - overlap], [chunk_text] returns [len / step] chunks and
    every char_end is at most [len - (len mod step - overlap)], which is
    below [len]: the last characters are in no chunk. *)
Theorem chunk_text_tail_lost (text : text) (overlap : Z) arxiv_id title section :
  let len := Z.of_nat (length (py_strip text)) in
  let step := 1200 - overlap in
  0 <= overlap < 120 ->
  1200 <= len ->
  overlap < len mod step < 120 ->
  exists out,
    chunk_text text 1200 overlap arxiv_id title section = Ok out /\
    Z.of_nat (length out) = len / step /\
    forall c e, c ∈ out -> meta_field c "char_end" = Some (JInt e) ->
      e <= len - (len mod step - overlap) /\ e < len.
Proof.
  cbv zeta. intros Hov Hlong Hrem.
  set (t := py_strip text) in *.
  replace (Z.max (1200 - overlap) 1) with (1200 - overlap) in * by lia.
  pose proof (Z.div_mod (Z.of_nat (length t)) (1200 - overlap) ltac:(lia)) as Hdm.
  set (q := Z.of_nat (length t) / (1200 - overlap)) in *.
  set (r := Z.of_nat (length t) mod (1200 - overlap)) in *.
  assert (Hq : 1 <= q) by nia.
  assert (Hcount : Z.of_nat (default_count (Z.of_nat (length t)) (1200 - overlap)) = q).
  { unfold default_count. destruct (Z.ltb_spec (Z.of_nat (length t)) 120); [lia |].
    rewrite Z2Nat.id.
    - assert (E : (Z.of_nat (length t) - 120) / (1200 - overlap) = q - 1);
        [| lia].
      symmetry. apply (Z.div_unique _ _ _ (1200 - overlap + r - 120)); [lia | nia].
    - pose proof (Z.div_pos (Z.of_nat (length t) - 120) (1200 - overlap)
                    ltac:(lia) ltac:(lia)). lia. }
  eexists. split.
  { rewrite chunk_text_default.
    replace (Z.max (1200 - overlap) 1) with (1200 - overlap) by lia. reflexivity. }
  rewrite length_map, length_seq. split; [exact Hcount |].
  intros c e Hc He.
  apply list_elem_of_fmap in Hc as (j & -> & Hj).
  apply elem_of_seq in Hj as [_ Hj]. cbn in Hj.
  destruct (window_default_fields t (1200 - overlap) arxiv_id title section j
              ltac:(lia) Hj) as (H0 & H120 & _ & _ & _ & Hend & _).
  subst t. rewrite Hend in He. injection He as <-.
  assert (Hjq : Z.of_nat j <= q - 1) by lia.
  assert (Z.of_nat j * (1200 - overlap) + 1200 <= q * (1200 - overlap) + overlap) by nia.
  lia.
Qed.

Lemma chunk_text_tail_lost_witness :
  exists out,
    chunk_text (A 1205) 1200 0 JNull JNull JNull = Ok out /\
    length out = 1%nat /\
    forall c e, c ∈ out -> meta_field c "char_end" = Some (JInt e) -> e <= 1200.
Proof.
  destruct (chunk_text_tail_lost (A 1205) 0 JNull JNull JNull)
    as (out & Hout & Hlen & Hend).
  - lia.
  - vm_compute. discriminate.
  - vm_compute. split; reflexivity.
  - exists out. split; [exact Hout |]. split.
    + apply Nat2Z.inj. rewrite Hlen. vm_compute. reflexivity.
    + intros c e Hc He. destruct (Hend c e Hc He) as [Hle _].
      revert Hle. vm_compute. exact (fun H => H).
Defined.

End ChunkerExtra.

(** ** Papers and their abstracts *)

Module ChunkerExtra2.
Import Chunker ChunkerSpec ChunkerDefault.

(** Whatever [chunk_text] returns is a list of windows of the trimmed
    text. *)
Lemma chunk_text_windows_of (text : text) (chunk_size overlap : Z)
    arxiv_id title section (out : list json) :
  chunk_text text chunk_size overlap arxiv_id title section = Ok out ->
  exists m, out = map (window (py_strip text) chunk_size (Z.max (chunk_size - overlap) 1)
                         arxiv_id title section) (seq 0 m).
Proof.
  unfold chunk_text, chunk_text_fuel.
  case_bool_decide as Hblank.
  - intros [= <-]. by exists 0%nat.
  - destruct (run_loop _ _ _ _ _ _ _ _) as [r |] eqn:Hrun; [| discriminate].
    intros ->.
    apply (run_loop_windows (py_strip text) chunk_size
             (Z.max (chunk_size - overlap) 1) arxiv_id title section _ 0 out Hrun).
Qed.

(** X4.  A paper whose abstract is a string longer than a chunk_size that
    is not negative is chunked, with chunk_abstracts set, exactly as
    [chunk_text] chunks the abstract under the arxiv_id and the title of
    the paper (the empty string where it has none) and the section
    abstract.  Every chunk carries that section, arxiv_id and title, has
    no authors, categories or published entry in its metadata, and its
    text is a slice of the trimmed abstract of at most chunk_size
    characters. *)
Theorem long_abstract_chunks (fields : list (text * json)) (s : text)
    (chunk_size overlap : Z) :
  assoc (txt "abstract") fields = Some (JStr s) ->
  0 <= chunk_size < Z.of_nat (length s) ->
  let arxiv_id := dict_get fields (txt "arxiv_id") (JStr []) in
  let title := dict_get fields (txt "title") (JStr []) in
  chunk_paper (JObj fields) true chunk_size overlap
    = chunk_text s chunk_size overlap arxiv_id title (JStr (txt "abstract")) /\
  forall out c,
    chunk_paper (JObj fields) true chunk_size overlap = Ok out -> c ∈ out ->
    meta_field c "section" = Some (JStr (txt "abstract")) /\
    meta_field c "arxiv_id" = Some arxiv_id /\
    meta_field c "title" = Some title /\
    meta_field c "authors" = None /\
    meta_field c "categories" = None /\
    meta_field c "published" = None /\
    exists start : nat,
      chunk_body c
        = Some (JStr (take (Z.to_nat chunk_size) (drop start (py_strip s)))).
Proof.
  intros Habs Hlen. cbv zeta.
  assert (Hs : s <> []) by (intros ->; cbn in Hlen; lia).
  assert (Hpaper : chunk_paper (JObj fields) true chunk_size overlap
            = chunk_text s chunk_size overlap (dict_get fields (txt "arxiv_id") (JStr []))
                (dict_get fields (txt "title") (JStr [])) (JStr (txt "abstract"))).
  { assert (Hget : dict_get fields (txt "abstract") JNull = JStr s)
      by (unfold dict_get; by rewrite Habs).
    unfold chunk_paper. rewrite !Hget. cbn [py_truthy py_len negb].
    rewrite bool_decide_eq_false_2 by assumption. cbn [negb mbind result_bind].
    destruct (Z.ltb_spec chunk_size (Z.of_nat (length s))); [reflexivity | lia]. }
  split; [exact Hpaper |].
  intros out c Hout Hc. rewrite Hpaper in Hout.
  apply chunk_text_windows_of in Hout as [m ->].
  apply list_elem_of_fmap in Hc as (j & -> & _).
  unfold window. repeat split.
  exists (Z.to_nat (Z.of_nat j * Z.max (chunk_size - overlap) 1)).
  rewrite py_slice_window; [reflexivity | | lia].
  apply Z.mul_nonneg_nonneg; lia.
Qed.

Definition long_paper : json :=
  JObj [ (txt "arxiv_id", JStr (txt "2401.00003v1"));
         (txt "title", JStr (txt "A long one"));
         (txt "authors", JArr [JStr (txt "A. Author")]);
         (txt "abstract", JStr (A 2000));
         (txt "categories", JArr [JStr (txt "cs.CL")]);
         (txt "published", JStr (txt "2024-01-01T00:00:00+00:00")) ].

Lemma long_abstract_chunks_witness :
  exists c0 c1,
    chunk_paper long_paper true 1200 120 = Ok [c0; c1] /\
    meta_field c1 "authors" = None /\
    meta_field c1 "arxiv_id" = Some (JStr (txt "2401.00003v1")).
Proof.
  destruct (long_abstract_chunks
              (match long_paper with JObj f => f | _ => [] end) (A 2000) 1200 120
              ltac:(vm_compute; reflexivity) ltac:(vm_compute; split; [discriminate | reflexivity]))
    as [Heq Hmeta].
  eexists _, _. split; [vm_compute; reflexivity |].
  match goal with
  | |- meta_field ?c "authors" = None /\ _ =>
      destruct (Hmeta [ chunk_data (A 1200) (JStr (txt "2401.00003v1"))
                          (JStr (txt "A long one")) (JStr (txt "abstract")) 0 0; c ] c
                  ltac:(vm_compute; reflexivity)
                  ltac:(apply list_elem_of_further, list_elem_of_here))
        as (_ & Hid & _ & Hauth & _)
  end.
  split; [exact Hauth | exact Hid].
Defined.

(** The abstract of a paper that yields a chunk when abstracts are kept
    whole: a string that is not empty. *)
Definition kept_abstract (paper : json) : option json :=
  match paper with
  | JObj fields =>
      match assoc (txt "abstract") fields with
      | Some (JStr s) => if bool_decide (s = []) then None else Some (JStr s)
      | _ => None
      end
  | _ => None
  end.

(** A paper as the ingestion writes it: a dictionary whose abstract, when
    it has one, is a string. *)
Definition has_text_abstract (paper : json) : Prop :=
  exists fields, paper = JObj fields /\
    (assoc (txt "abstract") fields = None \/
     exists s, assoc (txt "abstract") fields = Some (JStr s)).

Lemma chunk_paper_whole (paper : json) (chunk_size overlap : Z) :
  has_text_abstract paper ->
  exists cs,
    chunk_paper paper false chunk_size overlap = Ok cs /\
    omap chunk_body cs = option_list (kept_abstract paper) /\
    Forall (fun c => meta_field c "chunk_index" = Some (JInt 0) /\
                     meta_field c "char_start" = Some (JInt 0) /\
                     (exists s, chunk_body c = Some (JStr s) /\
                        meta_field c "char_end" = Some (JInt (Z.of_nat (length s))))) cs.
Proof.
  intros (fields & -> & [Hnone | [s Hsome]]).
  - exists []. unfold chunk_paper, kept_abstract, dict_get. rewrite Hnone. by repeat split.
  - unfold chunk_paper, kept_abstract, dict_get. rewrite Hsome.
    cbn [py_truthy py_len]. case_bool_decide as Hs.
    + exists []. by repeat split.
    + eexists. cbn [negb mbind result_bind]. split; [reflexivity |].
      split; [reflexivity |]. repeat constructor. by exists s.
Qed.

(** X5.  With chunk_abstracts off, [chunk_papers_from_metadata] returns,
    for papers that are dictionaries whose abstract is a string when they
    have one, one chunk for each paper whose abstract is not empty and
    none for the others, in the order of the papers, whatever chunk_size
    and overlap are.  The chunk texts are the abstracts as they stand,
    with chunk_index 0, char_start 0 and char_end the length of the
    abstract. *)
Theorem whole_abstract_mode (papers : list json) (chunk_size overlap : Z) :
  Forall has_text_abstract papers ->
  exists out,
    chunk_papers_from_metadata papers false chunk_size overlap = Ok out /\
    omap chunk_body out = omap kept_abstract papers /\
    Forall (fun c => meta_field c "chunk_index" = Some (JInt 0) /\
                     meta_field c "char_start" = Some (JInt 0) /\
                     (exists s, chunk_body c = Some (JStr s) /\
                        meta_field c "char_end" = Some (JInt (Z.of_nat (length s))))) out.
Proof.
  induction 1 as [| paper papers Hpaper Hpapers (rest & Hrest & Hbodies & Hall)].
  - exists []. by repeat split.
  - destruct (chunk_paper_whole paper chunk_size overlap Hpaper)
      as (cs & Hcs & Hbody & Hfields).
    exists (cs ++ rest). rewrite ChunkerTheorems.chunk_papers_cons, Hcs, Hrest.
    split; [reflexivity |]. split.
    + rewrite omap_app, Hbody, Hbodies.
      change (omap kept_abstract (paper :: papers))
        with (match kept_abstract paper with
              | Some y => y :: omap kept_abstract papers
              | None => omap kept_abstract papers
              end).
      by destruct (kept_abstract paper).
    + by apply Forall_app.
Qed.

Lemma whole_abstract_mode_witness :
  exists out,
    chunk_papers_from_metadata
      [long_paper; ChunkerTheorems.paper_no_abstract; ChunkerTheorems.paper_500]
      false 1200 120 = Ok out /\
    omap chunk_body out = [JStr (A 2000); JStr (A 500)].
Proof.
  destruct (whole_abstract_mode
              [long_paper; ChunkerTheorems.paper_no_abstract; ChunkerTheorems.paper_500]
              1200 120) as (out & Hout & Hbodies & _).
  - repeat constructor; eexists; (split; [reflexivity |]);
      first [ left; vm_compute; reflexivity | right; eexists; vm_compute; reflexivity ].
  - exists out. split; [exact Hout |]. rewrite Hbodies. vm_compute. reflexivity.
Defined.

End ChunkerExtra2.

(** ** JSON Lines files: failures and layouts *)

Module IoExtra.
Import PyJson PyJsonSpec Io IoTheorems.







Section Partial.
Context {Ix : Type}.

End Partial.


End IoExtra.

Module JsonlLayout.
Import PyJson PyJsonSpec Io IoTheorems.

(** Blanks and tabs. *)
Definition blanks (s : text) : Prop := Forall (fun c => c = 32%N \/ c = 9%N) s.

(** A line of a JSONL file as another program or a person may have
    written it: blanks and tabs around the record, or nothing else on
    the line, and a line end that is LF or CR LF. *)
Record row := {
  before : text;
  record : option json;
  behind : text;
  crlf : bool
}.

Definition row_body (r : row) : text :=
  before r ++ match record r with
              | Some v => dumps v ++ behind r
              | None => []
              end.

Definition row_text (r : row) : text :=
  row_body r ++ (if crlf r then [13; 10]%N else [10%N]).

Definition tidy (r : row) : Prop :=
  blanks (before r) /\ blanks (behind r) /\
  match record r with
  | Some v => distinct_keys v = true
  | None => True
  end.

Lemma blanks_check (s : text) :
  forallb (fun c => (c =? 32)%N || (c =? 9)%N) s = true -> blanks s.
Proof.
  intros Hs. apply Forall_forall. intros c Hc.
  rewrite forallb_forall in Hs. apply list_elem_of_In in Hc.
  specialize (Hs c Hc). apply orb_true_iff in Hs as [Hs | Hs];
    apply N.eqb_eq in Hs; [by left | by right].
Qed.

Lemma file_lines_crlf (l rest cur : text) :
  Forall (fun c => c <> 10%N /\ c <> 13%N) l ->
  file_lines (l ++ 13%N :: 10%N :: rest) cur
    = (rev cur ++ l ++ [10%N]) :: file_lines rest [].
Proof.
  intros Hl. revert cur. induction Hl as [| c l [H10 H13] Hl IH]; intros cur.
  - cbn [app file_lines N.eqb Pos.eqb rev]. reflexivity.
  - cbn [app file_lines].
    destruct (N.eqb_spec c 10); [done |]. destruct (N.eqb_spec c 13); [done |].
    rewrite IH. cbn [rev]. by rewrite <- app_assoc.
Qed.

Lemma blanks_one_line (s : text) :
  blanks s -> Forall (fun c => c <> 10%N /\ c <> 13%N) s.
Proof. intros Hs. eapply Forall_impl; [exact Hs |]. intros c [-> | ->]; done. Qed.

Lemma blanks_space (s : text) : blanks s -> Forall (fun c => py_isspace c = true) s.
Proof. intros Hs. eapply Forall_impl; [exact Hs |]. by intros c [-> | ->]. Qed.

Lemma py_lstrip_spaces (pad s : text) :
  Forall (fun c => py_isspace c = true) pad -> py_lstrip (pad ++ s) = py_lstrip s.
Proof. induction 1 as [| c pad Hc Hpad IH]; [done |]. cbn [app py_lstrip]. by rewrite Hc. Qed.

Lemma py_strip_padded (v : json) (pad1 pad2 : text) :
  Forall (fun c => py_isspace c = true) pad1 ->
  Forall (fun c => py_isspace c = true) pad2 ->
  py_strip (pad1 ++ dumps v ++ pad2) = dumps v.
Proof.
  intros H1 H2.
  destruct (dumps_head v) as (c & r & Hhead & Hc).
  destruct (dumps_last v) as (r' & c' & Hlast & Hc').
  apply start_not_space in Hc.
  unfold py_strip. rewrite py_lstrip_spaces by assumption.
  assert (Hl : py_lstrip (dumps v ++ pad2) = dumps v ++ pad2)
    by (rewrite Hhead; cbn [app py_lstrip]; by rewrite Hc).
  rewrite Hl. unfold py_rstrip. rewrite rev_app_distr.
  rewrite py_lstrip_spaces by (by apply Forall_rev).
  rewrite Hlast at 1. rewrite rev_app_distr. cbn [rev app py_lstrip].
  rewrite Hc'. cbn [rev]. rewrite rev_involutive. by rewrite Hlast.
Qed.

Lemma py_strip_spaces (pad : text) :
  Forall (fun c => py_isspace c = true) pad -> py_strip pad = [].
Proof.
  intros Hpad. unfold py_strip.
  assert (E : py_lstrip pad = []).
  { rewrite <- (app_nil_r pad). by rewrite py_lstrip_spaces. }
  by rewrite E.
Qed.

Lemma row_body_one_line (r : row) :
  tidy r -> Forall (fun c => c <> 10%N /\ c <> 13%N) (row_body r).
Proof.
  intros (Hb & Ha & _). unfold row_body. apply Forall_app. split.
  - by apply blanks_one_line.
  - destruct (record r) as [v |]; [| constructor].
    apply Forall_app. split; [apply dumps_one_line | by apply blanks_one_line].
Qed.

Lemma file_lines_rows (rows : list row) :
  Forall tidy rows ->
  file_lines (flat_map row_text rows) []
    = map (fun r => row_body r ++ [10%N]) rows.
Proof.
  induction 1 as [| r rows Hr Hrows IH]; [reflexivity |].
  cbn [flat_map map]. unfold row_text at 1. rewrite <- app_assoc.
  pose proof (row_body_one_line r Hr) as Hline.
  destruct (crlf r); cbn [app].
  - by rewrite file_lines_crlf, IH.
  - by rewrite file_lines_line, IH.
Qed.

Lemma read_items_rows (rows : list row) (acc : list json) :
  Forall tidy rows ->
  read_items (map (fun r => row_body r ++ [10%N]) rows) acc
    = Ok (acc ++ omap record rows).
Proof.
  intros Hrows. revert acc.
  induction Hrows as [| r rows (Hb & Ha & Hv) Hrows IH]; intros acc.
  - cbn. by rewrite app_nil_r.
  - cbn [map read_items]. cbv zeta.
    change (omap record (r :: rows))
      with (match record r with
            | Some v => v :: omap record rows
            | None => omap record rows
            end).
    unfold row_body. destruct (record r) as [v |].
    + rewrite <- !app_assoc.
      rewrite (py_strip_padded v (before r) (behind r ++ [10%N]));
        [| by apply blanks_space
         | apply Forall_app; split; [by apply blanks_space | by repeat constructor]].
      rewrite bool_decide_eq_false_2 by apply dumps_nonempty.
      rewrite loads_dumps by assumption. cbn [mbind result_bind].
      rewrite IH. by rewrite <- app_assoc.
    + rewrite app_nil_r.
      rewrite py_strip_spaces
        by (apply Forall_app; split; [by apply blanks_space | by repeat constructor]).
      rewrite bool_decide_eq_true_2 by reflexivity. apply IH.
Qed.

Section Layout.
Context {Ix : Type}.

(** X7.  [read_jsonl] accepts the layouts other writers leave.  In a
    file whose lines each hold one JSON value with distinct keys, printed
    as [json.dumps] prints it, with spaces and tabs before and after it,
    or hold nothing but spaces and tabs, and end with LF or with CR LF,
    it skips the blank lines and returns the values of the other lines,
    in order. *)
Theorem read_jsonl_layout (rows : list row) (filepath : string)
    (fs : gmap string (file Ix)) :
  Forall tidy rows ->
  fs !! filepath = Some (TextFile (flat_map row_text rows)) ->
  read_jsonl filepath fs = Ok (omap record rows).
Proof using Type.
  intros Hrows Hfile. unfold read_jsonl. rewrite Hfile, file_lines_rows by assumption.
  apply (read_items_rows rows [] Hrows).
Qed.
End Layout.

Lemma read_jsonl_layout_witness :
  read_jsonl (Ix := unit) "in.jsonl"
    {[ "in.jsonl" :=
         TextFile (txt "{}" ++ [13; 10; 32; 9; 10; 32]%N
                   ++ [123; 34; 97; 34; 58; 32; 49; 125; 9; 10]%N) ]}
    = Ok [ JObj []; JObj [ (txt "a", JInt 1) ] ].
Proof.
  apply (read_jsonl_layout (Ix := unit)
           [ {| before := []; record := Some (JObj []); behind := []; crlf := true |};
             {| before := [32; 9]%N; record := None; behind := []; crlf := false |};
             {| before := [32%N]; record := Some (JObj [ (txt "a", JInt 1) ]);
                behind := [9%N]; crlf := false |} ]).
  - repeat (apply List.Forall_cons;
              [split; [| split]; cbn; [by apply blanks_check .. | done] |]).
    apply List.Forall_nil.
  - reflexivity.
Defined.

End JsonlLayout.

(** ** The configuration file and decoded values *)

Module ConfigJson.
Import PyJson PyJsonSpec.

(** On ASCII text the two encoders of strings agree. *)
Lemma escape_char_ascii_low (c : N) :
  (c <= 126)%N -> escape_char_ascii c = escape_char c.
Proof.
  intros Hc. unfold escape_char_ascii, escape_char.
  repeat match goal with
         | |- context [(c =? ?k)%N] => destruct (N.eqb_spec c k) as [-> | ?]; [reflexivity |]
         end.
  destruct (N.ltb_spec c 32) as [Hlow | Hhigh].
  - assert (Hm : exists m : nat, (m < 32)%nat /\ c = N.of_nat m).
    { exists (N.to_nat c). split; [lia | by rewrite N2Nat.id]. }
    destruct Hm as (m & Hm & ->).
    do 32 (destruct m as [| m]; [vm_compute; reflexivity |]). lia.
  - destruct (N.leb_spec 32 c); [| lia]. destruct (N.leb_spec c 126); [| lia].
    reflexivity.
Qed.

Lemma encode_str_ascii_low (s : text) :
  Forall (fun c => (c <= 126)%N) s -> encode_str_ascii s = encode_str s.
Proof.
  intros Hs. unfold encode_str_ascii, encode_str. do 2 f_equal.
  induction Hs as [| c s Hc Hs IH]; [reflexivity |].
  cbn [flat_map]. by rewrite escape_char_ascii_low, IH.
Qed.

(** An integer is read back when no digit, fraction or exponent follows
    it. *)
Lemma scan_number_followed (z : Z) (rest : text) :
  starts_with_digit rest = false -> float_follows rest = false ->
  scan_number (encode_int z ++ rest) = Ok (JInt z, rest).
Proof.
  intros Hdig Hflt.
  destruct z as [| p | p]; cbn [encode_int].
  - unfold scan_number. cbn. eval_codes. by rewrite Hflt.
  - pose proof (to_uint_value p) as Hval. pose proof (to_uint_normal p) as Hn.
    destruct (Pos.to_uint p); [done | done | ..];
      cbn [uint_value] in Hval; rewrite N.mul_0_l, N.add_0_l in Hval;
      unfold scan_number; cbn; eval_codes;
      rewrite scan_digits_encoded, Hflt, Hval by assumption; reflexivity.
  - pose proof (to_uint_value p) as Hval. pose proof (to_uint_normal p) as Hn.
    destruct (Pos.to_uint p); [done | done | ..];
      cbn [uint_value] in Hval; rewrite N.mul_0_l, N.add_0_l in Hval;
      unfold scan_number; cbn; eval_codes;
      rewrite scan_digits_encoded, Hflt, Hval by assumption; reflexivity.
Qed.

Lemma scan_once_int (fuel : nat) (z : Z) (rest : text) :
  starts_with_digit rest = false -> float_follows rest = false ->
  scan_once (S fuel) (encode_int z ++ rest) = Ok (JInt z, rest).
Proof.
  intros Hdig Hflt.
  pose proof (scan_number_followed z rest Hdig Hflt) as Hnum.
  pose proof (to_uint_normal) as Hnorm.
  destruct z as [| p | p]; cbn [encode_int] in *.
  - cbn [scan_once app] in *. eval_codes. scan_once_number Hnum.
  - specialize (Hnorm p).
    destruct (Pos.to_uint p); try done;
      cbn [uint_chars app scan_once] in *; eval_codes; scan_once_number Hnum.
  - specialize (Hnorm p).
    destruct (Pos.to_uint p); try done;
      cbn [uint_chars app scan_once] in *; eval_codes; scan_once_number Hnum.
Qed.

(** The first steps of the decoder on an object, on a member and on a
    string. *)
Lemma scan_once_object (fuel : nat) (r : text) :
  scan_once (S fuel) (123%N :: r) =
    match skip_ws r with
    | c' :: r' =>
        if (c' =? 125)%N then Ok (JObj [], r')
        else
          mr ← scan_members fuel (c' :: r');
          Ok (JObj (dict_of_pairs (fst mr)), snd mr)
    | [] => Raise JSONDecodeError
    end.
Proof. reflexivity. Qed.

Lemma scan_members_key (fuel : nat) (r : text) :
  scan_members (S fuel) (34%N :: r) =
    kr ← scanstring r [];
    match skip_ws (snd kr) with
    | colon :: r1 =>
        if (colon =? 58)%N then
          vr ← scan_once fuel (skip_ws r1);
          match skip_ws (snd vr) with
          | d :: r2 =>
              if (d =? 125)%N then Ok ([(fst kr, fst vr)], r2)
              else if (d =? 44)%N then
                mr ← scan_members fuel (skip_ws r2);
                Ok ((fst kr, fst vr) :: fst mr, snd mr)
              else Raise JSONDecodeError
          | [] => Raise JSONDecodeError
          end
        else Raise JSONDecodeError
    | [] => Raise JSONDecodeError
    end.
Proof. reflexivity. Qed.

Lemma scan_once_string (fuel : nat) (s rest : text) :
  scan_once (S fuel) (34%N :: flat_map escape_char s ++ 34%N :: rest)
    = Ok (JStr s, rest).
Proof. cbn [scan_once N.eqb Pos.eqb]. by rewrite scanstring_encoded. Qed.

(** The configuration document of an index, as [save] writes it with
    [indent=2], is read back by [json.load]. *)
Lemma loads_config (name : text) (dimension num_vectors : Z) :
  Forall (fun c => (c <= 126)%N) name ->
  let config := JObj [ (txt "model_name", JStr name);
                       (txt "dimension", JInt dimension);
                       (txt "num_vectors", JInt num_vectors) ] in
  loads (dumps_pretty 0 config) = Ok config.
Proof.
  intros Hname. cbv zeta.
  assert (Htext : dumps_pretty 0 (JObj [ (txt "model_name", JStr name);
                                         (txt "dimension", JInt dimension);
                                         (txt "num_vectors", JInt num_vectors) ])
    = [123; 10; 32; 32; 34]%N ++ flat_map escape_char (txt "model_name")
      ++ [34; 58; 32; 34]%N ++ flat_map escape_char name
      ++ [34; 44; 10; 32; 32; 34]%N ++ flat_map escape_char (txt "dimension")
      ++ [34; 58; 32]%N ++ encode_int dimension
      ++ [44; 10; 32; 32; 34]%N ++ flat_map escape_char (txt "num_vectors")
      ++ [34; 58; 32]%N ++ encode_int num_vectors ++ [10; 125]%N).
  { cbn [dumps_pretty map join fst snd newline_indent repeat Nat.mul Nat.add].
    rewrite (encode_str_ascii_low name Hname). unfold encode_str.
    change (encode_str_ascii (txt "model_name"))
      with (34%N :: flat_map escape_char (txt "model_name") ++ [34%N]).
    change (encode_str_ascii (txt "dimension"))
      with (34%N :: flat_map escape_char (txt "dimension") ++ [34%N]).
    change (encode_str_ascii (txt "num_vectors"))
      with (34%N :: flat_map escape_char (txt "num_vectors") ++ [34%N]).
    unfold newline_indent. cbn [repeat Nat.mul Nat.add app].
    repeat (progress (repeat rewrite <- app_assoc; cbn [app])). reflexivity. }
  rewrite Htext. unfold loads.
  set (fuel := length _).
  assert (Hfuel : (10 <= fuel)%nat).
  { subst fuel. rewrite !length_app. cbn [length]. lia. }
  cbn [app skip_ws is_ws N.eqb Pos.eqb orb].
  destruct fuel as [| fuel]; [lia |]. rewrite scan_once_object.
  cbn [skip_ws is_ws N.eqb Pos.eqb orb].
  (* the first member *)
  destruct fuel as [| fuel]; [lia |]. rewrite scan_members_key.
  rewrite scanstring_encoded.
  cbn [mbind result_bind fst snd rev app skip_ws is_ws N.eqb Pos.eqb orb].
  destruct fuel as [| fuel]; [lia |]. rewrite scan_once_string.
  cbn [mbind result_bind fst snd rev app skip_ws is_ws N.eqb Pos.eqb orb].
  (* the second member *)
  destruct fuel as [| fuel]; [lia |]. rewrite scan_members_key.
  rewrite scanstring_encoded.
  cbn [mbind result_bind fst snd rev app skip_ws is_ws N.eqb Pos.eqb orb].
  rewrite (skip_ws_dumps (JInt dimension)). cbn [dumps].
  destruct fuel as [| fuel]; [lia |].
  rewrite scan_once_int by reflexivity.
  cbn [mbind result_bind fst snd rev app skip_ws is_ws N.eqb Pos.eqb orb].
  (* the third member *)
  destruct fuel as [| fuel]; [lia |]. rewrite scan_members_key.
  rewrite scanstring_encoded.
  cbn [mbind result_bind fst snd rev app skip_ws is_ws N.eqb Pos.eqb orb].
  rewrite (skip_ws_dumps (JInt num_vectors)). cbn [dumps].
  destruct fuel as [| fuel]; [lia |].
  rewrite scan_once_int by reflexivity.
  cbn [mbind result_bind fst snd rev app skip_ws is_ws N.eqb Pos.eqb orb].
  rewrite bool_decide_eq_true_2 by reflexivity.
  reflexivity.
Qed.

End ConfigJson.

Module DecodedJson.
Import PyJson PyJsonSpec.

(** Setting a key keeps the keys of a dictionary distinct, and its
    values among the old ones and the new one. *)
Lemma dict_set_keys (fields : list (text * json)) (key : text) (value : json) :
  forall k, k ∈ map fst (dict_set fields key value) <-> k ∈ map fst fields \/ k = key.
Proof.
  induction fields as [| [k0 v0] fields IH]; intros k; cbn [dict_set map fst].
  - rewrite list_elem_of_singleton, elem_of_nil. tauto.
  - unfold text_eqb. case_bool_decide as Hk; cbn [map fst].
    + subst k0. rewrite !elem_of_cons. tauto.
    + rewrite !elem_of_cons, IH. tauto.
Qed.

Lemma dict_set_nodup (fields : list (text * json)) (key : text) (value : json) :
  NoDup (map fst fields) -> NoDup (map fst (dict_set fields key value)).
Proof.
  induction fields as [| [k0 v0] fields IH]; cbn [dict_set map fst].
  - intros _. apply NoDup_singleton.
  - intros Hnd. apply NoDup_cons in Hnd as [Hk0 Hnd].
    unfold text_eqb. case_bool_decide as Hk; cbn [map fst].
    + by apply NoDup_cons.
    + apply NoDup_cons. split; [| by apply IH].
      rewrite dict_set_keys. intros [? | ?]; [done | congruence].
Qed.

Lemma dict_set_values (Q : json -> Prop) (fields : list (text * json))
    (key : text) (value : json) :
  Forall (fun kv => Q (snd kv)) fields -> Q value ->
  Forall (fun kv => Q (snd kv)) (dict_set fields key value).
Proof.
  intros Hfields Hvalue.
  induction Hfields as [| [k0 v0] fields Hv0 Hfields IH]; cbn [dict_set].
  - by constructor.
  - destruct (text_eqb k0 key); constructor; assumption.
Qed.

Lemma dict_of_pairs_keys (pairs : list (text * json)) :
  Forall (fun kv => distinct_keys (snd kv) = true) pairs ->
  distinct_keys (JObj (dict_of_pairs pairs)) = true.
Proof.
  intros Hpairs. unfold dict_of_pairs.
  assert (Hgen : forall acc,
            NoDup (map fst acc) ->
            Forall (fun kv => distinct_keys (snd kv) = true) acc ->
            distinct_keys
              (JObj (foldl (fun d kv => dict_set d (fst kv) (snd kv)) acc pairs)) = true).
  { induction Hpairs as [| [k v] pairs Hv Hpairs IH]; intros acc Hnd Hacc.
    - cbn [foldl distinct_keys]. apply andb_true_intro. split.
      + by apply bool_decide_eq_true.
      + apply forallb_forall. intros kv Hkv. rewrite Forall_forall in Hacc.
        apply Hacc. by apply list_elem_of_In.
    - cbn [foldl fst snd]. apply IH.
      + by apply dict_set_nodup.
      + by apply (dict_set_values (fun x => distinct_keys x = true)). }
  apply Hgen; [apply NoDup_nil_2 | constructor].
Qed.

(** A number the decoder reads is an integer. *)
Lemma scan_number_int (s : text) (v : json) (r : text) :
  scan_number s = Ok (v, r) -> exists z, v = JInt z.
Proof.
  assert (Hdigits : forall s1 neg,
            match s1 with
            | c :: r0 =>
                match digit_value c with
                | None => Raise JSONDecodeError
                | Some d =>
                    let '(n, rest) := if (d =? 0)%N then (0%N, r0) else scan_digits r0 d in
                    if float_follows rest then Raise FloatLiteral
                    else Ok (JInt (if neg : bool then - Z.of_N n else Z.of_N n), rest)
                end
            | [] => Raise JSONDecodeError
            end = Ok (v, r) -> exists z, v = JInt z).
  { intros s1 neg. destruct s1 as [| c r0]; [discriminate |].
    destruct (digit_value c) as [d |]; [| discriminate].
    destruct (if (d =? 0)%N then (0%N, r0) else scan_digits r0 d) as [n rest].
    destruct (float_follows rest); [discriminate |]. intros [= <- _]. eauto. }
  unfold scan_number. destruct s as [| c s]; [discriminate |].
  destruct (c =? 45)%N; [apply (Hdigits s true) | apply (Hdigits (c :: s) false)].
Qed.

(** Every value the decoder returns has distinct keys, like every Python
    dictionary. *)
Lemma scan_distinct_keys (fuel : nat) :
  (forall s v r, scan_once fuel s = Ok (v, r) -> distinct_keys v = true) /\
  (forall s ps r, scan_members fuel s = Ok (ps, r) ->
     Forall (fun kv => distinct_keys (snd kv) = true) ps) /\
  (forall s vs r, scan_elements fuel s = Ok (vs, r) ->
     Forall (fun v => distinct_keys v = true) vs).
Proof.
  induction fuel as [| fuel (IHonce & IHmem & IHel)]; [by repeat split |].
  split; [| split].
  - intros s v r. cbn [scan_once].
    destruct s as [| c s]; [discriminate |].
    destruct (c =? 34)%N.
    { destruct (scanstring s []) as [[str rest] |]; [| discriminate].
      cbn. by intros [= <- <-]. }
    destruct (c =? 123)%N.
    { destruct (skip_ws s) as [| c' r']; [discriminate |].
      destruct (c' =? 125)%N; [by intros [= <- <-] |].
      destruct (scan_members fuel (c' :: r')) as [[ps rest] |] eqn:Hm; [| discriminate].
      cbn. intros [= <- <-]. apply dict_of_pairs_keys. by eapply IHmem. }
    destruct (c =? 91)%N.
    { destruct (skip_ws s) as [| c' r']; [discriminate |].
      destruct (c' =? 93)%N; [by intros [= <- <-] |].
      destruct (scan_elements fuel (c' :: r')) as [[vs rest] |] eqn:He; [| discriminate].
      cbn. intros [= <- <-]. cbn [distinct_keys]. apply forallb_forall.
      intros x Hx. pose proof (IHel _ _ _ He) as Hall. rewrite Forall_forall in Hall.
      apply Hall. by apply list_elem_of_In. }
    destruct (strip_prefix (txt "null") (c :: s)); [by intros [= <- <-] |].
    destruct (strip_prefix (txt "true") (c :: s)); [by intros [= <- <-] |].
    destruct (strip_prefix (txt "false") (c :: s)); [by intros [= <- <-] |].
    destruct (scan_number (c :: s)) as [[n rest] | e] eqn:Hn.
    + intros [= <- <-]. apply scan_number_int in Hn as [z ->]. reflexivity.
    + destruct e; try discriminate. destruct (bool_decide _); discriminate.
  - intros s ps r. cbn [scan_members].
    destruct s as [| c s]; [discriminate |].
    destruct (c =? 34)%N; [| discriminate].
    destruct (scanstring s []) as [[key rest] |]; [| discriminate].
    cbn [mbind result_bind fst snd].
    destruct (skip_ws rest) as [| colon r1]; [discriminate |].
    destruct (colon =? 58)%N; [| discriminate].
    destruct (scan_once fuel (skip_ws r1)) as [[v rest1] |] eqn:Hv; [| discriminate].
    cbn [mbind result_bind fst snd].
    destruct (skip_ws rest1) as [| d r2]; [discriminate |].
    destruct (d =? 125)%N.
    { intros [= <- <-]. constructor; [| constructor]. by eapply IHonce. }
    destruct (d =? 44)%N; [| discriminate].
    destruct (scan_members fuel (skip_ws r2)) as [[more rest2] |] eqn:Hm; [| discriminate].
    cbn. intros [= <- <-]. constructor; [by eapply IHonce | by eapply IHmem].
  - intros s vs r. cbn [scan_elements].
    destruct (scan_once fuel s) as [[v rest1] |] eqn:Hv; [| discriminate].
    cbn [mbind result_bind fst snd].
    destruct (skip_ws rest1) as [| d r2]; [discriminate |].
    destruct (d =? 93)%N.
    { intros [= <- <-]. constructor; [| constructor]. by eapply IHonce. }
    destruct (d =? 44)%N; [| discriminate].
    destruct (scan_elements fuel (skip_ws r2)) as [[more rest2] |] eqn:He; [| discriminate].
    cbn. intros [= <- <-]. constructor; [by eapply IHonce | by eapply IHel].
Qed.

Lemma loads_distinct_keys (s : text) (v : json) :
  loads s = Ok v -> distinct_keys v = true.
Proof.
  unfold loads.
  destruct (scan_once _ _) as [[v' rest] |] eqn:Hscan; [| discriminate].
  cbn. destruct (bool_decide _); [| discriminate]. intros [= <-].
  by eapply (proj1 (scan_distinct_keys _)).
Qed.

(** So has every record [read_jsonl] returns. *)
Lemma read_items_distinct_keys (lines : list text) (acc out : list json) :
  Forall (fun v => distinct_keys v = true) acc ->
  Io.read_items lines acc = Ok out ->
  Forall (fun v => distinct_keys v = true) out.
Proof.
  revert acc. induction lines as [| line lines IH]; intros acc Hacc; cbn [Io.read_items].
  - by intros [= <-].
  - cbv zeta. destruct (bool_decide _); [by apply IH |].
    destruct (loads (py_strip line)) as [item |] eqn:Hitem; [| discriminate].
    cbn. apply IH. apply Forall_app. split; [assumption |].
    constructor; [| constructor]. by eapply loads_distinct_keys.
Qed.

Lemma read_jsonl_distinct_keys {Ix} (filepath : string) (fs : gmap string (file Ix))
    (data : list json) :
  Io.read_jsonl filepath fs = Ok data ->
  Forall (fun v => distinct_keys v = true) data.
Proof.
  unfold Io.read_jsonl. destruct (fs !! filepath) as [[content | ix] |]; try discriminate.
  by apply read_items_distinct_keys.
Qed.

(** The values of a dictionary with distinct keys have distinct keys. *)
Lemma assoc_distinct_keys (fields : list (text * json)) (key : text) (v : json) :
  distinct_keys (JObj fields) = true -> assoc key fields = Some v ->
  distinct_keys v = true.
Proof.
  cbn [distinct_keys]. intros Hk. apply andb_prop in Hk as [_ Hk].
  rewrite forallb_forall in Hk.
  induction fields as [| [k x] fields IH]; [discriminate |].
  cbn [assoc]. destruct (text_eqb k key).
  - intros [= <-]. apply (Hk (k, x)). by left.
  - apply IH. intros kv Hkv. apply Hk. by right.
Qed.

End DecodedJson.

(** ** The vector store: search, failures, save and load *)

Module FaissStoreExtra.
Import PyJson PyJsonSpec Io IoTheorems FaissStore FaissStoreTheorems.

Section Store.
Context `{Backend}.

(** The result [search] makes of one hit: none for the position -1, and
    the score with the metadata record at the position otherwise. *)
Definition hit_result (md : list json) (hit : score * Z) : option search_result :=
  if snd hit =? -1 then None
  else match md !! Z.to_nat (snd hit) with
       | Some m => Some {| result_score := fst hit; result_metadata := m;
                           result_formatted := None |}
       | None => None
       end.

Lemma collect_results_in_range (md : list json) (hits : list (score * Z))
    (results : list search_result) :
  Forall (fun hit => snd hit = -1 \/ 0 <= snd hit < Z.of_nat (length md)) hits ->
  collect_results md hits results = Ok (results ++ omap (hit_result md) hits).
Proof using Type.
  intros Hhits. revert results.
  induction Hhits as [| [sc idx] hits Hidx Hhits IH]; intros results.
  - cbn. by rewrite app_nil_r.
  - cbn [collect_results].
    change (omap (hit_result md) ((sc, idx) :: hits))
      with (match hit_result md (sc, idx) with
            | Some r => r :: omap (hit_result md) hits
            | None => omap (hit_result md) hits
            end).
    unfold hit_result at 1. cbn [fst snd] in *.
    destruct (Z.eqb_spec idx (-1)) as [-> | Hne]; [apply IH |].
    destruct Hidx as [-> | Hidx]; [done |].
    unfold py_index.
    destruct (Z.ltb_spec idx 0) as [? | _]; [lia |].
    destruct (Z.ltb_spec idx 0) as [? | _]; [lia |].
    destruct (md !! Z.to_nat idx) as [m |] eqn:Hm.
    + cbn [mbind result_bind]. rewrite IH. by rewrite <- app_assoc.
    + apply lookup_ge_None in Hm. lia.
Qed.

(** X8.  On a store whose index holds no more vectors than it has
    metadata records, a search that the model and the index answer
    returns one result for each hit whose position is not -1, in the
    order of the hits, with the score of the hit and the metadata record
    at its position.  Every returned metadata record is one of the
    store, no result has a formatted entry, and IndexError is not
    raised. *)
Theorem search_consistent (query : text) (k : Z) (self : FAISSStore)
    (ix : faiss_index) (query_embedding : vector) (hits : list (score * Z)) :
  index self = Some ix ->
  (ntotal ix <= length (metadata self))%nat ->
  encode (model_name self) [JStr query] = Ok [query_embedding] ->
  index_search (vectors ix) query_embedding k = Ok hits ->
  let results := omap (hit_result (metadata self)) hits in
  search query k self = Ok results /\
  length results = length (filter (fun hit => snd hit <> -1) hits) /\
  Forall (fun r => result_metadata r ∈ metadata self /\ result_formatted r = None)
         results.
Proof using Type.
  intros Hix Hcount Henc Hhits. cbv zeta.
  pose proof (index_search_range _ _ _ _ Hhits) as Hrange.
  assert (Hmd : Forall (fun hit : score * Z =>
                  snd hit = -1 \/ 0 <= snd hit < Z.of_nat (length (metadata self))) hits).
  { eapply Forall_impl; [exact Hrange |]. unfold ntotal in Hcount.
    intros hit [? | ?]; [by left | right; lia]. }
  split; [| split].
  - unfold search. rewrite Hix, Henc. cbn [mbind result_bind]. rewrite Hhits.
    cbn [mbind result_bind]. by rewrite collect_results_in_range.
  - clear Hhits Hrange. induction Hmd as [| [sc idx] hits Hidx Hmd IH]; [reflexivity |].
    change (omap (hit_result (metadata self)) ((sc, idx) :: hits))
      with (match hit_result (metadata self) (sc, idx) with
            | Some r => r :: omap (hit_result (metadata self)) hits
            | None => omap (hit_result (metadata self)) hits
            end).
    rewrite filter_cons. unfold hit_result at 1. cbn [fst snd] in *.
    destruct (Z.eqb_spec idx (-1)) as [-> | Hne].
    + rewrite decide_False by (intros Hn; by apply Hn). exact IH.
    + rewrite decide_True by assumption.
      destruct Hidx as [-> | Hidx]; [done |].
      destruct (metadata self !! Z.to_nat idx) as [m |] eqn:Hm.
      * cbn [length]. by rewrite IH.
      * apply lookup_ge_None in Hm. lia.
  - apply Forall_forall. intros r Hr.
    apply list_elem_of_omap in Hr as ([sc idx] & _ & Hr).
    unfold hit_result in Hr. cbn [fst snd] in Hr.
    destruct (idx =? -1); [discriminate |].
    destruct (metadata self !! Z.to_nat idx) as [m |] eqn:Hm; [| discriminate].
    injection Hr as <-. cbn. split; [| reflexivity]. by eapply list_elem_of_lookup_2.
Qed.

(** X9.  When [build_index] raises, the metadata, the model name and the
    dimension of the store are as before.  Either the whole store is
    unchanged, or the exception came from reading the metadata entry of
    a chunk after the embeddings were made: then the index has already
    been replaced by one with a vector for each new chunk, beside the old
    metadata. *)
Theorem build_index_failure (chunks : list json) (self : FAISSStore) (e : exn) :
  outcome (build_index chunks self) = Raise e ->
  let left := after (build_index chunks self) in
  metadata left = metadata self /\
  model_name left = model_name self /\
  dimension left = dimension self /\
  (left = self \/
   exists texts embeddings,
     comprehension (fun chunk => py_getitem chunk (txt "text")) chunks = Ok texts /\
     encode (model_name self) texts = Ok embeddings /\
     comprehension (fun chunk => py_getitem chunk (txt "metadata")) chunks = Raise e /\
     index left = Some {| d := dimension self; vectors := embeddings |} /\
     length embeddings = length chunks).
Proof using Type.
  unfold build_index. case_bool_decide as Hempty; [discriminate |].
  destruct (comprehension (fun chunk => py_getitem chunk (txt "text")) chunks)
    as [texts |] eqn:Htexts; [| intros _; cbn; by repeat split; try left].
  destruct (encode (model_name self) texts) as [embeddings |] eqn:Henc;
    [| intros _; cbn; by repeat split; try left].
  destruct (comprehension (fun chunk => py_getitem chunk (txt "metadata")) chunks)
    as [md |] eqn:Hmd; [discriminate |].
  cbn [outcome after]. intros [= ->]. cbn.
  repeat split. right. exists texts, embeddings.
  pose proof (encode_length _ _ _ Henc) as Hlen.
  pose proof (StubBackend.comprehension_length _ _ _ Htexts) as Hlen'.
  repeat split; [assumption | congruence].
Qed.

(** X10.  What a successful [build_index] on a chunk list that is not
    empty leaves and logs depends on the chunks, the model name and the
    dimension only: the index and the metadata the store held before are
    replaced and nothing of them remains.  On the empty list the store is
    left as it is and the call returns. *)
Theorem build_index_replaces (chunks : list json) (self other : FAISSStore) :
  model_name other = model_name self ->
  dimension other = dimension self ->
  (chunks <> [] ->
   outcome (build_index chunks self) = Ok tt ->
   build_index chunks other = build_index chunks self) /\
  (chunks = [] ->
   after (build_index chunks self) = self /\ outcome (build_index chunks self) = Ok tt).
Proof using Type.
  intros Hname Hdim. split.
  - intros Hne. unfold build_index. rewrite bool_decide_eq_false_2 by assumption.
    rewrite Hname, Hdim.
    destruct (comprehension _ chunks) as [texts |]; [| discriminate].
    destruct (encode (model_name self) texts) as [embeddings |]; [| discriminate].
    destruct (comprehension _ chunks) as [md |]; [| discriminate].
    intros _. unfold set_metadata, set_index. cbn. by rewrite Hname, Hdim.
  - intros ->. by split.
Qed.

(** X11.  [save] on a store without an index raises ValueError, No index
    to save, and writes nothing.  Otherwise it touches only the files
    faiss.index, meta.jsonl and config.json of the directory: every other
    path keeps its content; faiss.index holds the index, also when
    writing the metadata fails afterwards; and after a save that
    returned, meta.jsonl holds one line for each metadata record and
    config.json the indented configuration. *)
Theorem save_frame (index_path : string) (self : FAISSStore)
    (fs : gmap string (file faiss_index)) :
  let saved := save index_path self fs in
  (index self = None ->
   saved = Run fs [] (Raise (ValueError (txt "No index to save")))) /\
  (forall other,
     other <> path_join index_path "faiss.index" ->
     other <> path_join index_path "meta.jsonl" ->
     other <> path_join index_path "config.json" ->
     after saved !! other = fs !! other) /\
  (forall ix, index self = Some ix ->
     after saved !! path_join index_path "faiss.index" = Some (IndexFile ix)) /\
  (forall ix, index self = Some ix -> outcome saved = Ok tt ->
     after saved !! path_join index_path "meta.jsonl"
       = Some (TextFile (flat_map jsonl_line (metadata self))) /\
     after saved !! path_join index_path "config.json"
       = Some (TextFile (dumps_pretty 0 (config_of self ix)))).
Proof using Type.
  cbv zeta. destruct (index_files_distinct index_path) as (Hfm & Hfc & Hmc).
  unfold save. split; [by intros -> |].
  destruct (index self) as [ix |]; [| by repeat split].
  unfold write_jsonl. cbn [fst snd].
  destruct (snd (write_items (metadata self) [])) as [[] |] eqn:Hw; cbn [after outcome].
  - apply write_items_ok in Hw. rewrite Hw. cbn [app].
    split; [| split].
    + intros other H1 H2 H3. by rewrite !lookup_insert_ne.
    + intros ix' [= <-].
      by rewrite lookup_insert_ne, lookup_insert_ne, lookup_insert_eq.
    + intros ix' [= <-] _.
      by rewrite lookup_insert_ne, !lookup_insert_eq.
  - split; [| split].
    + intros other H1 H2 H3. by rewrite !lookup_insert_ne.
    + intros ix' [= <-]. by rewrite lookup_insert_ne, lookup_insert_eq.
    + discriminate.
Qed.

(** X12.  When [load] raises, the metadata, the model name and the
    dimension of the store are as before.  Either the whole store is
    unchanged, or faiss.index was read and reading meta.jsonl raised the
    exception: then the store already holds the index of the directory,
    beside its old metadata. *)
Theorem load_failure (index_path : string) (self : FAISSStore)
    (fs : gmap string (file faiss_index)) (e : exn) :
  outcome (load index_path self fs) = Raise e ->
  let left := after (load index_path self fs) in
  metadata left = metadata self /\
  model_name left = model_name self /\
  dimension left = dimension self /\
  (left = self \/
   exists ix,
     read_index (path_join index_path "faiss.index") fs = Ok ix /\
     Io.read_jsonl (path_join index_path "meta.jsonl") fs = Raise e /\
     index left = Some ix).
Proof using Type.
  unfold load.
  destruct (json_load _ fs) as [config |]; [| intros _; cbn; by repeat split; try left].
  destruct (py_getitem config _) as [found |]; [| intros _; cbn; by repeat split; try left].
  destruct (read_index _ fs) as [ix |]; [| intros _; cbn; by repeat split; try left].
  destruct (Io.read_jsonl _ fs) as [md |]; [discriminate |].
  cbn [outcome after]. intros [= ->]. cbn. repeat split. right. by exists ix.
Qed.


End Store.
(** *** The theorems at work *)

Import StubBackend StoreExamples.

Lemma search_consistent_witness :
  exists results,
    search (txt "deep learning") 3 built_store = Ok results /\
    length results = 2%nat /\
    Forall (fun r => result_metadata r ∈ metadata built_store) results.
Proof.
  destruct (@search_consistent backend (txt "deep learning") 3 built_store
              (@Build_faiss_index backend 384 [txt "deep learning"; txt "learning to rank"])
              (txt "deep learning") [(1, 0); (0, 1); (-1, -1)])
    as (Hsearch & Hlen & Hmd).
  - reflexivity.
  - vm_compute. lia.
  - reflexivity.
  - reflexivity.
  - eexists. split; [exact Hsearch |]. split; [exact Hlen |].
    eapply Forall_impl; [exact Hmd |]. by intros r [? _].
Defined.

(** A chunk list whose second record has a text and no metadata. *)
Definition no_metadata_chunks : list json :=
  take 1 two_chunks ++ [ JObj [ (txt "text", JStr (txt "no metadata")) ] ].

Lemma build_index_failure_witness :
  let left := after (build_index no_metadata_chunks first_store) in
  outcome (build_index no_metadata_chunks first_store)
    = Raise (KeyError (txt "metadata")) /\
  length (metadata left) = 1%nat /\
  (ntotal <$> index left) = Some 2%nat.
Proof.
  cbv zeta.
  destruct (@build_index_failure backend no_metadata_chunks first_store (KeyError (txt "metadata")))
    as (Hmd & _ & _ & Hindex).
  - reflexivity.
  - split; [reflexivity |]. split; [by rewrite Hmd |].
    destruct Hindex as [Hsame | (texts & embeddings & _ & _ & _ & Hix & Hlen)].
    + by rewrite Hsame.
    + rewrite Hix. change (Some (length embeddings) = Some 2%nat).
      f_equal. exact Hlen.
Defined.

Lemma build_index_replaces_witness :
  build_index (take 1 two_chunks) built_store
    = build_index (take 1 two_chunks) (init Settings.embedding_model).
Proof.
  apply (@build_index_replaces backend (take 1 two_chunks) (init Settings.embedding_model)
           built_store); [reflexivity | reflexivity | discriminate | reflexivity].
Defined.

(** The saved directory with a metadata file cut off inside a record. *)
Definition cut_off_dir : gmap string (file faiss_index) :=
  <["data/index/meta.jsonl" := TextFile (txt "{")]> saved_dir.

Lemma load_failure_witness :
  let left := after (load "data/index" (init Settings.embedding_model) cut_off_dir) in
  outcome (load "data/index" (init Settings.embedding_model) cut_off_dir)
    = Raise JSONDecodeError /\
  metadata left = [] /\
  (ntotal <$> index left) = Some 2%nat.
Proof.
  cbv zeta.
  destruct (@load_failure backend "data/index" (init Settings.embedding_model) cut_off_dir
              JSONDecodeError) as (Hmd & _ & _ & Hindex).
  - vm_compute. reflexivity.
  - split; [vm_compute; reflexivity |]. split; [by rewrite Hmd |].
    vm_compute. reflexivity.
Defined.

End FaissStoreExtra.

Module FaissStoreExtra2.
Import PyJson PyJsonSpec Io IoTheorems FaissStore FaissStoreTheorems ConfigJson.

Section Store.
Context `{Backend}.


End Store.
(** *** The theorems at work *)

Import StubBackend StoreExamples.


End FaissStoreExtra2.

(** ** The [build] command *)

Module FaissStoreBuildTheorems.
Import PyJson PyJsonSpec Io IoTheorems FaissStore FaissStoreTheorems ConfigJson
       DecodedJson FaissStoreBuild.

Section Store.
Context `{Backend}.

(** After a save that returned, [load] finds what was saved. *)
Lemma load_after_save (index_path : string) (self self0 : FAISSStore)
    (fs : gmap string (file faiss_index)) (ix : faiss_index) :
  index self = Some ix ->
  Forall (fun c => (c <= 126)%N) (model_name self) ->
  Forall (fun v => distinct_keys v = true) (metadata self) ->
  outcome (save index_path self fs) = Ok tt ->
  load index_path self0 (after (save index_path self fs)) =
    Run (set_metadata (metadata self) (set_index ix self0))
        ((if bool_decide (model_name self = model_name self0) then []
          else [WarnModelMismatch (JStr (model_name self)) (model_name self0)])
         ++ [InfoIndexLoaded (length (metadata self))])
        (Ok tt).
Proof using Type.
  intros Hix Hname Hkeys.
  destruct (index_files_distinct index_path) as (Hfm & Hfc & Hmc).
  unfold save. rewrite Hix. unfold write_jsonl. cbn [fst snd].
  destruct (snd (write_items (metadata self) [])) as [[] |] eqn:Hw; [| discriminate].
  apply write_items_ok in Hw. rewrite Hw. cbn [app after outcome]. intros _.
  unfold load, json_load. rewrite lookup_insert_eq.
  unfold config_of. rewrite loads_config by assumption.
  change (py_getitem (JObj [ (txt "model_name", JStr (model_name self));
                             (txt "dimension", JInt (Z.of_nat (dimension self)));
                             (txt "num_vectors", JInt (Z.of_nat (ntotal ix))) ])
            (txt "model_name"))
    with (@Ok json (JStr (model_name self))).
  unfold read_index, read_jsonl.
  rewrite lookup_insert_ne, lookup_insert_ne, lookup_insert_eq by done.
  rewrite lookup_insert_ne, lookup_insert_eq by done.
  rewrite file_lines_written, (read_items_written (metadata self) [] Hkeys).
  cbn [app]. f_equal. f_equal.
  unfold differs_from_str, text_eqb. by case_bool_decide.
Qed.

Lemma comprehension_getitem_distinct (key : text) (chunks md : list json) :
  Forall (fun v => distinct_keys v = true) chunks ->
  comprehension (fun chunk => py_getitem chunk key) chunks = Ok md ->
  Forall (fun v => distinct_keys v = true) md.
Proof using Type.
  intros Hchunks. revert md.
  induction Hchunks as [| chunk chunks Hchunk Hchunks IH]; intros md; cbn [comprehension].
  - by intros [= <-].
  - destruct (py_getitem chunk key) as [m |] eqn:Hm; [| discriminate].
    cbn [mbind result_bind].
    destruct (comprehension _ chunks) as [ms |]; [| discriminate].
    cbn. intros [= <-]. constructor; [| by apply IH].
    unfold py_getitem in Hm. destruct chunk as [| | | | | fields]; try discriminate.
    destruct (assoc key fields) as [x |] eqn:Hx; [| discriminate].
    injection Hm as <-. by eapply assoc_distinct_keys.
Qed.

Lemma embedding_model_ascii :
  Forall (fun c => (c <= 126)%N) Settings.embedding_model.
Proof using Type. apply Forall_forall. intros c Hc. vm_compute in Hc.
  repeat (apply elem_of_cons in Hc as [-> | Hc]; [lia |]). by apply elem_of_nil in Hc.
Qed.


(** X16.  After a [build] command that found the chunks file and
    returned, the chunks file held at least one record and [load_index]
    on the output directory succeeds: the loaded store has one vector for
    each chunk of the file, its metadata are the metadata entries of the
    chunks, in order, and the load logs no model-mismatch warning. *)
Theorem build_then_load (chunks out : string) (fs : gmap string (file faiss_index)) :
  is_Some (fs !! chunks) ->
  returned (build chunks out fs) = Ok tt ->
  exists chunk_data md ix,
    Io.read_jsonl chunks fs = Ok chunk_data /\ chunk_data <> [] /\
    comprehension (fun chunk => py_getitem chunk (txt "metadata")) chunk_data = Ok md /\
    let loaded := FaissStore.load_index out (final (build chunks out fs)) in
    outcome loaded = Ok tt /\
    index (after loaded) = Some ix /\
    ntotal ix = length chunk_data /\
    metadata (after loaded) = md /\
    logged loaded = [InfoIndexLoaded (length chunk_data)].
Proof using Type.
  intros [f Hf]. unfold build. rewrite Hf.
  destruct (returned (load_build_save chunks out fs)) as [[] | e] eqn:Hr.
  2: { destruct (caught e); [discriminate | by rewrite Hr]. }
  intros _. revert Hr. unfold load_build_save.
  destruct (Io.read_jsonl chunks fs) as [chunk_data |] eqn:Hread; [| discriminate].
  cbv zeta.
  destruct (outcome (build_index chunk_data (init Settings.embedding_model)))
    as [[] |] eqn:Hbuilt; [| discriminate].
  destruct (outcome (save out (after (build_index chunk_data
              (init Settings.embedding_model))) fs)) as [[] |] eqn:Hsaved;
    [| discriminate].
  intros _. cbn [final].
  assert (Hne : chunk_data <> []).
  { intros ->. discriminate Hsaved. }
  pose proof (read_jsonl_distinct_keys _ _ _ Hread) as Hkeys.
  revert Hbuilt Hsaved. unfold build_index. rewrite bool_decide_eq_false_2 by assumption.
  destruct (comprehension (fun chunk => py_getitem chunk (txt "text")) chunk_data)
    as [texts |] eqn:Htexts; [| discriminate].
  destruct (encode (model_name (init Settings.embedding_model)) texts)
    as [embeddings |] eqn:Henc; [| discriminate].
  destruct (comprehension (fun chunk => py_getitem chunk (txt "metadata")) chunk_data)
    as [md |] eqn:Hmd; [| discriminate].
  cbn [outcome after]. intros _ Hsaved.
  pose proof (comprehension_getitem_distinct _ _ _ Hkeys Hmd) as Hmdkeys.
  exists chunk_data, md, {| d := dimension (init Settings.embedding_model);
                            vectors := embeddings |}.
  split; [reflexivity |]. split; [assumption |]. split; [exact Hmd |].
  cbv zeta. unfold load_index.
  rewrite (load_after_save out _ (init Settings.embedding_model) fs
             {| d := dimension (init Settings.embedding_model); vectors := embeddings |});
    [| reflexivity | apply embedding_model_ascii | exact Hmdkeys | exact Hsaved].
  cbn [outcome after logged set_metadata set_index index metadata
       FaissStore.model_name init].
  rewrite bool_decide_eq_true_2 by reflexivity.
  pose proof (encode_length _ _ _ Henc) as Hlen.
  pose proof (StubBackend.comprehension_length _ _ _ Htexts) as Hlen1.
  pose proof (StubBackend.comprehension_length _ _ _ Hmd) as Hlen2.
  repeat split; [unfold ntotal; cbn [vectors]; congruence | cbn [app]; congruence].
Qed.

End Store.
(** *** The theorems at work *)

Import StubBackend StoreExamples.

(** A chunk file holding the two chunks. *)
Definition chunks_dir : gmap string (file faiss_index) :=
  {[ "chunks.jsonl" := TextFile (flat_map jsonl_line two_chunks) ]}.

Lemma build_then_load_witness :
  exists chunk_data md ix,
    Io.read_jsonl "chunks.jsonl" chunks_dir = Ok chunk_data /\ chunk_data <> [] /\
    comprehension (fun chunk => py_getitem chunk (txt "metadata")) chunk_data = Ok md /\
    let loaded := FaissStore.load_index "data/index"
                    (final (build "chunks.jsonl" "data/index" chunks_dir)) in
    outcome loaded = Ok tt /\
    index (after loaded) = Some ix /\
    ntotal ix = length chunk_data /\
    metadata (after loaded) = md /\
    logged loaded = [InfoIndexLoaded (length chunk_data)].
Proof.
  apply (@build_then_load backend "chunks.jsonl" "data/index" chunks_dir).
  - eexists. reflexivity.
  - vm_compute. reflexivity.
Defined.

End FaissStoreBuildTheorems.

Module FaissStoreSearch.
Import PyJson PyJsonSpec Io IoTheorems FaissStore FaissStoreTheorems
       FaissStoreExtra FaissStoreBuildTheorems.

Section Store.
Context `{Backend}.

(** X17.  A store that is saved and loaded again answers as before.
    After a save that returned, of a store with an index, a model name of
    ASCII characters and metadata records with distinct keys, loading the
    directory into a new store for the same model succeeds without a
    warning, and every search on the loaded store gives what the same
    search gives on the saved store. *)
Theorem search_after_reload (index_path : string) (self : FAISSStore)
    (fs : gmap string (file faiss_index)) (ix : faiss_index) :
  index self = Some ix ->
  Forall (fun c => (c <= 126)%N) (model_name self) ->
  Forall (fun v => distinct_keys v = true) (metadata self) ->
  outcome (save index_path self fs) = Ok tt ->
  let loaded := load index_path (init (model_name self))
                  (after (save index_path self fs)) in
  outcome loaded = Ok tt /\
  logged loaded = [InfoIndexLoaded (length (metadata self))] /\
  forall query k, search query k (after loaded) = search query k self.
Proof using Type.
  intros Hix Hname Hkeys Hsaved. cbv zeta.
  rewrite (load_after_save index_path self (init (model_name self)) fs ix
             Hix Hname Hkeys Hsaved).
  cbn [outcome logged after init FaissStore.model_name].
  rewrite bool_decide_eq_true_2 by reflexivity.
  split; [reflexivity |]. split; [reflexivity |].
  intros query k. unfold search. cbn. by rewrite Hix.
Qed.

(** X18.  After a [build_index] that returned on a chunk list that is not
    empty, the store has one vector for each chunk, and every search that
    the model and the index answer returns one result for each hit whose
    position is not -1, each with the metadata entry of one of the
    chunks; IndexError is not raised. *)
Theorem search_after_build (chunks : list json) (self : FAISSStore) :
  chunks <> [] ->
  outcome (build_index chunks self) = Ok tt ->
  let built := after (build_index chunks self) in
  exists ix,
    index built = Some ix /\
    ntotal ix = length chunks /\
    forall query k query_embedding hits,
      encode (model_name self) [JStr query] = Ok [query_embedding] ->
      index_search (vectors ix) query_embedding k = Ok hits ->
      exists results,
        search query k built = Ok results /\
        length results = length (filter (fun hit => snd hit <> -1) hits) /\
        Forall (fun r => exists chunk,
                  chunk ∈ chunks /\
                  py_getitem chunk (txt "metadata") = Ok (result_metadata r))
               results.
Proof using Type.
  intros Hne. cbv zeta. unfold build_index. rewrite bool_decide_eq_false_2 by assumption.
  destruct (comprehension (fun chunk => py_getitem chunk (txt "text")) chunks)
    as [texts |] eqn:Htexts; [| discriminate].
  destruct (encode (model_name self) texts) as [embeddings |] eqn:Henc; [| discriminate].
  destruct (comprehension (fun chunk => py_getitem chunk (txt "metadata")) chunks)
    as [md |] eqn:Hmd; [| discriminate].
  intros _. cbn [after set_metadata set_index index].
  pose proof (encode_length _ _ _ Henc) as Hlen.
  pose proof (StubBackend.comprehension_length _ _ _ Htexts) as Hlen1.
  pose proof (StubBackend.comprehension_length _ _ _ Hmd) as Hlen2.
  eexists. split; [reflexivity |]. unfold ntotal. cbn [vectors].
  split; [congruence |].
  intros query k qv hits Hq Hhits.
  pose proof (index_search_range _ _ _ _ Hhits) as Hrange.
  assert (Hin : Forall (fun hit : score * Z =>
                  snd hit = -1 \/ 0 <= snd hit < Z.of_nat (length md)) hits).
  { eapply Forall_impl; [exact Hrange |]. intros hit [? | ?]; [by left | right; lia]. }
  exists (omap (hit_result md) hits). split; [| split].
  - unfold search. cbn. rewrite Hq. cbn [mbind result_bind]. rewrite Hhits. cbn [mbind result_bind].
    by rewrite collect_results_in_range.
  - clear Hhits Hrange Hq. induction Hin as [| [sc idx] hits Hidx Hin IH]; [reflexivity |].
    change (omap (hit_result md) ((sc, idx) :: hits))
      with (match hit_result md (sc, idx) with
            | Some r => r :: omap (hit_result md) hits
            | None => omap (hit_result md) hits
            end).
    rewrite filter_cons. unfold hit_result at 1. cbn [fst snd] in *.
    destruct (Z.eqb_spec idx (-1)) as [-> | Hn].
    + rewrite decide_False by (intros Hn; by apply Hn). exact IH.
    + rewrite decide_True by assumption.
      destruct Hidx as [-> | Hidx]; [done |].
      destruct (md !! Z.to_nat idx) as [m |] eqn:Hm.
      * cbn [length]. by rewrite IH.
      * apply lookup_ge_None in Hm. lia.
  - apply Forall_forall. intros r Hr.
    apply list_elem_of_omap in Hr as ([sc idx] & _ & Hr).
    unfold hit_result in Hr. cbn [fst snd] in Hr.
    destruct (idx =? -1); [discriminate |].
    destruct (md !! Z.to_nat idx) as [m |] eqn:Hm; [| discriminate].
    injection Hr as <-. cbn [result_metadata].
    clear -Hmd Hm. revert md idx Hmd Hm.
    induction chunks as [| chunk chunks IH]; intros md idx; cbn [comprehension].
    + intros [= <-]. by rewrite lookup_nil.
    + destruct (py_getitem chunk (txt "metadata")) as [m0 |] eqn:Hm0; [| discriminate].
      cbn [mbind result_bind].
      destruct (comprehension _ chunks) as [ms |] eqn:Hms; [| discriminate].
      cbn. intros [= <-]. destruct (Z.to_nat idx) as [| n] eqn:Hn.
      * cbn. intros [= <-]. exists chunk. split; [apply list_elem_of_here | exact Hm0].
      * cbn. intros Hlook.
        destruct (IH ms (Z.of_nat n) eq_refl) as (c & Hc & Hget).
        { by rewrite Nat2Z.id. }
        exists c. split; [by apply list_elem_of_further | exact Hget].
Qed.

End Store.
(** *** The theorems at work *)

Import StubBackend StoreExamples.

Lemma search_after_reload_witness :
  search (txt "learning to rank") 2
    (after (load "data/index" (init Settings.embedding_model) saved_dir))
  = search (txt "learning to rank") 2 built_store.
Proof.
  apply (@search_after_reload backend "data/index" built_store ∅
           (@Build_faiss_index backend 384
              [txt "deep learning"; txt "learning to rank"])).
  - reflexivity.
  - apply (bool_decide_unpack _). vm_compute. exact I.
  - apply (bool_decide_unpack _). vm_compute. exact I.
  - vm_compute. reflexivity.
Defined.

Lemma search_after_build_witness :
  exists ix,
    index built_store = Some ix /\
    ntotal ix = 2%nat /\
    exists results,
      search (txt "learning to rank") 5 built_store = Ok results /\
      length results = 2%nat.
Proof.
  destruct (@search_after_build backend two_chunks (init Settings.embedding_model))
    as (ix & Hix & Hn & Hsearch).
  - discriminate.
  - reflexivity.
  - assert (Hvectors : vectors ix = [txt "deep learning"; txt "learning to rank"]).
    { change (Some (@Build_faiss_index backend 384
                      [txt "deep learning"; txt "learning to rank"]) = Some ix) in Hix.
      by injection Hix as <-. }
    exists ix. split; [exact Hix |]. split; [exact Hn |].
    destruct (Hsearch (txt "learning to rank") 5 (txt "learning to rank")
                [(1, 1); (0, 0); (-1, -1); (-1, -1); (-1, -1)])
      as (results & Hres & Hlen & _).
    + reflexivity.
    + rewrite Hvectors. reflexivity.
    + exists results. split; [exact Hres | exact Hlen].
Defined.

End FaissStoreSearch.

(** ** The retriever and the pipeline *)

Module RetrieverExtra.
Import FaissStore Retriever RetrieverTheorems RetrieverContext.

Section Retriever.
Context `{Backend}.

(** A store [load] has worked on keeps its model name. *)
Lemma load_keeps_model (index_path : string) (self : FAISSStore)
    (fs : gmap string (file faiss_index)) :
  model_name (after (FaissStore.load index_path self fs)) = model_name self.
Proof using Type.
  unfold FaissStore.load.
  destruct (json_load _ fs); [| reflexivity].
  destruct (py_getitem _ _); [| reflexivity].
  destruct (read_index _ fs); [| reflexivity].
  destruct (Io.read_jsonl _ fs); reflexivity.
Qed.

(** A search that returned has a store. *)
Lemma search_ok_store (query : text) (k : Z) (self : Retriever)
    (fs : gmap string (file faiss_index)) (results : list search_result) :
  outcome (Retriever.search query k self fs) = Ok results ->
  exists st,
    store (after (Retriever.search query k self fs)) = Some st /\
    (store self = None -> model_name st = Settings.embedding_model) /\
    (store self = Some st \/ store self = None).
Proof using Type.
  unfold Retriever.search.
  destruct (store self) as [st0 |] eqn:Hst.
  - cbn [outcome after]. rewrite Hst. intros _. exists st0. by repeat split; try left.
  - destruct (outcome (Retriever.load_index self fs)) as [[] |] eqn:Hload;
      [| discriminate].
    cbn [outcome after].
    destruct (store (after (Retriever.load_index self fs))) as [st |] eqn:Hloaded;
      [| discriminate].
    intros _. exists st. split; [reflexivity |]. split; [| by right]. intros _.
    revert Hload Hloaded. unfold Retriever.load_index.
    destruct (fs !! _); [| discriminate].
    destruct (outcome (FaissStore.load_index _ fs)); [| discriminate].
    cbn [outcome after store]. intros _ [= <-].
    unfold FaissStore.load_index. by rewrite load_keeps_model.
Qed.

(** X19.  [search_with_context] leaves the retriever and logs what
    [search] does, and raises what it raises.  When the search returns,
    the retriever has a store, and the context holds the query, the
    results of the search, their number as num_results, the number of
    metadata records of that store as total_documents (not the 0 of a
    missing store) and the configured model name, which is the model
    name of the store when the search loaded it. *)
Theorem search_with_context_stats (query : text) (k : Z) (self : Retriever)
    (fs : gmap string (file faiss_index)) :
  let searched := Retriever.search query k self fs in
  let r := search_with_context query k self fs in
  after r = after searched /\
  logged r = logged searched /\
  (forall e, outcome searched = Raise e -> outcome r = Raise e) /\
  (forall found, outcome searched = Ok found ->
     exists st ctx,
       store (after r) = Some st /\
       outcome r = Ok ctx /\
       RetrieverContext.query ctx = query /\
       results ctx = found /\
       num_results ctx = Z.of_nat (length found) /\
       total_documents (stats ctx) = Z.of_nat (length (metadata st)) /\
       model (stats ctx) = Settings.embedding_model /\
       (store self = None -> model_name st = Settings.embedding_model)).
Proof using Type.
  cbv zeta. unfold search_with_context. cbn [after logged outcome].
  split; [reflexivity |]. split; [reflexivity |]. split.
  - by intros e ->.
  - intros found Hfound.
    destruct (search_ok_store query k self fs found Hfound) as (st & Hst & Hmodel & _).
    rewrite Hfound, Hst. cbn [mbind result_bind].
    exists st. eexists. repeat split. exact Hmodel.
Qed.

(** The formatted view of a metadata record. *)
Definition formatted_view (meta : list (text * json)) (sc : score) : json :=
  JObj [ (txt "title", dict_get meta (txt "title") (JStr (txt "Unknown Title")));
         (txt "arxiv_id", dict_get meta (txt "arxiv_id") (JStr (txt "unknown")));
         (txt "section", dict_get meta (txt "section") (JStr (txt "unknown")));
         (txt "score", JStr (format_score sc)) ].

(** A result of the retriever made from the result [r] of the store. *)
Definition formatted_from (r r' : search_result) : Prop :=
  result_score r' = result_score r /\
  result_metadata r' = result_metadata r /\
  exists meta,
    result_metadata r = JObj meta /\
    result_formatted r' = Some (formatted_view meta (result_score r)).

Lemma add_formatted_one (r : search_result) :
  match add_formatted r with
  | Ok r' => formatted_from r r'
  | Raise e => e = AttributeError /\ ~ is_object (result_metadata r)
  end.
Proof using Type.
  unfold add_formatted, formatted_from.
  destruct (result_metadata r) as [| | | | | meta]; try (split; [reflexivity | by intros []]).
  cbn. repeat split. by exists meta.
Qed.

Lemma add_formatted_each (rs : list search_result) :
  match comprehension add_formatted rs with
  | Ok out => Forall2 formatted_from rs out
  | Raise e =>
      e = AttributeError /\ ~ Forall (fun r => is_object (result_metadata r)) rs
  end.
Proof using Type.
  induction rs as [| r rs IH]; [cbn; constructor |].
  cbn [comprehension]. pose proof (add_formatted_one r) as Hone.
  destruct (add_formatted r) as [r' | e]; cbn [mbind result_bind].
  - destruct (comprehension add_formatted rs) as [out | e]; cbn [mbind result_bind].
    + by constructor.
    + destruct IH as [-> Hnot]. split; [reflexivity |].
      intros Hall. apply Forall_cons in Hall as [_ Hall]. by apply Hnot.
  - destruct Hone as [-> Hnot]. split; [reflexivity |].
    intros Hall. apply Forall_cons in Hall as [Hr _]. by apply Hnot.
Qed.

(** X20.  On a retriever that has a store, [search] reads no file, logs
    nothing and leaves the retriever as it is.  When the store returns
    results whose metadata are all dictionaries, it returns them in the
    same order, score and metadata unchanged, each with a formatted entry
    made of the title, arxiv_id and section of the metadata (Unknown
    Title, unknown and unknown where they are missing) and the formatted
    score; when some metadata is not a dictionary it raises
    AttributeError. *)
Theorem search_formats_results (query : text) (k : Z) (self : Retriever)
    (st : FAISSStore) (fs : gmap string (file faiss_index))
    (found : list search_result) :
  store self = Some st ->
  FaissStore.search query k st = Ok found ->
  let r := Retriever.search query k self fs in
  after r = self /\ logged r = [] /\
  (Forall (fun x => is_object (result_metadata x)) found ->
   exists out, outcome r = Ok out /\ Forall2 formatted_from found out) /\
  (~ Forall (fun x => is_object (result_metadata x)) found ->
   outcome r = Raise AttributeError).
Proof using Type.
  intros Hst Hfound. cbv zeta.
  rewrite (search_loaded query k self st fs Hst). cbn [after logged outcome].
  rewrite Hfound. cbn [mbind result_bind].
  pose proof (add_formatted_each found) as Heach.
  split; [reflexivity |]. split; [reflexivity |].
  destruct (comprehension add_formatted found) as [out | e].
  - split; [by exists out |]. intros Hnot. exfalso. apply Hnot.
    clear -Heach. induction Heach as [| r r' rs out' Hr Hrs IH]; constructor;
      [| exact IH].
    destruct Hr as (_ & _ & meta & -> & _). exact I.
  - destruct Heach as [-> Hnot]. split; [done | reflexivity].
Qed.

End Retriever.
(** *** The theorems at work *)

Import StubBackend StoreExamples.

Lemma search_formats_results_witness :
  let self := {| index_path := "data/index"; store := Some built_store |} in
  exists found out,
    FaissStore.search (txt "deep learning") 1 built_store = Ok found /\
    outcome (Retriever.search (txt "deep learning") 1 self ∅) = Ok out /\
    Forall2 formatted_from found out.
Proof.
  cbv zeta.
  destruct (@search_formats_results backend (txt "deep learning") 1
              {| index_path := "data/index"; store := Some built_store |}
              built_store ∅
              (match FaissStore.search (txt "deep learning") 1 built_store with
               | Ok found => found
               | Raise _ => []
               end))
    as (_ & _ & Hall & _).
  - reflexivity.
  - vm_compute. reflexivity.
  - destruct Hall as (out & Hout & Hfmt); [vm_compute; by repeat constructor |].
    eexists. exists out. split; [vm_compute; reflexivity |]. split; [exact Hout | exact Hfmt].
Defined.

End RetrieverExtra.

Module RagPipelineTheorems.
Import FaissStore Retriever RetrieverTheorems RetrieverContext RagPipeline.

Section Pipeline.
Context `{Backend}.




End Pipeline.
End RagPipelineTheorems.

(** ** Records that can be stored *)

(** ** Well-formed records *)

Module Records.
Import PyJson PyJsonSpec.

(** A record that [write_jsonl] writes and [read_jsonl] reads back. *)
Definition storable (v : json) : Prop :=
  distinct_keys v = true /\ encodable_json v = true.

Lemma encodable_obj (fields : list (text * json)) :
  Forall (fun kv => forallb encodable (fst kv) = true /\ encodable_json (snd kv) = true)
         fields ->
  encodable_json (JObj fields) = true.
Proof.
  unfold encodable_json. cbn [json_chars].
  induction 1 as [| kv fields [Hk Hv] Hfields IH]; [reflexivity |].
  cbn [flat_map]. rewrite !forallb_app, Hk, Hv. exact IH.
Qed.

Lemma distinct_obj (fields : list (text * json)) :
  NoDup (map fst fields) ->
  Forall (fun kv => distinct_keys (snd kv) = true) fields ->
  distinct_keys (JObj fields) = true.
Proof.
  intros Hnd Hfields. cbn [distinct_keys]. apply andb_true_intro. split.
  - by apply bool_decide_eq_true.
  - apply forallb_forall. intros kv Hkv. rewrite Forall_forall in Hfields.
    apply Hfields. by apply list_elem_of_In.
Qed.


Lemma assoc_encodable (fields : list (text * json)) (key : text) (v : json) :
  encodable_json (JObj fields) = true -> assoc key fields = Some v ->
  encodable_json v = true.
Proof.
  unfold encodable_json. cbn [json_chars].
  induction fields as [| [k x] fields IH]; [discriminate |].
  cbn [flat_map assoc fst snd]. rewrite !forallb_app.
  intros Hall. apply andb_prop in Hall as [Hkx Hrest].
  apply andb_prop in Hkx as [_ Hx].
  destruct (text_eqb k key); [by intros [= <-] | by apply IH].
Qed.

Lemma dict_get_storable (fields : list (text * json)) (key : text) (default : json) :
  storable (JObj fields) -> storable default ->
  storable (dict_get fields key default).
Proof.
  intros [Hk He] Hd. unfold dict_get.
  destruct (assoc key fields) as [v |] eqn:Hv; [| exact Hd].
  split; [by eapply DecodedJson.assoc_distinct_keys | by eapply assoc_encodable].
Qed.

(** Slices and trimmed texts hold characters of the text only. *)
Lemma forallb_lstrip (P : N -> bool) (s : text) :
  forallb P s = true -> forallb P (py_lstrip s) = true.
Proof.
  induction s as [| c s IH]; [done |]. cbn [py_lstrip].
  destruct (py_isspace c); [| done].
  cbn [forallb]. intros Hall. apply andb_prop in Hall as [_ Hs]. by apply IH.
Qed.

Lemma forallb_rev (P : N -> bool) (s : text) :
  forallb P s = true -> forallb P (rev s) = true.
Proof.
  intros Hs. apply forallb_forall. intros c Hc. rewrite forallb_forall in Hs.
  apply Hs. by apply in_rev.
Qed.

Lemma forallb_strip (P : N -> bool) (s : text) :
  forallb P s = true -> forallb P (py_strip s) = true.
Proof.
  intros Hs. unfold py_strip, py_rstrip.
  by apply forallb_rev, forallb_lstrip, forallb_rev, forallb_lstrip.
Qed.

Lemma forallb_slice (P : N -> bool) (s : text) (lo hi : Z) :
  forallb P s = true -> forallb P (py_slice s lo hi) = true.
Proof.
  intros Hs. unfold py_slice. apply forallb_forall. intros c Hc.
  rewrite forallb_forall in Hs. apply Hs.
  apply list_elem_of_In. apply list_elem_of_In in Hc.
  by eapply subseteq_drop, subseteq_take.
Qed.

End Records.

(** ** Ingestion *)

Module ArxivMetadataTheorems.
Import PyJson PyJsonSpec Io IoTheorems ArxivClient ArxivMetadata Records.

(** The last piece of a split holds no separator, and the text ends with
    it: the text is the piece, or the piece stands after the last
    separator. *)
Lemma py_split_last (sep : N) (s cur : text) :
  sep ∉ cur ->
  exists pieces last,
    py_split sep s cur = pieces ++ [last] /\
    (sep ∉ last) /\
    (rev cur ++ s = last \/ exists prefix, rev cur ++ s = prefix ++ sep :: last).
Proof.
  revert cur. induction s as [| c s IH]; intros cur Hcur.
  - exists [], (rev cur). cbn [py_split app]. split; [reflexivity |]. split.
    + intros Hin. apply Hcur. apply list_elem_of_In. apply list_elem_of_In in Hin.
      by apply in_rev.
    + left. by rewrite app_nil_r.
  - cbn [py_split]. destruct (N.eqb_spec c sep) as [-> | Hne].
    + destruct (IH [] ltac:(apply not_elem_of_nil)) as (pieces & last & Hsplit & Hlast & Hend).
      exists (rev cur :: pieces), last. rewrite Hsplit. split; [reflexivity |].
      split; [exact Hlast |]. right. cbn [rev app] in Hend.
      destruct Hend as [-> | [prefix ->]].
      * by exists (rev cur).
      * exists (rev cur ++ sep :: prefix). by rewrite <- app_assoc.
    + destruct (IH (c :: cur)) as (pieces & last & Hsplit & Hlast & Hend).
      { rewrite elem_of_cons. intros [? | ?]; [congruence | done]. }
      exists pieces, last. split; [exact Hsplit |]. split; [exact Hlast |].
      cbn [rev] in Hend. by rewrite <- app_assoc in Hend.
Qed.

Lemma py_index_last {A} (l : list A) (x : A) : py_index (l ++ [x]) (-1) = Ok x.
Proof.
  unfold py_index. cbn [Z.ltb Z.compare]. rewrite length_app. cbn [length].
  destruct (Z.ltb_spec (-1 + Z.of_nat (length l + 1)) 0); [lia |].
  replace (Z.to_nat (-1 + Z.of_nat (length l + 1))) with (length l + 0)%nat by lia.
  by rewrite lookup_app_r, Nat.add_0_r, Nat.sub_diag by lia.
Qed.


(** The paper made of a result whose identifier is [arxiv_id]. *)
Definition paper_with (arxiv_id : text) (r : arxiv_result) : json :=
  JObj [ (txt "arxiv_id", JStr arxiv_id);
         (txt "title", JStr (title r));
         (txt "authors", JArr (map JStr (authors r)));
         (txt "abstract", JStr (summary r));
         (txt "categories", JArr (map JStr (categories r)));
         (txt "pdf_url", match pdf_url r with
                         | Some url => JStr url
                         | None => JNull
                         end);
         (txt "published", JStr (published r)) ].

(** X22.  The arxiv_id [fetch_arxiv_metadata] gives a paper is the part
    of the entry id after its last slash, or the whole entry id when it
    has no slash: it holds no slash.  The other fields are copied from
    the result, a missing PDF link as null, and making the dictionary
    never raises. *)
Theorem paper_data_arxiv_id (r : arxiv_result) :
  exists arxiv_id,
    paper_data r = Ok (paper_with arxiv_id r) /\
    (47%N ∉ arxiv_id) /\
    (entry_id r = arxiv_id \/ exists prefix, entry_id r = prefix ++ 47%N :: arxiv_id).
Proof.
  destruct (py_split_last 47 (entry_id r) [] ltac:(apply not_elem_of_nil))
    as (pieces & last & Hsplit & Hlast & Hend).
  exists last. unfold paper_data. rewrite Hsplit, py_index_last.
  split; [reflexivity |]. split; [exact Hlast | exact Hend].
Qed.











Section Fetch.
Context {Ix : Type}.






End Fetch.

(** *** The theorems at work *)




End ArxivMetadataTheorems.

(** ** The index script *)

Module BuildIndexScriptTheorems.
Import PyJson PyJsonSpec Io IoTheorems Chunker ChunkerSpec ChunkerDefault
       Records DecodedJson BuildIndexScript.

Lemma storable_str (s : text) : forallb encodable s = true -> storable (JStr s).
Proof. intros Hs. split; [reflexivity |]. unfold encodable_json. exact Hs. Qed.

Lemma storable_int (z : Z) : storable (JInt z).
Proof. by split. Qed.

Lemma storable_obj (fields : list (text * json)) :
  NoDup (map fst fields) ->
  Forall (fun kv => forallb encodable (fst kv) = true /\ storable (snd kv)) fields ->
  storable (JObj fields).
Proof.
  intros Hnd Hfields. split.
  - apply distinct_obj; [exact Hnd |].
    eapply Forall_impl; [exact Hfields |]. by intros kv (_ & Hk & _).
  - apply encodable_obj.
    eapply Forall_impl; [exact Hfields |]. by intros kv (Hc & _ & He).
Qed.

(** The chunk of a window of a text that can be encoded can be written
    and read back. *)
Lemma chunk_data_storable (chunk : text) (arxiv_id title section : json)
    (index start : Z) :
  forallb encodable chunk = true -> storable arxiv_id -> storable title ->
  storable section ->
  storable (chunk_data chunk arxiv_id title section index start).
Proof.
  intros Hchunk Hid Htitle Hsection. unfold chunk_data.
  apply storable_obj; [apply (bool_decide_unpack (NoDup _)); vm_compute; exact I |].
  constructor; [split; cbn [fst snd]; [reflexivity | by apply storable_str] |].
  constructor; [| constructor]. split; cbn [fst snd]; [reflexivity |].
  apply storable_obj; [apply (bool_decide_unpack (NoDup _)); vm_compute; exact I |].
  repeat (constructor; [split; cbn [fst snd];
                        [reflexivity | first [assumption | apply storable_int]] |]).
  constructor.
Qed.

Lemma chunk_paper_storable (paper : json) (chunk_abstracts : bool)
    (chunk_size overlap : Z) (chunks : list json) :
  storable paper ->
  chunk_paper paper chunk_abstracts chunk_size overlap = Ok chunks ->
  Forall storable chunks.
Proof.
  intros Hpaper. unfold chunk_paper.
  destruct paper as [| | | | | fields]; try discriminate.
  assert (Hget : forall key default, storable default ->
            storable (dict_get fields key default))
    by (intros; by apply dict_get_storable).
  assert (Hempty : storable (JStr [])) by (by apply storable_str).
  assert (Hnone : storable (JArr [])) by (by split).
  destruct (negb (py_truthy (dict_get fields (txt "abstract") JNull)));
    [intros [= <-]; constructor |].
  destruct (if chunk_abstracts
            then n ← py_len (dict_get fields (txt "abstract") JNull); Ok (chunk_size <? n)
            else Ok false) as [long |]; [| discriminate].
  cbn [mbind result_bind]. destruct long.
  - destruct (dict_get fields (txt "abstract") JNull) as [| | | s | |] eqn:Habs;
      try discriminate.
    intros Hchunks. apply ChunkerExtra2.chunk_text_windows_of in Hchunks as [m ->].
    apply Forall_forall. intros c Hc. apply list_elem_of_fmap in Hc as (j & -> & _).
    unfold window. apply chunk_data_storable; try by apply Hget.
    + apply forallb_slice, forallb_strip.
      pose proof (Hget (txt "abstract") JNull ltac:(by split)) as [_ Hs].
      by rewrite Habs in Hs.
    + by apply storable_str.
  - destruct (py_len (dict_get fields (txt "abstract") JNull)) as [n |];
      [| discriminate].
    cbn [mbind result_bind]. intros [= <-]. constructor; [| constructor].
    apply storable_obj; [apply (bool_decide_unpack (NoDup _)); vm_compute; exact I |].
    constructor; [split; cbn [fst snd]; [reflexivity | apply Hget; by split] |].
    constructor; [| constructor]. split; cbn [fst snd]; [reflexivity |].
    apply storable_obj; [apply (bool_decide_unpack (NoDup _)); vm_compute; exact I |].
    repeat (constructor; [split; cbn [fst snd];
                          [reflexivity
                          | first [ by apply Hget | apply storable_int
                                  | by apply storable_str ]] |]).
    constructor.
Qed.

Lemma chunk_papers_storable (papers : list json) (chunk_abstracts : bool)
    (chunk_size overlap : Z) (chunks : list json) :
  Forall storable papers ->
  chunk_papers_from_metadata papers chunk_abstracts chunk_size overlap = Ok chunks ->
  Forall storable chunks.
Proof.
  intros Hpapers. revert chunks.
  induction Hpapers as [| paper papers Hpaper Hpapers IH]; intros chunks.
  - intros [= <-]. constructor.
  - rewrite ChunkerTheorems.chunk_papers_cons.
    destruct (chunk_paper paper chunk_abstracts chunk_size overlap) as [cs |] eqn:Hcs;
      [| discriminate].
    cbn [mbind result_bind].
    destruct (chunk_papers_from_metadata papers _ _ _) as [rest |]; [| discriminate].
    cbn. intros [= <-]. apply Forall_app. split; [| by apply IH].
    by eapply chunk_paper_storable.
Qed.

Section Script.
Context {Ix : Type}.

(** The [try] block on a metadata file whose records can be encoded. *)
Lemma chunk_metadata_written (fs : gmap string (file Ix)) (papers chunks : list json) :
  Io.read_jsonl metadata_file fs = Ok papers ->
  Forall (fun p => encodable_json p = true) papers ->
  chunk_papers_from_metadata papers true 1200 120 = Ok chunks ->
  chunk_metadata fs =
    CommandRun (<[chunks_file := TextFile (flat_map jsonl_line chunks)]> fs)
      [InfoCreatedChunks (length chunks) (length papers)] (Ok tt) /\
  Io.read_jsonl chunks_file (<[chunks_file := TextFile (flat_map jsonl_line chunks)]> fs)
    = Ok chunks.
Proof using Type.
  intros Hread Henc Hchunks.
  pose proof (read_jsonl_distinct_keys _ _ _ Hread) as Hkeys.
  assert (Hpapers : Forall storable papers).
  { apply Forall_forall. intros p Hp. rewrite Forall_forall in Henc, Hkeys. split; auto. }
  pose proof (chunk_papers_storable _ _ _ _ _ Hpapers Hchunks) as Hstor.
  assert (Hcenc : Forall (fun v => encodable_json v = true) chunks)
    by (eapply Forall_impl; [exact Hstor | by intros v [_ Hv]]).
  assert (Hckeys : Forall (fun v => distinct_keys v = true) chunks)
    by (eapply Forall_impl; [exact Hstor | by intros v [Hv _]]).
  split.
  - unfold chunk_metadata. rewrite Hread, Hchunks. unfold write_jsonl.
    by rewrite (write_items_encodable chunks [] Hcenc).
  - unfold read_jsonl. rewrite lookup_insert_eq, file_lines_written.
    apply (read_items_written chunks [] Hckeys).
Qed.

Lemma chunk_metadata_frame (fs : gmap string (file Ix)) (other : string) :
  other <> chunks_file -> final (chunk_metadata fs) !! other = fs !! other.
Proof using Type.
  intros Hother. unfold chunk_metadata.
  destruct (Io.read_jsonl metadata_file fs); [| reflexivity].
  destruct (chunk_papers_from_metadata _ _ _ _); [| reflexivity].
  unfold write_jsonl. cbn [fst snd].
  destruct (snd (write_items _ [])); cbn [final]; by rewrite lookup_insert_ne.
Qed.

Lemma chunk_metadata_final (fs : gmap string (file Ix)) :
  final (chunk_metadata fs) = fs \/ is_Some (final (chunk_metadata fs) !! chunks_file).
Proof using Type.
  unfold chunk_metadata.
  destruct (Io.read_jsonl metadata_file fs); [| by left].
  destruct (chunk_papers_from_metadata _ _ _ _); [| by left].
  unfold write_jsonl. cbn [fst snd]. right.
  destruct (snd (write_items _ [])); cbn [final]; rewrite lookup_insert_eq; eauto.
Qed.

Lemma create_dummy_chunks_final (fs : gmap string (file Ix)) :
  final (create_dummy_chunks fs) =
    match fs !! chunks_file, fs !! metadata_file with
    | None, Some _ => final (chunk_metadata fs)
    | _, _ => fs
    end.
Proof using Type.
  unfold create_dummy_chunks.
  destruct (fs !! chunks_file); [reflexivity |].
  destruct (fs !! metadata_file); [| reflexivity].
  destruct (returned (chunk_metadata fs)); [reflexivity |].
  by destruct (caught e).
Qed.

(** X25.  [create_dummy_chunks] lets no exception out, the mark of a
    float in the metadata file apart.  An existing chunks file is left as
    it is, whatever it holds; without a chunks file and without a
    metadata file nothing is written; in every case no path other than
    the chunks file changes.  Running it a second time changes nothing
    more, and [main] leaves the files and returns as
    [create_dummy_chunks] does. *)
Theorem create_dummy_chunks_safe (fs : gmap string (file Ix)) :
  let r := create_dummy_chunks fs in
  (returned r = Ok tt \/ returned r = Raise FloatLiteral) /\
  (is_Some (fs !! chunks_file) -> r = CommandRun fs [InfoChunksExist chunks_file] (Ok tt)) /\
  (fs !! chunks_file = None -> fs !! metadata_file = None ->
   r = CommandRun fs [WarnNoChunksFile; ErrorNoMetadata] (Ok tt)) /\
  (forall other, other <> chunks_file -> final r !! other = fs !! other) /\
  final (create_dummy_chunks (final r)) = final r /\
  final (main fs) = final r /\
  returned (main fs) = returned r.
Proof using Type.
  cbv zeta. split; [| split; [| split; [| split; [| split; [| split]]]]].
  - unfold create_dummy_chunks.
    destruct (fs !! chunks_file); [by left |].
    destruct (fs !! metadata_file); [| by left].
    destruct (returned (chunk_metadata fs)) as [[] | e] eqn:Hr; [by left |].
    destruct e; cbn [caught returned]; try by left. by right.
  - intros [f Hf]. unfold create_dummy_chunks. by rewrite Hf.
  - intros Hc Hm. unfold create_dummy_chunks. by rewrite Hc, Hm.
  - intros other Hother. rewrite create_dummy_chunks_final.
    destruct (fs !! chunks_file); [reflexivity |].
    destruct (fs !! metadata_file); [| reflexivity].
    by apply chunk_metadata_frame.
  - rewrite (create_dummy_chunks_final fs).
    destruct (fs !! chunks_file) as [f |] eqn:Hc.
    { by rewrite create_dummy_chunks_final, Hc. }
    destruct (fs !! metadata_file) as [f |] eqn:Hm.
    2: { by rewrite create_dummy_chunks_final, Hc, Hm. }
    destruct (chunk_metadata_final fs) as [Hsame | [g Hg]].
    + rewrite Hsame. by rewrite create_dummy_chunks_final, Hc, Hm.
    + by rewrite create_dummy_chunks_final, Hg.
  - unfold main. by destruct (returned (create_dummy_chunks fs)).
  - unfold main. by destruct (returned (create_dummy_chunks fs)) as [[] |].
Qed.

(** X26.  Without a chunks file, when the metadata file reads as papers
    that are encodable and that the chunker (abstracts chunked, size
    1200, overlap 120) turns into chunks, [create_dummy_chunks] returns
    after logging the warning and the two counts, the chunks file reads
    back as exactly these chunks, and the metadata file still reads as
    the papers. *)
Theorem create_dummy_chunks_round_trip (fs : gmap string (file Ix))
    (papers chunks : list json) :
  fs !! chunks_file = None ->
  Io.read_jsonl metadata_file fs = Ok papers ->
  Forall (fun p => encodable_json p = true) papers ->
  chunk_papers_from_metadata papers true 1200 120 = Ok chunks ->
  let r := create_dummy_chunks fs in
  returned r = Ok tt /\
  lines r = [WarnNoChunksFile; InfoCreatedChunks (length chunks) (length papers)] /\
  Io.read_jsonl chunks_file (final r) = Ok chunks /\
  Io.read_jsonl metadata_file (final r) = Ok papers.
Proof using Type.
  intros Hc Hread Henc Hchunks. cbv zeta.
  destruct (chunk_metadata_written fs papers chunks Hread Henc Hchunks) as [Hrun Hback].
  assert (Hm : is_Some (fs !! metadata_file)).
  { revert Hread. unfold read_jsonl. destruct (fs !! metadata_file); [eauto | discriminate]. }
  destruct Hm as [f Hm].
  unfold create_dummy_chunks. rewrite Hc, Hm, Hrun. cbn [returned final lines].
  split; [reflexivity |]. split; [reflexivity |]. split; [exact Hback |].
  revert Hread. unfold read_jsonl. by rewrite lookup_insert_ne.
Qed.

End Script.

Import ArxivMetadata ArxivMetadataTheorems.


Section Ingest.
Context {Ix : Type}.


End Ingest.
(** *** The theorems at work *)


(** A metadata file with one paper and no chunk file. *)
Definition one_paper : json :=
  JObj [ (txt "arxiv_id", JStr (txt "2401.00001v1"));
         (txt "title", JStr (txt "First paper"));
         (txt "abstract", JStr (txt "On chunking.")) ].

Definition one_paper_chunks : list json :=
  match chunk_papers_from_metadata [one_paper] true 1200 120 with
  | Ok chunks => chunks
  | Raise _ => []
  end.

Definition raw_dir_only : gmap string (file unit) :=
  {[ metadata_file := TextFile (jsonl_line one_paper) ]}.

Lemma create_dummy_chunks_round_trip_witness :
  let r := create_dummy_chunks raw_dir_only in
  returned r = Ok tt /\
  lines r = [WarnNoChunksFile; InfoCreatedChunks 1 1] /\
  length one_paper_chunks = 1%nat /\
  Io.read_jsonl chunks_file (final r) = Ok one_paper_chunks /\
  Io.read_jsonl metadata_file (final r) = Ok [one_paper].
Proof.
  cbv zeta.
  destruct (create_dummy_chunks_round_trip raw_dir_only [one_paper]
              one_paper_chunks)
    as (Hok & Hlines & Hchunks & Hpapers).
  - reflexivity.
  - vm_compute. reflexivity.
  - repeat constructor.
  - vm_compute. reflexivity.
  - split; [exact Hok |]. split; [exact Hlines |]. split; [reflexivity |].
    split; [exact Hchunks |].
    exact Hpapers.
Defined.

End BuildIndexScriptTheorems.

(** ** Exact quotients of counts *)

Module FloatFacts.

(** The double 1.0. *)
Definition float_1_0 : spec_float := S754_finite false 4503599627370496 (-52).

Lemma digits2_pos_shift (p k : positive) :
  digits2_pos (Pos.iter xO p k) = (digits2_pos p + k)%positive.
Proof.
  induction k as [| k IH] using Pos.peano_ind.
  - cbn. lia.
  - rewrite Pos.iter_succ. cbn [digits2_pos]. rewrite IH. lia.
Qed.

Lemma digits2_pos_bound (p : positive) :
  Z.pos p < 2 ^ Z.pos (digits2_pos p).
Proof.
  induction p as [p IH | p IH |]; cbn [digits2_pos].
  - rewrite Pos2Z.inj_succ, Z.pow_succ_r by lia. lia.
  - rewrite Pos2Z.inj_succ, Z.pow_succ_r by lia. lia.
  - reflexivity.
Qed.

Lemma digits2_pos_low (p : positive) :
  2 ^ (Z.pos (digits2_pos p) - 1) <= Z.pos p.
Proof.
  induction p as [p IH | p IH |]; cbn [digits2_pos].
  - rewrite Pos2Z.inj_succ. replace (Z.succ (Z.pos (digits2_pos p)) - 1)
      with (Z.succ (Z.pos (digits2_pos p) - 1)) by lia.
    rewrite Z.pow_succ_r by lia. lia.
  - rewrite Pos2Z.inj_succ. replace (Z.succ (Z.pos (digits2_pos p)) - 1)
      with (Z.succ (Z.pos (digits2_pos p) - 1)) by lia.
    rewrite Z.pow_succ_r by lia. lia.
  - reflexivity.
Qed.

(** A number below 2^53 has at most 53 binary digits. *)
Lemma digits2_pos_small (p : positive) :
  Z.pos p < 2 ^ 53 -> Z.pos (digits2_pos p) <= 53.
Proof.
  intros Hp. pose proof (digits2_pos_low p) as Hlow.
  destruct (Z.le_gt_cases (Z.pos (digits2_pos p)) 53) as [| Hbig]; [assumption |].
  exfalso.
  assert (2 ^ 53 <= 2 ^ (Z.pos (digits2_pos p) - 1))
    by (apply Z.pow_le_mono_r; lia).
  lia.
Qed.

(** A mantissa of 53 digits is kept as it is by the rounding. *)
Lemma binary_round_aux_exact (m : positive) (e : Z) :
  digits2_pos m = 53%positive -> -1074 <= e <= 971 ->
  binary_round_aux prec emax false (Z.pos m) e loc_Exact = S754_finite false m e.
Proof.
  intros Hd He. unfold binary_round_aux, shr_fexp. cbn [Zdigits2 shr_record_of_loc].
  rewrite Hd. unfold fexp, emin, prec, emax.
  replace (Z.max (53 + e - 53) (3 - 1024 - 53) - e) with 0 by lia.
  cbn [shr shr_m loc_of_shr_record round_nearest_even Zdigits2 shr_record_of_loc].
  rewrite Hd.
  replace (Z.max (53 + e - 53) (3 - 1024 - 53) - e) with 0 by lia.
  cbn [shr shr_m]. destruct (Z.leb_spec e (1024 - 53)); [reflexivity | lia].
Qed.

(** The double of a positive integer below 2^53: a finite number whose
    mantissa has 53 digits. *)
Lemma float_of_pos (p : positive) :
  Z.pos p < 2 ^ 53 ->
  exists m e,
    py_float_of_int (Z.pos p) = Ok (S754_finite false m e) /\
    digits2_pos m = 53%positive.
Proof.
  intros Hp. pose proof (digits2_pos_small p Hp) as Hd.
  unfold py_float_of_int, binary_normalize, binary_round, shl_align.
  unfold fexp at 1, emin, prec, emax.
  replace (Z.max (Z.pos (digits2_pos p) + 0 - 53) (3 - 1024 - 53) - 0)
    with (Z.pos (digits2_pos p) - 53) by lia.
  destruct (Z.pos (digits2_pos p) - 53) as [| q | q] eqn:Hq; [| lia |].
  - assert (Hd53 : digits2_pos p = 53%positive) by lia.
    change (binary_round_aux 53 1024) with (binary_round_aux prec emax).
    rewrite binary_round_aux_exact by (assumption || lia). eauto.
  - assert (Hs : digits2_pos (Pos.iter xO p q) = 53%positive).
    { rewrite digits2_pos_shift. lia. }
    unfold fexp, emin.
    replace (Z.max (Z.pos (digits2_pos p) + 0 - 53) (3 - 1024 - 53))
      with (Z.neg q) by lia.
    change (binary_round_aux 53 1024) with (binary_round_aux prec emax).
    rewrite binary_round_aux_exact by (assumption || lia). eauto.
Qed.

Lemma div_eucl_div_mod (a b : Z) : Z.div_eucl a b = (a / b, a mod b).
Proof. unfold Z.div, Z.modulo. by destruct (Z.div_eucl a b). Qed.

(** A finite double divided by itself is 1.0. *)
Lemma SFdiv_same (m : positive) (e : Z) :
  digits2_pos m = 53%positive ->
  SFdiv prec emax (S754_finite false m e) (S754_finite false m e) = float_1_0.
Proof.
  intros Hd. unfold SFdiv, SFdiv_core_binary. cbn [Zdigits2]. rewrite Hd.
  replace (53 + e - (53 + e)) with 0 by lia. replace (e - e) with 0 by lia.
  change (Z.min (fexp prec emax 0) 0) with (-53).
  change (0 - -53) with 53.
  rewrite div_eucl_div_mod, Z.shiftl_mul_pow2 by lia.
  rewrite (Z.mul_comm (Z.pos m)), Z.div_mul, Z.mod_mul by lia.
  assert (Hloc : new_location (Z.pos m) 0 = loc_Exact).
  { unfold new_location. by destruct (Z.even (Z.pos m)). }
  rewrite Hloc. vm_compute. reflexivity.
Qed.

(** The quotients of the metrics. *)
Lemma py_truediv_zero (b : nat) :
  (0 < b)%nat -> Z.of_nat b < 2 ^ 53 -> py_truediv 0 b = Ok float_0_0.
Proof.
  intros Hb Hsmall. unfold py_truediv.
  rewrite bool_decide_eq_false_2 by lia.
  change (py_float_of_int (Z.of_nat 0)) with (Ok (S754_zero false)).
  cbn [mbind result_bind].
  destruct b as [| b]; [lia |]. rewrite Nat2Z.inj_succ, <- Z.add_1_r.
  destruct (Z.of_nat b + 1) as [| p | p] eqn:Hp; [lia | | lia].
  destruct (float_of_pos p ltac:(lia)) as (m & e & -> & _). reflexivity.
Qed.

Lemma py_truediv_same (b : nat) :
  (0 < b)%nat -> Z.of_nat b < 2 ^ 53 -> py_truediv b b = Ok float_1_0.
Proof.
  intros Hb Hsmall. unfold py_truediv.
  rewrite bool_decide_eq_false_2 by lia.
  destruct (Z.of_nat b) as [| p | p] eqn:Hp; [lia | | lia].
  destruct (float_of_pos p ltac:(lia)) as (m & e & -> & Hd).
  cbn [mbind result_bind]. by rewrite SFdiv_same.
Qed.

Lemma py_truediv_returns (a b : nat) :
  (0 < b)%nat -> Z.of_nat a < 2 ^ 53 -> Z.of_nat b < 2 ^ 53 ->
  exists f, py_truediv a b = Ok f.
Proof.
  intros Hb Ha Hsmall. unfold py_truediv.
  rewrite bool_decide_eq_false_2 by lia.
  assert (Hfloat : forall n : nat, Z.of_nat n < 2 ^ 53 ->
            exists f, py_float_of_int (Z.of_nat n) = Ok f).
  { intros n Hn. destruct (Z.of_nat n) as [| p | p] eqn:Hp; [by eexists | | lia].
    destruct (float_of_pos p ltac:(lia)) as (m & e & -> & _). by eexists. }
  destruct (Hfloat a Ha) as [x ->]. destruct (Hfloat b Hsmall) as [y ->].
  by eexists.
Qed.

End FloatFacts.

(** ** The retrieval metrics at their ends *)

Module RetrievalEvalExtra.
Import RetrievalEval FloatFacts.

Section Metrics.
Context {Id : Type} `{Countable Id}.

Lemma size_list_to_set_le_length (l : list Id) :
  (size (list_to_set l : gset Id) <= length l)%nat.
Proof using Type.
  induction l as [| x l IH]; [by rewrite list_to_set_nil, size_empty |].
  rewrite list_to_set_cons, size_union_alt, size_singleton. cbn [length].
  assert (size (list_to_set l ∖ {[x]} : gset Id) <= size (list_to_set l : gset Id))%nat
    by (apply subseteq_size; intros y Hy; by apply elem_of_difference in Hy as [Hy _]).
  lia.
Qed.

Lemma size_slice_set (retrieved_ids : list Id) (k : Z) :
  (size (list_to_set (py_slice retrieved_ids 0 k) : gset Id) <= length retrieved_ids)%nat.
Proof using Type.
  etransitivity; [apply size_list_to_set_le_length |].
  unfold py_slice. rewrite length_take, length_drop. lia.
Qed.

(** X28.  For fewer than 2^53 relevant ids [compute_recall_at_k] returns
    a float and does not raise.  It returns exactly 0.0 when none of the
    first k retrieved ids is relevant, and exactly 1.0 when there is a
    relevant id and all relevant ids are among the first k retrieved
    ones. *)
Theorem recall_endpoints (retrieved_ids : list Id) (relevant_ids : gset Id) (k : Z) :
  Z.of_nat (size relevant_ids) < 2 ^ 53 ->
  let top : gset Id := list_to_set (py_slice retrieved_ids 0 k) in
  (exists f, compute_recall_at_k retrieved_ids relevant_ids k = Ok f) /\
  (top ∩ relevant_ids = ∅ ->
   compute_recall_at_k retrieved_ids relevant_ids k = Ok float_0_0) /\
  (relevant_ids <> ∅ -> relevant_ids ⊆ top ->
   compute_recall_at_k retrieved_ids relevant_ids k = Ok float_1_0).
Proof using Type.
  intros Hsmall. cbv zeta. unfold compute_recall_at_k.
  case_bool_decide as Hempty.
  - split; [by eexists |]. split; [done | done].
  - assert (Hpos : (0 < size relevant_ids)%nat).
    { destruct (size relevant_ids) eqn:Hs; [| lia].
      apply size_empty_inv in Hs. exfalso. apply Hempty. by apply leibniz_equiv. }
    split; [| split].
    + apply py_truediv_returns; [exact Hpos | | exact Hsmall].
      assert (size (list_to_set (py_slice retrieved_ids 0 k) ∩ relevant_ids)
              <= size relevant_ids)%nat
        by (apply subseteq_size, intersection_subseteq_r).
      lia.
    + intros ->. rewrite size_empty. by apply py_truediv_zero.
    + intros _ Hsub.
      replace (list_to_set (py_slice retrieved_ids 0 k) ∩ relevant_ids)
        with relevant_ids.
      * by apply py_truediv_same.
      * apply leibniz_equiv, set_equiv. intros x. rewrite elem_of_intersection.
        split; [intros Hx; split; [by apply Hsub | exact Hx] | by intros [_ Hx]].
Qed.

(** X29.  For fewer than 2^53 retrieved ids [compute_precision_at_k]
    returns a float and does not raise.  It returns exactly 0.0 when none
    of the first k retrieved ids is relevant, and exactly 1.0 when the
    slice is not empty and all of its ids are relevant. *)
Theorem precision_endpoints (retrieved_ids : list Id) (relevant_ids : gset Id) (k : Z) :
  Z.of_nat (length retrieved_ids) < 2 ^ 53 ->
  let slice := py_slice retrieved_ids 0 k in
  (exists f, compute_precision_at_k retrieved_ids relevant_ids k = Ok f) /\
  (Forall (fun x => x ∉ relevant_ids) slice ->
   compute_precision_at_k retrieved_ids relevant_ids k = Ok float_0_0) /\
  (slice <> [] -> Forall (fun x => x ∈ relevant_ids) slice ->
   compute_precision_at_k retrieved_ids relevant_ids k = Ok float_1_0).
Proof using Type.
  intros Hsmall. cbv zeta. unfold compute_precision_at_k.
  pose proof (size_slice_set retrieved_ids k) as Hsize.
  case_bool_decide as Hempty.
  - split; [by eexists |]. split; [done | done].
  - set (slice := py_slice retrieved_ids 0 k) in *.
    assert (Hpos : (0 < size (list_to_set slice : gset Id))%nat).
    { destruct (size (list_to_set slice : gset Id)) eqn:Hs; [| lia].
      apply size_empty_inv in Hs. exfalso.
      destruct slice as [| x slice']; [done |].
      assert (Hx : x ∈ (list_to_set (x :: slice') : gset Id))
        by (apply elem_of_list_to_set; left).
      rewrite Hs in Hx. by apply elem_of_empty in Hx. }
    split; [| split].
    + apply py_truediv_returns; [exact Hpos | | lia].
      assert (size (list_to_set slice ∩ relevant_ids)
              <= size (list_to_set slice : gset Id))%nat
        by (apply subseteq_size, intersection_subseteq_l).
      lia.
    + intros Hnone.
      replace (list_to_set slice ∩ relevant_ids) with (∅ : gset Id).
      * rewrite size_empty. apply py_truediv_zero; [exact Hpos | lia].
      * symmetry. apply leibniz_equiv. apply elem_of_equiv_empty. intros x Hx.
        apply elem_of_intersection in Hx as [Hin Hrel].
        apply elem_of_list_to_set in Hin. rewrite Forall_forall in Hnone.
        by apply (Hnone x).
    + intros _ Hall.
      replace (list_to_set slice ∩ relevant_ids) with (list_to_set slice : gset Id).
      * apply py_truediv_same; [exact Hpos | lia].
      * apply leibniz_equiv. apply set_equiv. intros x.
        rewrite elem_of_intersection, elem_of_list_to_set. rewrite Forall_forall in Hall.
        split; [intros Hx; split; [exact Hx | by apply Hall] | by intros [Hx _]].
Qed.

(** X30.  The cut-off [k] follows the slicing of Python.  A [k] of at
    least the number of retrieved ids gives the metrics of the whole
    list; a negative [k] does not give an empty slice but drops the last
    [-k] ids, and gives the metrics at [max(len + k, 0)]; and the metrics
    depend on the ids of the slice, not on their order: two calls whose
    slices are permutations of each other return the same recall and the
    same precision. *)
Theorem metrics_cutoff (retrieved_ids : list Id) (relevant_ids : gset Id) (k : Z) :
  let len := Z.of_nat (length retrieved_ids) in
  (len <= k ->
   compute_recall_at_k retrieved_ids relevant_ids k
     = compute_recall_at_k retrieved_ids relevant_ids len /\
   compute_precision_at_k retrieved_ids relevant_ids k
     = compute_precision_at_k retrieved_ids relevant_ids len) /\
  (k < 0 ->
   py_slice retrieved_ids 0 k = take (Z.to_nat (len + k)) retrieved_ids /\
   compute_recall_at_k retrieved_ids relevant_ids k
     = compute_recall_at_k retrieved_ids relevant_ids (Z.max (len + k) 0) /\
   compute_precision_at_k retrieved_ids relevant_ids k
     = compute_precision_at_k retrieved_ids relevant_ids (Z.max (len + k) 0)) /\
  (forall other k',
     py_slice other 0 k' ≡ₚ py_slice retrieved_ids 0 k ->
     compute_recall_at_k other relevant_ids k'
       = compute_recall_at_k retrieved_ids relevant_ids k /\
     compute_precision_at_k other relevant_ids k'
       = compute_precision_at_k retrieved_ids relevant_ids k).
Proof using Type.
  cbv zeta.
  assert (Hslice : forall k1 k2,
            slice_bound (Z.of_nat (length retrieved_ids)) k1
              = slice_bound (Z.of_nat (length retrieved_ids)) k2 ->
            py_slice retrieved_ids 0 k1 = py_slice retrieved_ids 0 k2).
  { intros k1 k2 Hb. unfold py_slice. by rewrite Hb. }
  split; [| split].
  - intros Hk.
    assert (E : py_slice retrieved_ids 0 k
                = py_slice retrieved_ids 0 (Z.of_nat (length retrieved_ids))).
    { apply Hslice. unfold slice_bound.
      destruct (Z.ltb_spec k 0); [lia |].
      destruct (Z.ltb_spec (Z.of_nat (length retrieved_ids)) 0); lia. }
    unfold compute_recall_at_k, compute_precision_at_k. by rewrite E.
  - intros Hk.
    assert (E : py_slice retrieved_ids 0 k
                = py_slice retrieved_ids 0
                    (Z.max (Z.of_nat (length retrieved_ids) + k) 0)).
    { apply Hslice. unfold slice_bound.
      destruct (Z.ltb_spec k 0); [| lia].
      destruct (Z.ltb_spec (Z.max (Z.of_nat (length retrieved_ids) + k) 0) 0); lia. }
    split.
    + unfold py_slice, slice_bound. cbn [Z.ltb Z.compare].
      destruct (Z.ltb_spec k 0); [| lia].
      replace (Z.to_nat (Z.min 0 (Z.of_nat (length retrieved_ids)))) with 0%nat by lia.
      rewrite drop_0. f_equal. lia.
    + unfold compute_recall_at_k, compute_precision_at_k. by rewrite E.
  - intros other k' Hperm.
    assert (Hset : (list_to_set (py_slice other 0 k') : gset Id)
                   = list_to_set (py_slice retrieved_ids 0 k)).
    { apply leibniz_equiv. by rewrite Hperm. }
    assert (Hnil : py_slice other 0 k' = [] <-> py_slice retrieved_ids 0 k = []).
    { split; intros E; rewrite E in Hperm;
        [symmetry in Hperm |]; by apply Permutation_nil_r in Hperm. }
    unfold compute_recall_at_k, compute_precision_at_k. rewrite Hset.
    split; [reflexivity |].
    destruct (decide (py_slice retrieved_ids 0 k = [])) as [E | E].
    + rewrite !bool_decide_eq_true_2; [reflexivity | exact E | by apply Hnil].
    + rewrite !bool_decide_eq_false_2; [reflexivity | exact E |].
      intros E'. by apply E, Hnil.
Qed.

End Metrics.
(** *** The theorems at work *)

#[local] Open Scope string_scope.

Lemma recall_endpoints_witness :
  compute_recall_at_k ["a"; "b"; "c"] ({["a"]} ∪ {["b"]} : gset string) 2 = Ok float_1_0 /\
  compute_recall_at_k ["a"; "b"; "c"] ({["c"]} : gset string) 2 = Ok float_0_0.
Proof.
  split.
  - apply (recall_endpoints ["a"; "b"; "c"] ({["a"]} ∪ {["b"]}) 2).
    + vm_compute. reflexivity.
    + vm_compute. discriminate.
    + apply (bool_decide_unpack _). vm_compute. exact I.
  - apply (recall_endpoints ["a"; "b"; "c"] {["c"]} 2).
    + vm_compute. reflexivity.
    + apply (bool_decide_unpack _). vm_compute. exact I.
Defined.

Lemma precision_endpoints_witness :
  compute_precision_at_k ["a"; "b"; "c"] ({["a"]} ∪ {["b"]} : gset string) 2 = Ok float_1_0 /\
  compute_precision_at_k ["a"; "b"; "c"] ({["c"]} : gset string) 2 = Ok float_0_0.
Proof.
  split.
  - apply (precision_endpoints ["a"; "b"; "c"] ({["a"]} ∪ {["b"]}) 2).
    + vm_compute. reflexivity.
    + discriminate.
    + apply (bool_decide_unpack _). vm_compute. exact I.
  - apply (precision_endpoints ["a"; "b"; "c"] {["c"]} 2).
    + vm_compute. reflexivity.
    + apply (bool_decide_unpack _). vm_compute. exact I.
Defined.

End RetrievalEvalExtra.
